(** * Retrieval core of the GIKI prospectus Q&A chatbot

    A shallow embedding of the retrieval pipeline of the repository:

    - [src/embeddings/embedding_manager.py]  (class SimpleEmbeddingManager)
    - [src/vectorstore/vector_store.py]      (class SimpleVectorStore)
    - [src/text_chunker.py]                  (class TextChunker)
    - [src/rag/rag_engine.py]                (class RAGEngine)
    - [src/config.py]                        (class Config)
    - [src/document_processor.py]            (class DocumentProcessor)
    - [src/llm/llm_manager.py]               (class LLMManager)

    Conventions of the embedding.

    - A Python [str] is the list of its code points ([pystr]); a [bytes]
      value is a list of integers in [0, 256).
    - A numpy [float64] is modelled by a real number: arithmetic is exact,
      so rounding, overflow and NaN are outside the model.
    - A call that raises is modelled by [None] (by [Raises msg] where the
      text of the exception is used); every [try/except] of the source is
      the corresponding [match].  The methods that mutate the store run
      in a state monad with an exception, [M], so that the mutations made
      before a raise are kept.
    - The collaborators that live outside the repository (the langchain
      text splitter, the tiktoken counter, the language-model client, the
      text extraction and the outcome of the write to disk) are arguments
      of the functions that call them.  [hashlib.md5] is implemented
      (RFC 1321).
    - What depends on the Unicode database or on the machine is a
      variable of the section that uses it: [str.lower], the characters
      that [\w] matches, the path functions, the file system and the
      readers of PDF, DOCX and text files. *)

From Stdlib Require Import ZArith List Reals Lra Lia String Ascii.
From Stdlib Require Import Permutation Sorted.
From Stdlib Require PrimFloat Uint63 SpecFloat FloatOps FloatAxioms.
From stdpp Require Import base option list sorting strings gmap.
Import ListNotations.

Open Scope Z_scope.

(** ** Python strings and the UTF-8 codec *)

Abbreviation pystr := (list Z).
Abbreviation pybytes := (list Z).

(** An ASCII literal as a Python string. *)
Definition str_of_string (s : string) : pystr :=
  map (fun a => Z.of_nat (nat_of_ascii a)) (list_ascii_of_string s).

Definition is_surrogate (c : Z) : bool := (0xD800 <=? c) && (c <=? 0xDFFF).

(** [c.encode('utf-8')] for one code point: lone surrogates cannot be
    encoded (UnicodeEncodeError). *)
Definition utf8_encode_char (c : Z) : option pybytes :=
  if c <? 0 then None
  else if c <? 0x80 then Some [c]
  else if c <? 0x800 then
    Some [Z.lor 0xC0 (Z.shiftr c 6); Z.lor 0x80 (Z.land c 0x3F)]
  else if is_surrogate c then None
  else if c <? 0x10000 then
    Some [Z.lor 0xE0 (Z.shiftr c 12);
          Z.lor 0x80 (Z.land (Z.shiftr c 6) 0x3F);
          Z.lor 0x80 (Z.land c 0x3F)]
  else if c <? 0x110000 then
    Some [Z.lor 0xF0 (Z.shiftr c 18);
          Z.lor 0x80 (Z.land (Z.shiftr c 12) 0x3F);
          Z.lor 0x80 (Z.land (Z.shiftr c 6) 0x3F);
          Z.lor 0x80 (Z.land c 0x3F)]
  else None.

(** [text.encode('utf-8')] *)
Fixpoint utf8_encode (s : pystr) : option pybytes :=
  match s with
  | [] => Some []
  | c :: s' =>
      b ← utf8_encode_char c;
      bs ← utf8_encode s';
      Some (b ++ bs)
  end.

(** ** hashlib.md5 *)

Module MD5.

Definition add32 (a b : Z) : Z := (a + b) mod 2 ^ 32.
Definition not32 (a : Z) : Z := Z.lxor a 0xFFFFFFFF.
Definition rotl32 (x c : Z) : Z :=
  Z.lor (Z.shiftl x c mod 2 ^ 32) (Z.shiftr x (32 - c)).

Definition K : list Z :=
  [ 0xd76aa478; 0xe8c7b756; 0x242070db; 0xc1bdceee;
    0xf57c0faf; 0x4787c62a; 0xa8304613; 0xfd469501;
    0x698098d8; 0x8b44f7af; 0xffff5bb1; 0x895cd7be;
    0x6b901122; 0xfd987193; 0xa679438e; 0x49b40821;
    0xf61e2562; 0xc040b340; 0x265e5a51; 0xe9b6c7aa;
    0xd62f105d; 0x02441453; 0xd8a1e681; 0xe7d3fbc8;
    0x21e1cde6; 0xc33707d6; 0xf4d50d87; 0x455a14ed;
    0xa9e3e905; 0xfcefa3f8; 0x676f02d9; 0x8d2a4c8a;
    0xfffa3942; 0x8771f681; 0x6d9d6122; 0xfde5380c;
    0xa4beea44; 0x4bdecfa9; 0xf6bb4b60; 0xbebfbc70;
    0x289b7ec6; 0xeaa127fa; 0xd4ef3085; 0x04881d05;
    0xd9d4d039; 0xe6db99e5; 0x1fa27cf8; 0xc4ac5665;
    0xf4292244; 0x432aff97; 0xab9423a7; 0xfc93a039;
    0x655b59c3; 0x8f0ccc92; 0xffeff47d; 0x85845dd1;
    0x6fa87e4f; 0xfe2ce6e0; 0xa3014314; 0x4e0811a1;
    0xf7537e82; 0xbd3af235; 0x2ad7d2bb; 0xeb86d391 ].

Definition shifts : list Z :=
  [ 7; 12; 17; 22; 7; 12; 17; 22; 7; 12; 17; 22; 7; 12; 17; 22;
    5; 9; 14; 20; 5; 9; 14; 20; 5; 9; 14; 20; 5; 9; 14; 20;
    4; 11; 16; 23; 4; 11; 16; 23; 4; 11; 16; 23; 4; 11; 16; 23;
    6; 10; 15; 21; 6; 10; 15; 21; 6; 10; 15; 21; 6; 10; 15; 21 ].

(** [n] little-endian bytes of [x]. *)
Fixpoint le_bytes (n : nat) (x : Z) : pybytes :=
  match n with
  | O => []
  | S n' => (x mod 256) :: le_bytes n' (x / 256)
  end.

Fixpoint le_word (bs : pybytes) : Z :=
  match bs with
  | [] => 0
  | b :: bs' => b + 256 * le_word bs'
  end.

(** Message padding: a 1 bit, zeros up to 56 mod 64, the bit length. *)
Definition pad (msg : pybytes) : pybytes :=
  let len := Z.of_nat (length msg) in
  msg ++ [0x80] ++ repeat 0 (Z.to_nat ((55 - len) mod 64))
      ++ le_bytes 8 ((8 * len) mod 2 ^ 64).

(** The [k] consecutive groups of [n] elements at the front of a list. *)
Fixpoint groups {A} (n k : nat) (l : list A) : list (list A) :=
  match k with
  | O => []
  | S k' => take n l :: groups n k' (drop n l)
  end.

Definition state : Type := Z * Z * Z * Z.

Definition init : state := (0x67452301, 0xefcdab89, 0x98badcfe, 0x10325476).

Definition round (M : list Z) (st : state) (i : nat) : state :=
  let '(a, b, c, d) := st in
  let '(f, g) :=
    if (i <? 16)%nat then
      (Z.lor (Z.land b c) (Z.land (not32 b) d), i)
    else if (i <? 32)%nat then
      (Z.lor (Z.land d b) (Z.land (not32 d) c), ((5 * i + 1) mod 16)%nat)
    else if (i <? 48)%nat then
      (Z.lxor (Z.lxor b c) d, ((3 * i + 5) mod 16)%nat)
    else
      (Z.lxor c (Z.lor b (not32 d)), ((7 * i) mod 16)%nat) in
  let f' := add32 (add32 (add32 f a) (nth i K 0)) (nth g M 0) in
  (d, add32 b (rotl32 f' (nth i shifts 0)), b, c).

Definition block (st : state) (blk : pybytes) : state :=
  let M := map le_word (groups 4 16 blk) in
  let '(a0, b0, c0, d0) := st in
  let '(a, b, c, d) := fold_left (round M) (seq 0 64) st in
  (add32 a0 a, add32 b0 b, add32 c0 c, add32 d0 d).

Definition digest (msg : pybytes) : pybytes :=
  let p := pad msg in
  let '(a, b, c, d) :=
    fold_left block (groups 64 (length p / 64) p) init in
  le_bytes 4 a ++ le_bytes 4 b ++ le_bytes 4 c ++ le_bytes 4 d.

Definition hex_digit (n : Z) : Z := if n <? 10 then 48 + n else 87 + n.

Definition hex_byte (b : Z) : pystr := [hex_digit (b / 16); hex_digit (b mod 16)].

(** [hashlib.md5(msg).hexdigest()] *)
Definition hexdigest (msg : pybytes) : pystr :=
  concat (map hex_byte (digest msg)).

End MD5.

(** ** Python values that occur in metadata dictionaries *)

Inductive pyval : Type :=
| PStr (s : pystr)
| PInt (n : Z).

(** A metadata dictionary: string keys, [dict.get(k, d)] is
    [default d (m !! k)]. *)
Abbreviation pydict := (gmap string pyval).

Definition dict_get (m : pydict) (k : string) (d : pyval) : pyval :=
  default d (m !! k).

(** ** Vectors of floats *)

Open Scope R_scope.

Abbreviation vec := (list R).

#[global] Instance R_eq_dec : EqDecision R := Req_dec_T.
#[global] Instance R_lt_dec : RelDecision Rlt := Rlt_dec.

(** [np.zeros(n)] *)
Definition zeros (n : nat) : vec := repeat 0 n.

(** [enumerate(l)] *)
Definition enumerate {A} (l : list A) : list (nat * A) :=
  imap (fun i x => (i, x)) l.

(** [sum(l)] *)
Definition py_sum (l : list R) : R := fold_left Rplus l 0.

(** [np.dot(v1, v2)] on one-dimensional arrays: the shapes must agree,
    otherwise ValueError. *)
Definition np_dot (v1 v2 : vec) : option R :=
  if decide (length v1 = length v2)
  then Some (py_sum (zip_with Rmult v1 v2))
  else None.

(** [np.linalg.norm(v)] : the Euclidean norm. *)
Definition np_norm (v : vec) : R := sqrt (py_sum (map (fun x => x * x) v)).

(** ** src/embeddings/embedding_manager.py *)

(** The dimension is a natural number: [np.zeros] accepts no negative
    size. *)
Record SimpleEmbeddingManager : Type := {
  embedding_dim : nat;
  model_name : string
}.

(** [SimpleEmbeddingManager.__init__(embedding_dim=384)] *)
Definition SimpleEmbeddingManager_init (embedding_dim : nat) : SimpleEmbeddingManager :=
  {| embedding_dim := embedding_dim; model_name := "simple-hash-embedding" |}.

Definition default_embedding_dim : nat := 384.

Definition EmbeddingManager : SimpleEmbeddingManager :=
  SimpleEmbeddingManager_init default_embedding_dim.

(** [ord(c)]: a character is its code point. *)
Definition ord (c : Z) : Z := c.

(** First loop of [_text_to_hash_vector]:
    [for i, char in enumerate(text_hash): if i < dim: vector[i] = ord(char) / 255.0] *)
Definition hash_prefix_step (dim : nat) (vector : vec) (ic : nat * Z) : vec :=
  let '(i, char) := ic in
  if (i <? dim)%nat then <[i := IZR (ord char) / 255]> vector else vector.

(** Second loop:
    [for i in range(len(text_hash), dim):
       vector[i] = (ord(text_hash[i % len(text_hash)]) + i) % 255 / 255.0].
    The digest has 32 characters ([MD5Facts.hexdigest_length]), so the
    index is in range and the modulus is not 0. *)
Definition hash_fill_step (text_hash : pystr) (vector : vec) (i : nat) : vec :=
  <[i := IZR ((ord (nth (i mod length text_hash) text_hash 0%Z) + Z.of_nat i) mod 255) / 255]>
    vector.

(** [_text_to_hash_vector]; [None] when [text.encode('utf-8')] raises. *)
Definition text_to_hash_vector (self : SimpleEmbeddingManager) (text : pystr)
  : option vec :=
  bs ← utf8_encode text;
  let text_hash := MD5.hexdigest bs in
  let dim := embedding_dim self in
  let vector := zeros dim in
  let vector := fold_left (hash_prefix_step dim) (enumerate text_hash) vector in
  let vector :=
    fold_left (hash_fill_step text_hash)
              (seq (length text_hash) (dim - length text_hash)) vector in
  Some vector.

(** [get_single_embedding]: any exception gives the zero vector. *)
Definition get_single_embedding (self : SimpleEmbeddingManager) (text : pystr) : vec :=
  match text_to_hash_vector self text with
  | Some v => v
  | None => zeros (embedding_dim self)
  end.

(** [get_embeddings]: the list comprehension over [texts]. *)
Definition get_embeddings (self : SimpleEmbeddingManager) (texts : list pystr)
  : list vec :=
  map (get_single_embedding self) texts.

(** [get_embedding_dimension] *)
Definition get_embedding_dimension (self : SimpleEmbeddingManager) : nat :=
  embedding_dim self.

(** [compute_similarity]: cosine similarity, 0.0 on a zero norm and on
    any exception ([np.dot] on mismatched shapes). *)
Definition compute_similarity (embedding1 embedding2 : vec) : R :=
  match np_dot embedding1 embedding2 with
  | Some dot_product =>
      let norm1 := np_norm embedding1 in
      let norm2 := np_norm embedding2 in
      if decide (norm1 = 0 \/ norm2 = 0) then 0
      else dot_product / (norm1 * norm2)
  | None => 0
  end.

(** A chunk as produced by the chunker, and with its embedding attached.
    The encoded chunk is a dictionary whose three keys are looked up by
    [add_documents]; a missing key is [None]. *)
Record Chunk : Type := {
  content : pystr;
  chunk_metadata : pydict
}.

Record EncodedChunk : Type := {
  ec_content : option pystr;
  ec_embedding : option vec;
  ec_metadata : option pydict
}.

(** [batch_encode_with_metadata] *)
Definition batch_encode_with_metadata (self : SimpleEmbeddingManager)
    (chunks : list Chunk) : list EncodedChunk :=
  map (fun chunk =>
         let text := content chunk in
         let embedding := get_single_embedding self text in
         {| ec_content := Some text;
            ec_embedding := Some embedding;
            ec_metadata := Some (chunk_metadata chunk) |})
      chunks.

(** ** src/vectorstore/vector_store.py *)

(** The three parallel lists of [SimpleVectorStore]; the same record is
    the dictionary pickled to [vector_store.pkl]. *)
Record SimpleVectorStore : Type := {
  documents : list pystr;
  embeddings : list vec;
  metadata : list pydict
}.

Definition empty_store : SimpleVectorStore :=
  {| documents := []; embeddings := []; metadata := [] |}.

(** What a method of the store can touch: the object, and the file
    [persist_directory / "vector_store.pkl"] ([None]: no such file). *)
Record World : Type := {
  store : SimpleVectorStore;
  disk : option SimpleVectorStore
}.

(** Methods that mutate the store and may raise: a state monad with an
    exception.  The state changes made before a raise are kept, as the
    mutations of a Python object are. *)
Definition M (A : Type) : Type := World -> option A * World.

#[global] Instance M_ret : MRet M := fun A a w => (Some a, w).
#[global] Instance M_bind : MBind M := fun A B f m w =>
  match m w with
  | (Some a, w') => f a w'
  | (None, w') => (None, w')
  end.

Definition raise {A} : M A := fun w => (None, w).

(** [try: body except Exception: handler] *)
Definition try_except {A} (body handler : M A) : M A := fun w =>
  match body w with
  | (Some a, w') => (Some a, w')
  | (None, w') => handler w'
  end.

(** [d[k]] on a dictionary whose key may be missing (KeyError). *)
Definition getitem {A} (o : option A) : M A :=
  match o with
  | Some a => mret a
  | None => raise
  end.

Definition modify_store (f : SimpleVectorStore -> SimpleVectorStore) : M unit :=
  fun w => (Some tt, {| store := f (store w); disk := disk w |}).

Definition documents_append (c : pystr) : M unit :=
  modify_store (fun s => {| documents := documents s ++ [c];
                            embeddings := embeddings s;
                            metadata := metadata s |}).

Definition embeddings_append (e : vec) : M unit :=
  modify_store (fun s => {| documents := documents s;
                            embeddings := embeddings s ++ [e];
                            metadata := metadata s |}).

Definition metadata_append (m : pydict) : M unit :=
  modify_store (fun s => {| documents := documents s;
                            embeddings := embeddings s;
                            metadata := metadata s ++ [m] |}).

(** [for x in l: body(x)] *)
Fixpoint for_each {A} (l : list A) (body : A -> M unit) : M unit :=
  match l with
  | [] => mret tt
  | x :: l' => body x ;; for_each l' body
  end.

(** What the environment does with the write of [vector_store.pkl]:
    the write goes through, or [open] or [pickle.dump] raises and the
    file is left with the content [remains] ([None]: no readable file). *)
Inductive write_outcome : Type :=
| Written
| WriteFails (remains : option SimpleVectorStore).

(** [with open(data_file, 'wb') as f: pickle.dump(data, f)] *)
Definition pickle_dump (wr : write_outcome) (data : SimpleVectorStore) : M unit :=
  fun w =>
    match wr with
    | Written => (Some tt, {| store := store w; disk := Some data |})
    | WriteFails remains => (None, {| store := store w; disk := remains |})
    end.

(** [_save_data]: an error is logged and swallowed. *)
Definition save_data (wr : write_outcome) : M unit :=
  try_except
    (fun w => pickle_dump wr (store w) w)
    (mret tt).

(** [_load_data] as called by [__init__] on the fresh, empty object. *)
Definition SimpleVectorStore_init (on_disk : option SimpleVectorStore)
  : SimpleVectorStore :=
  match on_disk with
  | Some data => data
  | None => empty_store
  end.

(** The body of the loop of [add_documents]: the three keys of the
    chunk are looked up and appended one after the other. *)
Definition add_one (chunk : EncodedChunk) : M unit :=
  c ← getitem (ec_content chunk);
  documents_append c ;;
  e ← getitem (ec_embedding chunk);
  embeddings_append e ;;
  m ← getitem (ec_metadata chunk);
  metadata_append m.

(** [add_documents]: returns [True], or [False] when the loop raised. *)
Definition add_documents (wr : write_outcome) (encoded_chunks : list EncodedChunk)
  : M bool :=
  try_except
    (for_each encoded_chunks add_one ;;
     save_data wr ;;
     mret true)
    (mret false).

(** [delete_collection] and [reset_collection] *)
Definition delete_collection (wr : write_outcome) : M bool :=
  try_except
    (modify_store (fun _ => empty_store) ;;
     save_data wr ;;
     mret true)
    (mret false).

Definition reset_collection (wr : write_outcome) : M bool :=
  delete_collection wr.

(** [_cosine_similarity]: the same computation as [compute_similarity]. *)
Definition cosine_similarity (vec1 vec2 : vec) : R :=
  match np_dot vec1 vec2 with
  | Some dot_product =>
      let norm1 := np_norm vec1 in
      let norm2 := np_norm vec2 in
      if decide (norm1 = 0 \/ norm2 = 0) then 0
      else dot_product / (norm1 * norm2)
  | None => 0
  end.

(** Python's [<] on the tuples [(similarity, i)]: the first components
    decide unless they are equal, then the second ones do. *)
Definition tuple_ltb (a b : R * nat) : bool :=
  if decide (a.1 = b.1) then bool_decide (a.2 < b.2)%nat
  else bool_decide (a.1 < b.1).

(** [similarities.sort(reverse=True)]: a stable sort into descending
    order.  The keys are compared with [tuple_ltb] only; an element is
    placed before the elements it is not smaller than. *)
Fixpoint insert_desc (x : R * nat) (l : list (R * nat)) : list (R * nat) :=
  match l with
  | [] => [x]
  | y :: l' => if tuple_ltb x y then y :: insert_desc x l' else x :: y :: l'
  end.

Fixpoint sort_reverse (l : list (R * nat)) : list (R * nat) :=
  match l with
  | [] => []
  | x :: l' => insert_desc x (sort_reverse l')
  end.

(** [l[:k]] *)
Definition slice_to {A} (k : Z) (l : list A) : list A :=
  if (0 <=? k)%Z then take (Z.to_nat k) l
  else take (length l - Z.to_nat (- k)) l.

Record SearchResult : Type := {
  sr_content : pystr;
  sr_metadata : pydict;
  similarity_score : R
}.

(** The list [similarities] of [search_similar] after the sort. *)
Definition ranked (self : SimpleVectorStore) (query_vector : vec)
  : list (R * nat) :=
  sort_reverse
    (imap (fun i doc_embedding => (cosine_similarity query_vector doc_embedding, i))
          (embeddings self)).

(** One iteration of the loop that builds [results]; the two list
    accesses raise IndexError out of range. *)
Definition result_at (self : SimpleVectorStore) (si : R * nat)
  : option SearchResult :=
  let '(similarity, idx) := si in
  c ← documents self !! idx;
  m ← metadata self !! idx;
  Some {| sr_content := c; sr_metadata := m; similarity_score := similarity |}.

(** [search_similar]; any exception gives the empty list. *)
Definition search_similar (self : SimpleVectorStore) (query_embedding : vec)
    (top_k : Z) : list SearchResult :=
  match embeddings self with
  | [] => []
  | _ =>
      match mapM (result_at self) (slice_to top_k (ranked self query_embedding)) with
      | Some results => results
      | None => []
      end
  end.

(** The default value of the parameter [top_k] of [search_similar]. *)
Definition search_similar_default_top_k : Z := 3.

Record CollectionStats : Type := {
  total_documents : nat;
  unique_files : nat;
  stats_status : string
}.

#[global] Instance pyval_eq_dec : EqDecision pyval.
Proof. solve_decision. Defined.

(** [get_collection_stats] (the list [file_names] is left out: its order
    is that of a Python set). *)
Definition get_collection_stats (self : SimpleVectorStore) : CollectionStats :=
  let names :=
    map (fun meta => dict_get meta "file_name" (PStr (str_of_string "Unknown")))
        (metadata self) in
  {| total_documents := length (documents self);
     unique_files := length (remove_dups names);
     stats_status := match documents self with [] => "empty" | _ => "active" end |}.

(** ** src/config.py *)

(** The class attributes of [Config] that the core reads; their values
    come from the process environment when the module is imported. *)
Record Config : Type := {
  CHUNK_SIZE : Z;
  CHUNK_OVERLAP : Z;
  TOP_K_RETRIEVAL : Z
}.

(** The values used when the environment sets none of them. *)
Definition default_config : Config :=
  {| CHUNK_SIZE := 500; CHUNK_OVERLAP := 50; TOP_K_RETRIEVAL := 3 |}.

(** ** src/text_chunker.py *)

(** [str.isspace] on one character (the Unicode white space). *)
Definition py_isspace (c : Z) : bool :=
  ((9 <=? c) && (c <=? 13) || (28 <=? c) && (c <=? 32)
   || (c =? 0x85) || (c =? 0xA0) || (c =? 0x1680)
   || (0x2000 <=? c) && (c <=? 0x200A)
   || (c =? 0x2028) || (c =? 0x2029) || (c =? 0x202F)
   || (c =? 0x205F) || (c =? 0x3000))%Z.

Fixpoint lstrip (s : pystr) : pystr :=
  match s with
  | [] => []
  | c :: s' => if py_isspace c then lstrip s' else s
  end.

(** [s.strip()] *)
Definition py_strip (s : pystr) : pystr := rev (lstrip (rev (lstrip s))).

(** The truth value of a string: non-empty. *)
Definition truthy (s : pystr) : bool :=
  match s with [] => false | _ => true end.

Record PageRecord : Type := {
  pg_file_name : pyval;
  pg_page_number : pyval;
  pg_text : pystr
}.

Section Chunker.

(** [tiktoken.get_encoding("cl100k_base").encode(text)], as the number
    of tokens it returns, or [None] when it raises. *)
Variable tiktoken_len : pystr -> option nat.

(** [RecursiveCharacterTextSplitter(chunk_size, chunk_overlap,
    length_function, separators).split_text]; [None] when it raises. *)
Variable RecursiveCharacterTextSplitter :
  Z -> Z -> (pystr -> nat) -> list pystr -> pystr -> option (list pystr).

Record TextChunker : Type := {
  chunk_size : Z;
  chunk_overlap : Z
}.

(** [x or y] on an optional integer: [None] and [0] are falsy. *)
Definition or_default (x : option Z) (y : Z) : Z :=
  match x with
  | Some v => if (v =? 0)%Z then y else v
  | None => y
  end.

(** [TextChunker.__init__(chunk_size=None, chunk_overlap=None)] *)
Definition TextChunker_init (cfg : Config) (chunk_size chunk_overlap : option Z)
  : TextChunker :=
  {| chunk_size := or_default chunk_size (CHUNK_SIZE cfg);
     chunk_overlap := or_default chunk_overlap (CHUNK_OVERLAP cfg) |}.

(** [_count_tokens]: the character count when tiktoken fails. *)
Definition count_tokens (text : pystr) : nat :=
  match tiktoken_len text with
  | Some n => n
  | None => length text
  end.

Definition separators : list pystr :=
  map str_of_string
    [String "010" (String "010" EmptyString); String "010" EmptyString;
     ". "; "! "; "? "; " "; ""]%string.

(** [self.text_splitter.split_text] *)
Definition split_text (self : TextChunker) : pystr -> option (list pystr) :=
  RecursiveCharacterTextSplitter
    (chunk_size self) (chunk_overlap self) count_tokens separators.

(** The body of the inner loop of [chunk_document_pages] for the
    element [(i, chunk_text)] of [enumerate(page_chunks)]. *)
Definition make_chunk (page : PageRecord) (page_chunks : list pystr)
    (i : nat) (chunk_text : pystr) : option Chunk :=
  if truthy (py_strip chunk_text) then
    Some {| content := py_strip chunk_text;
            chunk_metadata :=
              {[ "file_name"%string := pg_file_name page;
                 "page_number"%string := pg_page_number page;
                 "chunk_index"%string := PInt (Z.of_nat i);
                 "total_chunks"%string := PInt (Z.of_nat (length page_chunks));
                 "chunk_size"%string := PInt (Z.of_nat (length chunk_text));
                 "token_count"%string := PInt (Z.of_nat (count_tokens chunk_text)) ]} |}
  else None.

(** The chunks appended for one page. *)
Definition page_chunk_objects (page : PageRecord) (page_chunks : list pystr)
  : list Chunk :=
  omap (fun ic => make_chunk page page_chunks ic.1 ic.2) (enumerate page_chunks).

(** [chunk_document_pages]: a page whose splitting raises is skipped. *)
Definition chunk_document_pages (self : TextChunker) (pages : list PageRecord)
  : list Chunk :=
  fold_left
    (fun chunks page =>
       match split_text self (pg_text page) with
       | Some page_chunks => chunks ++ page_chunk_objects page page_chunks
       | None => chunks
       end)
    pages [].

End Chunker.

(** ** src/rag/rag_engine.py *)

(** The result of a call that either returns or raises an exception
    whose text is [str(e)]. *)
Inductive outcome (A : Type) : Type :=
| Returns (a : A)
| Raises (msg : pystr).
Arguments Returns {A} a.
Arguments Raises {A} msg.

Record Source : Type := {
  src_file_name : pyval;
  src_page_number : pyval;
  src_similarity_score : R
}.

(** The dictionary returned by [ask_question]; a key that a branch does
    not set is [None]. *)
Record QueryResult : Type := {
  success : bool;
  error : option pystr;
  answer : pystr;
  sources : list Source;
  confidence : R;
  context_length : option nat;
  sources_count : option nat
}.

(** The part of the dictionary of [get_system_status] that the core
    contract names. *)
Record SystemStatus : Type := {
  st_vector_store_status : string;
  st_total_documents : nat;
  st_unique_files : nat;
  st_embedding_model : string;
  st_embedding_dimension : nat;
  st_chunk_size : Z;
  st_chunk_overlap : Z;
  st_top_k_retrieval : Z
}.

Definition insufficient_information : pystr :=
  str_of_string
    "I don't have enough information from the uploaded documents to answer this question. Please make sure relevant GIKI documents are uploaded.".

Definition error_answer : pystr :=
  str_of_string
    "Sorry, I encountered an error while processing your question. Please try again.".

Definition unknown : pyval := PStr (str_of_string "Unknown").

(** [sep.join(parts)] *)
Fixpoint join (sep : pystr) (parts : list pystr) : pystr :=
  match parts with
  | [] => []
  | [p] => p
  | p :: ps => p ++ sep ++ join sep ps
  end.

Definition paragraph_break : pystr := [10; 10]%Z.

(** ** src/text_chunker.py: statistics and filtering *)

#[global] Instance outcome_ret : MRet outcome := fun A a => Returns a.
#[global] Instance outcome_bind : MBind outcome := fun A B f m =>
  match m with
  | Returns a => f a
  | Raises msg => Raises msg
  end.

(** [str(KeyError(k))] *)
Definition key_error (k : string) : pystr :=
  str_of_string (String.append "'" (String.append k "'")).

Definition type_error_add : pystr :=
  str_of_string "unsupported operand type(s) for +: 'int' and 'str'".

Definition type_error_lt : pystr :=
  str_of_string "'<' not supported between instances of 'str' and 'int'".

Definition type_error_gt : pystr :=
  str_of_string "'>' not supported between instances of 'str' and 'int'".

(** [chunk['metadata'][k]] *)
Definition metadata_item (chunk : Chunk) (k : string) : outcome pyval :=
  match chunk_metadata chunk !! k with
  | Some v => Returns v
  | None => Raises (key_error k)
  end.

(** [acc + v] with an integer on the left. *)
Definition int_add (acc : Z) (v : pyval) : outcome Z :=
  match v with
  | PInt n => Returns (acc + n)%Z
  | PStr _ => Raises type_error_add
  end.

(** [sum(chunk['metadata'][k] for chunk in chunks)]: the generator looks
    a value up and adds it before it looks the next one up. *)
Fixpoint sum_items (k : string) (chunks : list Chunk) (acc : Z) : outcome Z :=
  match chunks with
  | [] => Returns acc
  | chunk :: rest =>
      v ← metadata_item chunk k;
      acc' ← int_add acc v;
      sum_items k rest acc'
  end.

(** [[chunk['metadata'][k] for chunk in chunks]] *)
Fixpoint list_items (k : string) (chunks : list Chunk) : outcome (list pyval) :=
  match chunks with
  | [] => Returns []
  | chunk :: rest =>
      v ← metadata_item chunk k;
      vs ← list_items k rest;
      Returns (v :: vs)
  end.

(** The integers of a list of values, as [sum] meets them: the first
    string raises the TypeError of [int + str]. *)
Fixpoint as_ints (l : list pyval) : outcome (list Z) :=
  match l with
  | [] => Returns []
  | v :: vs =>
      n ← int_add 0 v;
      ns ← as_ints vs;
      Returns (n :: ns)
  end.

(** [min(l)] and [max(l)] on a non-empty list of integers. *)
Definition list_min (l : list Z) : Z :=
  match l with
  | [] => 0%Z
  | x :: l' => fold_left Z.min l' x
  end.

Definition list_max (l : list Z) : Z :=
  match l with
  | [] => 0%Z
  | x :: l' => fold_left Z.max l' x
  end.

Definition sum_Z (l : list Z) : Z := fold_left Z.add l 0%Z.

(** The dictionary returned by [get_chunk_statistics]. *)
Record ChunkStatistics : Type := {
  cs_total_chunks : nat;
  cs_total_tokens : Z;
  cs_avg_chunk_size : R;
  cs_min_chunk_size : Z;
  cs_max_chunk_size : Z
}.

(** [get_chunk_statistics(chunks)]; it has no [try]: a missing key or a
    value that is not a number raises. *)
Definition get_chunk_statistics (chunks : list Chunk) : outcome ChunkStatistics :=
  match chunks with
  | [] =>
      Returns {| cs_total_chunks := 0; cs_total_tokens := 0;
                 cs_avg_chunk_size := 0;
                 cs_min_chunk_size := 0; cs_max_chunk_size := 0 |}
  | _ =>
      total_tokens ← sum_items "token_count" chunks 0;
      chunk_sizes ← list_items "chunk_size" chunks;
      sizes ← as_ints chunk_sizes;
      Returns {| cs_total_chunks := length chunks;
                 cs_total_tokens := total_tokens;
                 cs_avg_chunk_size := IZR (sum_Z sizes) / INR (length chunk_sizes);
                 cs_min_chunk_size := list_min sizes;
                 cs_max_chunk_size := list_max sizes |}
  end.

(** [chunk_size < min_size] and [chunk_size > max_size] on a value of
    the metadata. *)
Definition int_lt (v : pyval) (n : Z) : outcome bool :=
  match v with
  | PInt m => Returns (m <? n)%Z
  | PStr _ => Raises type_error_lt
  end.

Definition int_gt (v : pyval) (n : Z) : outcome bool :=
  match v with
  | PInt m => Returns (n <? m)%Z
  | PStr _ => Raises type_error_gt
  end.

(** [max_size and chunk_size > max_size]: [None] and [0] are falsy. *)
Definition exceeds (chunk_size : pyval) (max_size : option Z) : outcome bool :=
  match max_size with
  | None => Returns false
  | Some m => if (m =? 0)%Z then Returns false else int_gt chunk_size m
  end.

(** [filter_chunks_by_size(chunks, min_size=10, max_size=None)] *)
Fixpoint filter_chunks_by_size (chunks : list Chunk) (min_size : Z)
    (max_size : option Z) : outcome (list Chunk) :=
  match chunks with
  | [] => Returns []
  | chunk :: rest =>
      chunk_size ← metadata_item chunk "chunk_size";
      small ← int_lt chunk_size min_size;
      if (small : bool) then filter_chunks_by_size rest min_size max_size
      else
        big ← exceeds chunk_size max_size;
        if (big : bool) then filter_chunks_by_size rest min_size max_size
        else
          filtered ← filter_chunks_by_size rest min_size max_size;
          Returns (chunk :: filtered)
  end.

Definition filter_default_min_size : Z := 10.

Section ChunkText.

Variable tiktoken_len : pystr -> option nat.
Variable RecursiveCharacterTextSplitter :
  Z -> Z -> (pystr -> nat) -> list pystr -> pystr -> option (list pystr).

(** The body of the loop of [chunk_text_with_metadata]: the dictionary
    [{**metadata, 'chunk_index': i, ...}], in which the four keys
    replace those of [metadata]. *)
Definition make_chunk_with (metadata : pydict) (chunks : list pystr)
    (i : nat) (chunk_text : pystr) : option Chunk :=
  if truthy (py_strip chunk_text) then
    Some {| content := py_strip chunk_text;
            chunk_metadata :=
              <["token_count"%string :=
                  PInt (Z.of_nat (count_tokens tiktoken_len chunk_text))]>
                (<["chunk_size"%string := PInt (Z.of_nat (length chunk_text))]>
                   (<["total_chunks"%string := PInt (Z.of_nat (length chunks))]>
                      (<["chunk_index"%string := PInt (Z.of_nat i)]> metadata))) |}
  else None.

(** [chunk_text_with_metadata(text, metadata)]: an exception of the
    splitter is raised again. *)
Definition chunk_text_with_metadata (self : TextChunker) (text : pystr)
    (metadata : pydict) : option (list Chunk) :=
  chunks ← split_text tiktoken_len RecursiveCharacterTextSplitter self text;
  Some (omap (fun ic => make_chunk_with metadata chunks ic.1 ic.2) (enumerate chunks)).

End ChunkText.

Section Engine.

(** [LLMManager.generate_response(question, context, language)] *)
Variable generate_response : pystr -> pystr -> pystr -> outcome pystr.

(** The collaborators of the chunker. *)
Variable tiktoken_len : pystr -> option nat.
Variable RecursiveCharacterTextSplitter :
  Z -> Z -> (pystr -> nat) -> list pystr -> pystr -> option (list pystr).

(** The attributes of a [RAGEngine] that the core uses.  [config] is not
    an attribute in the source: it stands for the module-level class
    [Config] that the methods read. *)
Record RAGEngine : Type := {
  config : Config;
  text_chunker : TextChunker;
  embedding_manager : SimpleEmbeddingManager;
  vector_store : SimpleVectorStore
}.

(** [RAGEngine.__init__]: every component is built with its default
    arguments; the store loads what is on disk. *)
Definition RAGEngine_init (cfg : Config) (on_disk : option SimpleVectorStore)
  : RAGEngine :=
  {| config := cfg;
     text_chunker := TextChunker_init cfg None None;
     embedding_manager := EmbeddingManager;
     vector_store := SimpleVectorStore_init on_disk |}.

(** The dictionary appended to [sources] for one search result. *)
Definition source_of (result : SearchResult) : Source :=
  {| src_file_name := dict_get (sr_metadata result) "file_name" unknown;
     src_page_number := dict_get (sr_metadata result) "page_number" unknown;
     src_similarity_score := similarity_score result |}.

(** The body of the [try] block of [ask_question]. *)
Definition ask_question_body (self : RAGEngine) (question language : pystr)
  : outcome QueryResult :=
  let question_embedding :=
    get_single_embedding (embedding_manager self) question in
  if decide (length question_embedding = 0%nat) then
    Raises (str_of_string "Failed to generate question embedding")
  else
    let search_results :=
      search_similar (vector_store self) question_embedding
                     search_similar_default_top_k in
    match search_results with
    | [] =>
        Returns {| success := true; error := None;
                   answer := insufficient_information;
                   sources := []; confidence := 0;
                   context_length := None; sources_count := None |}
    | _ =>
        let context_parts := map sr_content search_results in
        let sources := map source_of search_results in
        let context := join paragraph_break context_parts in
        match generate_response question context language with
        | Raises msg => Raises msg
        | Returns answer =>
            let avg_confidence :=
              py_sum (map similarity_score search_results)
              / INR (length search_results) in
            Returns {| success := true; error := None;
                       answer := answer;
                       sources := sources;
                       confidence := avg_confidence;
                       context_length := Some (length context);
                       sources_count := Some (length sources) |}
        end
    end.

(** [ask_question(question, language)] *)
Definition ask_question (self : RAGEngine) (question language : pystr)
  : QueryResult :=
  match ask_question_body self question language with
  | Returns result => result
  | Raises msg =>
      {| success := false; error := Some msg;
         answer := error_answer;
         sources := []; confidence := 0;
         context_length := None; sources_count := None |}
  end.

(** The dictionary returned by [process_documents]; a key that the
    failure branch does not set is [None]. *)
Record IngestResult : Type := {
  ingest_success : bool;
  ingest_error : option pystr;
  files_processed : nat;
  pages_extracted : nat;
  chunks_created : nat;
  chunks_stored : nat;
  chunk_statistics : option ChunkStatistics;
  vector_store_stats : option CollectionStats
}.

Definition ingest_failure (msg : pystr) : IngestResult :=
  {| ingest_success := false; ingest_error := Some msg;
     files_processed := 0; pages_extracted := 0;
     chunks_created := 0; chunks_stored := 0;
     chunk_statistics := None; vector_store_stats := None |}.

(** [process_documents(file_paths)].  [extracted] is what
    [DocumentProcessor.process_multiple_documents(file_paths)] does on
    these paths: it returns the pages or raises. *)
Definition process_documents (wr : write_outcome)
    (extracted : outcome (list PageRecord)) (file_paths : list pystr)
    (self : RAGEngine) (on_disk : option SimpleVectorStore)
  : IngestResult * RAGEngine * option SimpleVectorStore :=
  match extracted with
  | Raises msg => (ingest_failure msg, self, on_disk)
  | Returns pages =>
      let chunks :=
        chunk_document_pages tiktoken_len RecursiveCharacterTextSplitter
          (text_chunker self) pages in
      let encoded_chunks :=
        batch_encode_with_metadata (embedding_manager self) chunks in
      let '(added, w) :=
        add_documents wr encoded_chunks
          {| store := vector_store self; disk := on_disk |} in
      let self' :=
        {| config := config self;
           text_chunker := text_chunker self;
           embedding_manager := embedding_manager self;
           vector_store := store w |} in
      match added with
      | Some true =>
          match get_chunk_statistics chunks with
          | Raises msg => (ingest_failure msg, self', disk w)
          | Returns stats =>
              ({| ingest_success := true; ingest_error := None;
                  files_processed := length file_paths;
                  pages_extracted := length pages;
                  chunks_created := length chunks;
                  chunks_stored := length encoded_chunks;
                  chunk_statistics := Some stats;
                  vector_store_stats :=
                    Some (get_collection_stats (store w)) |},
               self', disk w)
          end
      | _ =>
          (ingest_failure
             (str_of_string "Failed to add documents to vector store"),
           self', disk w)
      end
  end.

(** [get_system_status] *)
Definition get_system_status (self : RAGEngine) : SystemStatus :=
  let vector_stats := get_collection_stats (vector_store self) in
  let embedding_dim := get_embedding_dimension (embedding_manager self) in
  {| st_vector_store_status :=
       if (0 <? total_documents vector_stats)%nat then "active" else "empty";
     st_total_documents := total_documents vector_stats;
     st_unique_files := unique_files vector_stats;
     st_embedding_model := model_name (embedding_manager self);
     st_embedding_dimension := embedding_dim;
     st_chunk_size := chunk_size (text_chunker self);
     st_chunk_overlap := chunk_overlap (text_chunker self);
     st_top_k_retrieval := TOP_K_RETRIEVAL (config self) |}.

End Engine.

(** * Notions used to state the properties *)

(** The characters ['0'..'9'] and ['a'..'f']. *)
Definition is_hex_char (c : Z) : Prop := (48 <= c <= 57 \/ 97 <= c <= 102)%Z.

(** The dot product and the Euclidean norm of the mathematical
    definition of the cosine similarity. *)
Definition dot_product (v1 v2 : vec) : R :=
  fold_right Rplus 0 (zip_with Rmult v1 v2).

Definition euclidean_norm (v : vec) : R := sqrt (dot_product v v).

(** A vector with at least one non-zero component. *)
Definition nonzero (v : vec) : Prop := Exists (fun x => x <> 0) v.


(** The three lists of the store are parallel. *)
Definition parallel (s : SimpleVectorStore) : Prop :=
  length (documents s) = length (embeddings s)
  /\ length (metadata s) = length (embeddings s).

(** [ranks_before a b]: the pair [a = (similarity, index)] has the
    greater similarity, or the same similarity and the greater index. *)
Definition ranks_before (a b : R * nat) : Prop :=
  b.1 < a.1 \/ (b.1 = a.1 /\ (b.2 < a.2)%nat).

(** An embedding that the embedder produced for some text. *)
Definition hash_derived (e : vec) : Prop :=
  exists (m : SimpleEmbeddingManager) (t : pystr), e = get_single_embedding m t.

(** Empty or white space only. *)
Definition blank (s : pystr) : Prop := Forall (fun c => py_isspace c = true) s.

(** [a] ranks before [b] or is the same pair. *)
Definition ranks_before_eq (a b : R * nat) : Prop := a = b \/ ranks_before a b.

(** The [(similarity, index)] pairs of all stored entries, before the sort. *)
Definition scored (self : SimpleVectorStore) (query_vector : vec) : list (R * nat) :=
  imap (fun i doc_embedding => (cosine_similarity query_vector doc_embedding, i))
       (embeddings self).

(** The result [r] is the stored entry of index [si.2] with the
    similarity [si.1]. *)
Definition is_entry (self : SimpleVectorStore) (si : R * nat) (r : SearchResult) : Prop :=
  documents self !! si.2 = Some (sr_content r)
  /\ metadata self !! si.2 = Some (sr_metadata r)
  /\ similarity_score r = si.1.

(** An encoded chunk that has its three keys. *)
Definition complete (c : EncodedChunk) : Prop :=
  is_Some (ec_content c) /\ is_Some (ec_embedding c) /\ is_Some (ec_metadata c).

#[global] Instance complete_dec c : Decision (complete c).
Proof. unfold complete; apply _. Defined.

(** The store with the entries of a batch appended. *)
Definition extend (s : SimpleVectorStore) (batch : list EncodedChunk)
  : SimpleVectorStore :=
  {| documents := documents s ++ omap ec_content batch;
     embeddings := embeddings s ++ omap ec_embedding batch;
     metadata := metadata s ++ omap ec_metadata batch |}.

(** What the loop of [add_documents] has appended for a chunk when the
    lookup of one of its keys raises: the values of the keys before it. *)
Definition partial_append (c : EncodedChunk) (s : SimpleVectorStore)
  : SimpleVectorStore :=
  match ec_content c with
  | None => s
  | Some d =>
      match ec_embedding c with
      | None => {| documents := documents s ++ [d];
                   embeddings := embeddings s;
                   metadata := metadata s |}
      | Some e => {| documents := documents s ++ [d];
                     embeddings := embeddings s ++ [e];
                     metadata := metadata s |}
      end
  end.

(** The encoded chunk is found by a search: some result carries its
    content and metadata, with the similarity of its embedding. *)
Definition found_by (results : list SearchResult) (query : vec) (c : EncodedChunk)
  : Prop :=
  exists r, r ∈ results
    /\ ec_content c = Some (sr_content r)
    /\ ec_metadata c = Some (sr_metadata r)
    /\ (exists e, ec_embedding c = Some e
                  /\ similarity_score r = cosine_similarity query e).

#[global] Instance blank_dec s : Decision (blank s).
Proof. unfold blank; apply _. Defined.

(** What [chunk_document_pages] appends for one page: nothing when the
    splitter raises. *)
Definition page_output
    (tiktoken_len : pystr -> option nat)
    (splitter : Z -> Z -> (pystr -> nat) -> list pystr -> pystr -> option (list pystr))
    (self : TextChunker) (page : PageRecord) : list Chunk :=
  match split_text tiktoken_len splitter self (pg_text page) with
  | Some page_chunks => page_chunk_objects tiktoken_len page page_chunks
  | None => []
  end.

(** The chunk [c] carries the stripped text of the segment [it.2] and is
    numbered [index] of [total]. *)
Definition numbered (it : nat * pystr) (index total : nat) (c : Chunk) : Prop :=
  content c = py_strip it.2
  /\ ~ blank (content c)
  /\ chunk_metadata c !! "chunk_index"%string = Some (PInt (Z.of_nat index))
  /\ chunk_metadata c !! "total_chunks"%string = Some (PInt (Z.of_nat total)).

(** The segments of a splitter output that are not blank, each with its
    position in that output. *)
Definition kept_segments (page_chunks : list pystr) : list (nat * pystr) :=
  filter (fun it => ~ blank it.2) (enumerate page_chunks).

(** ** Concrete inputs used below *)

Definition doc_a : pystr := str_of_string "A".
Definition doc_b : pystr := str_of_string "B".

Definition chunk_of (text : pystr) (e : vec) : EncodedChunk :=
  {| ec_content := Some text; ec_embedding := Some e; ec_metadata := Some ∅ |}.

Definition empty_world : World := {| store := empty_store; disk := None |}.

(** The store after [add_documents] of two chunks with the same
    embedding, [doc_a] first. *)
Definition tie_store : SimpleVectorStore :=
  store (add_documents Written [chunk_of doc_a [1]; chunk_of doc_b [1]] empty_world).2.

(** A chunk dictionary without the key ['embedding']. *)
Definition chunk_without_embedding : EncodedChunk :=
  {| ec_content := Some doc_b; ec_embedding := None; ec_metadata := Some ∅ |}.

(** A splitter whose output has a white-space segment in the middle,
    and a token counter that always fails. *)
Definition three_segments
  : Z -> Z -> (pystr -> nat) -> list pystr -> pystr -> option (list pystr) :=
  fun _ _ _ _ _ => Some [str_of_string "a"; str_of_string " "; str_of_string "b"].

Definition no_tiktoken : pystr -> option nat := fun _ => None.

Definition page_one : PageRecord :=
  {| pg_file_name := PStr (str_of_string "a.txt");
     pg_page_number := PInt 1;
     pg_text := str_of_string "a b" |}.


(** The result of [ask_question] on an index without entries. *)
Definition insufficient_result : QueryResult :=
  {| success := true; error := None;
     answer := insufficient_information;
     sources := []; confidence := 0;
     context_length := None; sources_count := None |}.

(** An engine as [RAGEngine()] builds it, on a store file that holds one
    entry; a generator that always answers; a question that is a lone
    surrogate. *)
Definition one_entry_store : SimpleVectorStore :=
  {| documents := [doc_a];
     embeddings := [get_single_embedding EmbeddingManager doc_a];
     metadata := [∅] |}.

Definition echo_generator (question context language : pystr) : outcome pystr :=
  Returns context.

Definition lone_surrogate : pystr := [0xD800%Z].

(** The component [i] of the hash vector of a text whose hexadecimal
    digest is [text_hash]. *)
Definition hash_component (text_hash : pystr) (i : nat) : R :=
  if (i <? length text_hash)%nat then IZR (ord (nth i text_hash 0%Z)) / 255
  else IZR ((ord (nth (i mod length text_hash) text_hash 0%Z) + Z.of_nat i) mod 255) / 255.

(** The content of the store file after [_save_data] has tried to write
    [data]. *)
Definition disk_after (wr : write_outcome) (data : SimpleVectorStore)
  : option SimpleVectorStore :=
  match wr with
  | Written => Some data
  | WriteFails remains => remains
  end.

(** The result [r1] has at least the similarity of [r2]. *)
Definition not_below (r1 r2 : SearchResult) : Prop :=
  similarity_score r2 <= similarity_score r1.

(** A store left with lists that are not parallel: one chunk without the
    key ['metadata'] was added to the empty store. *)
Definition chunk_without_metadata : EncodedChunk :=
  {| ec_content := Some doc_a; ec_embedding := Some [1]; ec_metadata := None |}.

Definition ragged_store : SimpleVectorStore :=
  store (add_documents Written [chunk_without_metadata] empty_world).2.

(** A splitter whose output has no blank segment. *)
Definition two_segments
  : Z -> Z -> (pystr -> nat) -> list pystr -> pystr -> option (list pystr) :=
  fun _ _ _ _ _ => Some [str_of_string "Alpha beta. "; str_of_string "Gamma delta."].


(** The lists of the store are ordered by length: an entry gets its
    document first, then its embedding, then its metadata. *)
Definition staggered (s : SimpleVectorStore) : Prop :=
  (length (metadata s) <= length (embeddings s))%nat
  /\ (length (embeddings s) <= length (documents s))%nat.

(** The engine with another vector store. *)
Definition with_store (self : RAGEngine) (s : SimpleVectorStore) : RAGEngine :=
  {| config := config self;
     text_chunker := text_chunker self;
     embedding_manager := embedding_manager self;
     vector_store := s |}.

(** [RAGEngine.reset_system]: the boolean of [reset_collection], [False]
    if it raised. *)
Definition reset_system (wr : write_outcome) (self : RAGEngine)
    (on_disk : option SimpleVectorStore)
  : bool * RAGEngine * option SimpleVectorStore :=
  let '(success, w) :=
    reset_collection wr {| store := vector_store self; disk := on_disk |} in
  (default false success, with_store self (store w), disk w).

(** The dictionary that [ask_question] returns when its [try] block
    raised an exception of text [msg]. *)
Definition failure_result (msg : pystr) : QueryResult :=
  {| success := false; error := Some msg; answer := error_answer;
     sources := []; confidence := 0;
     context_length := None; sources_count := None |}.

(** A chunk whose metadata records an integer size of at least 1 and an
    integer token count that is not negative, as the chunker builds
    them. *)
Definition sized (c : Chunk) : Prop :=
  exists n t,
    chunk_metadata c !! "chunk_size"%string = Some (PInt n)
    /\ chunk_metadata c !! "token_count"%string = Some (PInt t)
    /\ (1 <= n)%Z /\ (0 <= t)%Z.

(** The recorded size of a chunk that has one. *)
Definition size_of (c : Chunk) : Z :=
  match chunk_metadata c !! "chunk_size"%string with
  | Some (PInt n) => n
  | _ => 0%Z
  end.

(** The size is within the bounds of [filter_chunks_by_size]; a
    [max_size] of [None] or 0 is no bound. *)
Definition size_within (min_size : Z) (max_size : option Z) (c : Chunk) : Prop :=
  (min_size <= size_of c)%Z
  /\ match max_size with
     | Some m => m = 0%Z \/ (size_of c <= m)%Z
     | None => True
     end.

#[global] Instance size_within_dec mn mx c : Decision (size_within mn mx c).
Proof. unfold size_within; destruct mx; apply _. Defined.

(** The metadata that [chunk_document_pages] starts from for a page. *)
Definition page_metadata (page : PageRecord) : pydict :=
  {[ "file_name"%string := pg_file_name page;
     "page_number"%string := pg_page_number page ]}.


(** ** src/vectorstore/vector_store.py: [search_by_text] *)

(** [s.startswith(p)] *)
Fixpoint startswith (s p : pystr) : bool :=
  match p, s with
  | [], _ => true
  | _ :: _, [] => false
  | a :: p', c :: s' => (a =? c)%Z && startswith s' p'
  end.

(** [needle in hay] on strings: [needle] occurs in [hay]. *)
Fixpoint py_in (needle hay : pystr) : bool :=
  startswith hay needle
  || match hay with
     | [] => false
     | _ :: hay' => py_in needle hay'
     end.

(** [s.split()]: the maximal runs of characters that are not white
    space; [cur] is the current run, reversed. *)
Fixpoint split_from (cur : pystr) (s : pystr) : list pystr :=
  match s with
  | [] => if truthy cur then [rev cur] else []
  | c :: s' =>
      if py_isspace c
      then if truthy cur then rev cur :: split_from [] s' else split_from [] s'
      else split_from (c :: cur) s'
  end.

Definition py_split (s : pystr) : list pystr := split_from [] s.

(** The relevance score of [search_by_text]: the share of the words of
    the query that are words of the document. *)
Definition relevance (query_lower doc_lower : pystr) : R :=
  let query_words : gset pystr := list_to_set (py_split query_lower) in
  let doc_words : gset pystr := list_to_set (py_split doc_lower) in
  let overlap := size (query_words ∩ doc_words) in
  INR overlap / INR (Nat.max (size query_words) 1).

(** [results.sort(key=lambda x: x['similarity_score'], reverse=True)]:
    a stable sort into descending order of the score; an element is
    placed before the elements whose score is not greater than its
    own. *)
Fixpoint insert_by_score (x : SearchResult) (l : list SearchResult)
  : list SearchResult :=
  match l with
  | [] => [x]
  | y :: l' =>
      if decide (similarity_score x < similarity_score y)
      then y :: insert_by_score x l'
      else x :: y :: l'
  end.

Fixpoint sort_by_score (l : list SearchResult) : list SearchResult :=
  match l with
  | [] => []
  | x :: l' => insert_by_score x (sort_by_score l')
  end.

Section TextSearch.

(** [str.lower] *)
Variable lower : pystr -> pystr.

(** The test of the loop of [search_by_text] on the document [doc]. *)
Definition text_match (query_lower : pystr) (doc : pystr) : bool :=
  py_in query_lower (lower doc).

(** The dictionary appended for the document [doc] of index [i]; the
    access [self.metadata[i]] raises IndexError out of range. *)
Definition text_result (self : SimpleVectorStore) (query_lower : pystr)
    (id : nat * pystr) : option SearchResult :=
  m ← metadata self !! id.1;
  Some {| sr_content := id.2; sr_metadata := m;
          similarity_score := relevance query_lower (lower id.2) |}.

(** [search_by_text]; any exception gives the empty list. *)
Definition search_by_text (self : SimpleVectorStore) (query_text : pystr)
    (top_k : Z) : list SearchResult :=
  match documents self with
  | [] => []
  | _ =>
      let query_lower := lower query_text in
      match mapM (text_result self query_lower)
                 (filter (fun id => text_match query_lower id.2 = true)
                         (enumerate (documents self))) with
      | Some results => slice_to top_k (sort_by_score results)
      | None => []
      end
  end.

End TextSearch.

(** The default value of the parameter [top_k] of [search_by_text]. *)
Definition search_by_text_default_top_k : Z := 3.

(** [str.lower] on the ASCII letters; the other characters are left as
    they are. *)
Definition ascii_lower (s : pystr) : pystr :=
  map (fun c => if ((65 <=? c) && (c <=? 90))%Z then (c + 32)%Z else c) s.

(** The result built from a document and its metadata, with a score. *)
Definition result_of (score : R) (doc : pystr) (m : pydict) : SearchResult :=
  {| sr_content := doc; sr_metadata := m; similarity_score := score |}.

(** The result has the score [v]. *)
Definition has_score (v : R) (r : SearchResult) : Prop := similarity_score r = v.

#[global] Instance has_score_dec v r : Decision (has_score v r).
Proof. unfold has_score; apply _. Defined.

(** ** src/config.py: the API keys; src/llm/llm_manager.py *)

(** The three keys of the class [Config] that select a language model:
    what [os.getenv] returned for each. *)
Record ApiKeys : Type := {
  OPENAI_API_KEY : option pystr;
  ANTHROPIC_API_KEY : option pystr;
  OPENROUTER_API_KEY : option pystr
}.

(** The truth value of a key: set and not empty. *)
Definition key_truthy (k : option pystr) : bool :=
  match k with
  | Some s => truthy s
  | None => false
  end.

Definition missing_keys_message : pystr :=
  str_of_string
    "Either OPENAI_API_KEY, ANTHROPIC_API_KEY, or OPENROUTER_API_KEY is required".

(** [Config.validate_config()] *)
Definition validate_config (cls : ApiKeys) : list pystr :=
  if negb (key_truthy (OPENAI_API_KEY cls))
     && negb (key_truthy (ANTHROPIC_API_KEY cls))
     && negb (key_truthy (OPENROUTER_API_KEY cls))
  then [missing_keys_message]
  else [].

(** The three implementations of [BaseLLM]. *)
Inductive LLMClass : Type := OpenAILLM | AnthropicLLM | OpenRouterLLM.

#[global] Instance LLMClass_eq_dec : EqDecision LLMClass.
Proof. solve_decision. Defined.

(** An object of one of these classes, with the key that its
    constructor stored.  The client of an [AnthropicLLM] is built
    exactly when the key is set, so that its availability is the truth
    value of the key as well. *)
Record BaseLLM : Type := {
  llm_class : LLMClass;
  api_key : option pystr
}.

(** [is_available()] *)
Definition is_available (llm : BaseLLM) : bool := key_truthy (api_key llm).

Record LLMManager : Type := {
  provider : pystr;
  openai_llm : BaseLLM;
  anthropic_llm : BaseLLM;
  openrouter_llm : BaseLLM;
  current_llm : BaseLLM
}.

Definition no_provider_message : pystr :=
  str_of_string "No LLM provider available. Please configure API keys.".

(** [_select_llm], on the attributes that [__init__] has set before the
    call. *)
Definition select_llm (provider : pystr)
    (openai_llm anthropic_llm openrouter_llm : BaseLLM) : outcome BaseLLM :=
  if bool_decide (provider = str_of_string "openrouter") && is_available openrouter_llm
  then Returns openrouter_llm
  else if bool_decide (provider = str_of_string "openai") && is_available openai_llm
  then Returns openai_llm
  else if bool_decide (provider = str_of_string "anthropic") && is_available anthropic_llm
  then Returns anthropic_llm
  else if is_available openrouter_llm then Returns openrouter_llm
  else if is_available openai_llm then Returns openai_llm
  else if is_available anthropic_llm then Returns anthropic_llm
  else Raises no_provider_message.

(** [LLMManager.__init__(provider)], with the keys of [Config]. *)
Definition LLMManager_init (cfg : ApiKeys) (provider : pystr)
  : outcome LLMManager :=
  let openai_llm :=
    {| llm_class := OpenAILLM; api_key := OPENAI_API_KEY cfg |} in
  let anthropic_llm :=
    {| llm_class := AnthropicLLM; api_key := ANTHROPIC_API_KEY cfg |} in
  let openrouter_llm :=
    {| llm_class := OpenRouterLLM; api_key := OPENROUTER_API_KEY cfg |} in
  current ← select_llm provider openai_llm anthropic_llm openrouter_llm;
  Returns {| provider := provider;
             openai_llm := openai_llm;
             anthropic_llm := anthropic_llm;
             openrouter_llm := openrouter_llm;
             current_llm := current |}.

(** The default value of the parameter [provider] of [__init__]. *)
Definition default_provider : pystr := str_of_string "openrouter".

(** [get_available_providers()] *)
Definition get_available_providers (self : LLMManager) : list pystr :=
  (if is_available (openai_llm self) then [str_of_string "openai"] else [])
  ++ (if is_available (anthropic_llm self) then [str_of_string "anthropic"] else [])
  ++ (if is_available (openrouter_llm self) then [str_of_string "openrouter"] else []).

Definition with_current (self : LLMManager) (llm : BaseLLM) (name : pystr)
  : LLMManager :=
  {| provider := name;
     openai_llm := openai_llm self;
     anthropic_llm := anthropic_llm self;
     openrouter_llm := openrouter_llm self;
     current_llm := llm |}.

(** [switch_provider(provider)]: the manager after the call, or the
    ValueError raised. *)
Definition switch_provider (self : LLMManager) (name : pystr)
  : outcome LLMManager :=
  if bool_decide (name = str_of_string "openai") && is_available (openai_llm self)
  then Returns (with_current self (openai_llm self) (str_of_string "openai"))
  else if bool_decide (name = str_of_string "anthropic") && is_available (anthropic_llm self)
  then Returns (with_current self (anthropic_llm self) (str_of_string "anthropic"))
  else if bool_decide (name = str_of_string "openrouter") && is_available (openrouter_llm self)
  then Returns (with_current self (openrouter_llm self) (str_of_string "openrouter"))
  else Raises (str_of_string "Provider " ++ name
               ++ str_of_string " not available").

(** The name under which [switch_provider] and [_select_llm] know a
    class. *)
Definition provider_name (c : LLMClass) : pystr :=
  match c with
  | OpenAILLM => str_of_string "openai"
  | AnthropicLLM => str_of_string "anthropic"
  | OpenRouterLLM => str_of_string "openrouter"
  end.

(** The first of the classes, in the order OpenRouter, OpenAI,
    Anthropic, whose key is set. *)
Definition first_available (cfg : ApiKeys) : option LLMClass :=
  if key_truthy (OPENROUTER_API_KEY cfg) then Some OpenRouterLLM
  else if key_truthy (OPENAI_API_KEY cfg) then Some OpenAILLM
  else if key_truthy (ANTHROPIC_API_KEY cfg) then Some AnthropicLLM
  else None.

(** The key of [Config] that a class reads. *)
Definition key_of (cfg : ApiKeys) (c : LLMClass) : option pystr :=
  match c with
  | OpenAILLM => OPENAI_API_KEY cfg
  | AnthropicLLM => ANTHROPIC_API_KEY cfg
  | OpenRouterLLM => OPENROUTER_API_KEY cfg
  end.

(** Keys as in an environment that sets [OPENAI_API_KEY] only. *)
Definition openai_only : ApiKeys :=
  {| OPENAI_API_KEY := Some (str_of_string "sk-test");
     ANTHROPIC_API_KEY := None;
     OPENROUTER_API_KEY := Some [] |}.

(** ** src/document_processor.py *)

(** [Config.ALLOWED_EXTENSIONS], a set, and [Config.MAX_FILE_SIZE]. *)
Definition ALLOWED_EXTENSIONS : list pystr :=
  [str_of_string ".pdf"; str_of_string ".docx"; str_of_string ".txt";
   str_of_string ".doc"].

Definition MAX_FILE_SIZE : Z := (100 * 1024 * 1024)%Z.

(** [re.sub(r'\s+', ' ', text)]: every maximal run of white space
    becomes one space; [in_run] tells that the previous character was
    white space. *)
Fixpoint collapse_from (in_run : bool) (s : pystr) : pystr :=
  match s with
  | [] => []
  | c :: s' =>
      if py_isspace c
      then if in_run then collapse_from true s' else 32%Z :: collapse_from true s'
      else c :: collapse_from false s'
  end.

Definition collapse_whitespace (s : pystr) : pystr := collapse_from false s.

(** The ranges and the punctuation of the character class of
    [clean_text]. *)
Definition in_kept_range (c : Z) : bool :=
  ((0x0600 <=? c) && (c <=? 0x06FF) || (0x0750 <=? c) && (c <=? 0x077F)
   || (0x08A0 <=? c) && (c <=? 0x08FF) || (0xFB50 <=? c) && (c <=? 0xFDFF)
   || (0xFE70 <=? c) && (c <=? 0xFEFF))%Z.

Definition kept_punctuation : pystr :=
  [46; 44; 33; 63; 59; 58; 40; 41; 91; 93; 123; 125; 34; 39; 45]%Z.

(** [s.replace(a, b)] for single characters. *)
Definition replace_char (a b : Z) (s : pystr) : pystr :=
  map (fun c => if (c =? a)%Z then b else c) s.

Section DocumentProcessor.

(** [str.lower], [Path(p).suffix], [os.path.basename(p)] *)
Variable lower : pystr -> pystr.
Variable path_suffix : pystr -> pystr.
Variable basename : pystr -> pystr.

(** The file system: [Path(p).stat().st_size], which raises for a path
    that cannot be examined, and [Path(p).exists()]. *)
Variable stat_size : pystr -> outcome Z.
Variable path_exists : pystr -> bool.

(** [', '.join(self.allowed_extensions)]: the order is that of a set. *)
Variable allowed_joined : pystr.

(** The readers: the texts of the pages of a PDF file in their order,
    the texts of the paragraphs and of the table cells of a DOCX file,
    the content of a text file; each may raise. *)
Variable pdf_page_texts : pystr -> outcome (list pystr).
Variable docx_texts : pystr -> outcome (list pystr * list pystr).
Variable read_text : pystr -> outcome pystr.

(** The characters that [\w] matches. *)
Variable is_word : Z -> bool.

(** [validate_file(file_path)] *)
Definition validate_file (file_path : pystr) : bool * pystr :=
  if negb (bool_decide (lower (path_suffix file_path) ∈ ALLOWED_EXTENSIONS))
  then (false,
        str_of_string "File type " ++ path_suffix file_path
        ++ str_of_string " not supported. Allowed: " ++ allowed_joined)
  else
    match stat_size file_path with
    | Raises e => (false, str_of_string "Error validating file: " ++ e)
    | Returns st_size =>
        if (MAX_FILE_SIZE <? st_size)%Z
        then (false, str_of_string "File size exceeds maximum limit of 100MB")
        else if negb (path_exists file_path)
        then (false, str_of_string "File does not exist")
        else (true, str_of_string "File is valid")
    end.

(** The dictionary of a page. *)
Definition page_record (file_path : pystr) (page_number : Z) (text : pystr)
  : PageRecord :=
  {| pg_file_name := PStr (basename file_path);
     pg_page_number := PInt page_number;
     pg_text := text |}.

(** The body of the loop of [extract_text_from_pdf] for the page of
    index [page_num]. *)
Definition pdf_page (file_path : pystr) (it : nat * pystr) : option PageRecord :=
  if truthy (py_strip it.2)
  then Some (page_record file_path (Z.of_nat it.1 + 1) (py_strip it.2))
  else None.

(** [extract_text_from_pdf(file_path)] *)
Definition extract_text_from_pdf (file_path : pystr) : outcome (list PageRecord) :=
  texts ← pdf_page_texts file_path;
  Returns (omap (pdf_page file_path) (enumerate texts)).

(** The stripped texts that are not blank. *)
Definition stripped_texts (texts : list pystr) : list pystr :=
  omap (fun t => if truthy (py_strip t) then Some (py_strip t) else None) texts.

(** [extract_text_from_docx(file_path)] *)
Definition extract_text_from_docx (file_path : pystr) : outcome (list PageRecord) :=
  content ← docx_texts file_path;
  let text_content := stripped_texts content.1 ++ stripped_texts content.2 in
  let full_text := join [10%Z] text_content in
  if truthy (py_strip full_text)
  then Returns [page_record file_path 1 full_text]
  else Returns [].

(** [extract_text_from_txt(file_path)] *)
Definition extract_text_from_txt (file_path : pystr) : outcome (list PageRecord) :=
  text ← read_text file_path;
  if truthy (py_strip text)
  then Returns [page_record file_path 1 (py_strip text)]
  else Returns [].

(** [process_document(file_path)] *)
Definition process_document (file_path : pystr) : outcome (list PageRecord) :=
  let '(is_valid, message) := validate_file file_path in
  if negb is_valid then Raises message
  else
    let file_extension := lower (path_suffix file_path) in
    if decide (file_extension = str_of_string ".pdf")
    then extract_text_from_pdf file_path
    else if decide (file_extension = str_of_string ".docx")
    then extract_text_from_docx file_path
    else if decide (file_extension = str_of_string ".txt")
    then extract_text_from_txt file_path
    else Raises (str_of_string "Unsupported file type: " ++ file_extension).

(** A character that the second substitution of [clean_text] keeps. *)
Definition kept_char (c : Z) : bool :=
  is_word c || py_isspace c || in_kept_range c
  || bool_decide (c ∈ kept_punctuation).

(** [clean_text(text)] *)
Definition clean_text (text : pystr) : pystr :=
  let text := collapse_whitespace text in
  let text := filter (fun c => kept_char c = true) text in
  let text := replace_char 13 32 (replace_char 10 32 text) in
  py_strip text.

(** The page after [page['text'] = self.clean_text(page['text'])]. *)
Definition clean_page (page : PageRecord) : PageRecord :=
  {| pg_file_name := pg_file_name page;
     pg_page_number := pg_page_number page;
     pg_text := clean_text (pg_text page) |}.

(** The loop of [process_multiple_documents]: the first exception ends
    it. *)
Fixpoint process_from (all_pages : list PageRecord) (file_paths : list pystr)
  : outcome (list PageRecord) :=
  match file_paths with
  | [] => Returns all_pages
  | file_path :: rest =>
      pages ← process_document file_path;
      process_from (all_pages ++ map clean_page pages) rest
  end.

(** [process_multiple_documents(file_paths)] *)
Definition process_multiple_documents (file_paths : list pystr)
  : outcome (list PageRecord) :=
  process_from [] file_paths.

End DocumentProcessor.

(** The page number of a page, when it is an integer. *)
Definition page_number_of (page : PageRecord) : Z :=
  match pg_page_number page with
  | PInt n => n
  | PStr _ => 0%Z
  end.

(** Concrete collaborators: a file system with one file [notes.doc] of
    ten bytes, path functions for names without directory, and the
    ASCII letters, digits and underscore as word characters. *)
Definition notes_doc : pystr := str_of_string "notes.doc".

Definition suffix_doc (p : pystr) : pystr :=
  if decide (p = notes_doc) then str_of_string ".doc" else [].

Definition one_file_stat (p : pystr) : outcome Z :=
  if decide (p = notes_doc) then Returns 10%Z
  else Raises (str_of_string "[Errno 2] No such file or directory").

Definition one_file_exists (p : pystr) : bool := bool_decide (p = notes_doc).

Definition no_pdf (p : pystr) : outcome (list pystr) :=
  Raises (str_of_string "cannot open").

Definition no_docx (p : pystr) : outcome (list pystr * list pystr) :=
  Raises (str_of_string "cannot open").

Definition no_text (p : pystr) : outcome pystr :=
  Raises (str_of_string "cannot open").

Definition ascii_word (c : Z) : bool :=
  ((48 <=? c) && (c <=? 57) || (65 <=? c) && (c <=? 90)
   || (97 <=? c) && (c <=? 122) || (c =? 95))%Z.

(** A PDF reader for a file of three pages, the second one blank. *)
Definition three_pages (p : pystr) : outcome (list pystr) :=
  Returns [str_of_string "one"; str_of_string "  "; str_of_string " three "].

(** ** The float64 computations *)

(** In the definitions above a similarity is a real number: they serve
    the statements that depend on the order of the scores only.  Where
    a statement is about the value that a float64 computation returns,
    the numbers are the binary64 floats of the kernel (round to nearest,
    ties to even, with infinities, signed zeros and NaN), and the
    definitions are those of this module.

    [np.dot] is a call of the BLAS library, which adds the products in
    an order of its own (and may fuse a product with an addition): the
    value of [np.dot] on two arrays of one length is the section
    variable [dot].  [np.linalg.norm(x)] is [sqrt(x.dot(x))]. *)
Module F64.
Import PrimFloat.

Abbreviation vec := (list float).

(** [float(n)] for an integer [0 <= n < 2^63]. *)
Definition of_int (n : Z) : float := PrimFloat.of_uint63 (Uint63.of_Z n).

(** [np.zeros(n)] *)
Definition zeros (n : nat) : vec := repeat 0%float n.

(** [sum(l)]: the additions are made from left to right, from 0. *)
Definition py_sum (l : list float) : float := fold_left PrimFloat.add l 0%float.

(** *** src/embeddings/embedding_manager.py *)

(** First loop of [_text_to_hash_vector]:
    [for i, char in enumerate(text_hash): if i < dim: vector[i] = ord(char) / 255.0] *)
Definition hash_prefix_step (dim : nat) (vector : vec) (ic : nat * Z) : vec :=
  let '(i, char) := ic in
  if (i <? dim)%nat
  then <[i := PrimFloat.div (of_int (ord char)) 255%float]> vector
  else vector.

(** Second loop:
    [for i in range(len(text_hash), dim):
       vector[i] = (ord(text_hash[i % len(text_hash)]) + i) % 255 / 255.0] *)
Definition hash_fill_step (text_hash : pystr) (vector : vec) (i : nat) : vec :=
  <[i := PrimFloat.div
           (of_int ((ord (nth (i mod length text_hash) text_hash 0%Z) + Z.of_nat i)
                    mod 255))
           255%float]>
    vector.

(** [_text_to_hash_vector]; [None] when [text.encode('utf-8')] raises. *)
Definition text_to_hash_vector (self : SimpleEmbeddingManager) (text : pystr)
  : option vec :=
  bs ← utf8_encode text;
  let text_hash := MD5.hexdigest bs in
  let dim := embedding_dim self in
  let vector := zeros dim in
  let vector := fold_left (hash_prefix_step dim) (enumerate text_hash) vector in
  let vector :=
    fold_left (hash_fill_step text_hash)
              (seq (length text_hash) (dim - length text_hash)) vector in
  Some vector.

(** [get_single_embedding]: any exception gives the zero vector. *)
Definition get_single_embedding (self : SimpleEmbeddingManager) (text : pystr) : vec :=
  match text_to_hash_vector self text with
  | Some v => v
  | None => zeros (embedding_dim self)
  end.

(** *** src/vectorstore/vector_store.py *)

Record SimpleVectorStore : Type := {
  documents : list pystr;
  embeddings : list vec;
  metadata : list pydict
}.

Record SearchResult : Type := {
  sr_content : pystr;
  sr_metadata : pydict;
  similarity_score : float
}.

(** Python's [<] on the tuples [(similarity, i)]: the first components
    decide unless they are equal ([==] of float64), then the second
    ones do. *)
Definition tuple_ltb (a b : float * nat) : bool :=
  if PrimFloat.eqb a.1 b.1 then (a.2 <? b.2)%nat else PrimFloat.ltb a.1 b.1.

(** [similarities.sort(reverse=True)] *)
Fixpoint insert_desc (x : float * nat) (l : list (float * nat)) : list (float * nat) :=
  match l with
  | [] => [x]
  | y :: l' => if tuple_ltb x y then y :: insert_desc x l' else x :: y :: l'
  end.

Fixpoint sort_reverse (l : list (float * nat)) : list (float * nat) :=
  match l with
  | [] => []
  | x :: l' => insert_desc x (sort_reverse l')
  end.

(** *** src/rag/rag_engine.py *)

Record Source : Type := {
  src_file_name : pyval;
  src_page_number : pyval;
  src_similarity_score : float
}.

Record QueryResult : Type := {
  success : bool;
  error : option pystr;
  answer : pystr;
  sources : list Source;
  confidence : float;
  context_length : option nat;
  sources_count : option nat
}.

(** The attributes of a [RAGEngine] that [ask_question] reads. *)
Record RAGEngine : Type := {
  embedding_manager : SimpleEmbeddingManager;
  vector_store : SimpleVectorStore
}.

(** The dictionary appended to [sources] for one search result. *)
Definition source_of (result : SearchResult) : Source :=
  {| src_file_name := dict_get (sr_metadata result) "file_name" unknown;
     src_page_number := dict_get (sr_metadata result) "page_number" unknown;
     src_similarity_score := similarity_score result |}.

(** [sum(result['similarity_score'] for result in search_results)
     / len(search_results)] *)
Definition avg_confidence (search_results : list SearchResult) : float :=
  PrimFloat.div (py_sum (map similarity_score search_results))
                (of_int (Z.of_nat (length search_results))).

Section Similarity.

Variable dot : vec -> vec -> float.

(** [np.dot(v1, v2)] on one-dimensional arrays: the shapes must agree,
    otherwise ValueError. *)
Definition np_dot (v1 v2 : vec) : option float :=
  if (length v1 =? length v2)%nat then Some (dot v1 v2) else None.

(** [np.linalg.norm(v)] *)
Definition np_norm (v : vec) : float := PrimFloat.sqrt (dot v v).

(** [compute_similarity]: 0.0 when a norm compares equal to 0 and on
    any exception ([np.dot] on mismatched shapes). *)
Definition compute_similarity (embedding1 embedding2 : vec) : float :=
  match np_dot embedding1 embedding2 with
  | Some dot_product =>
      let norm1 := np_norm embedding1 in
      let norm2 := np_norm embedding2 in
      if PrimFloat.eqb norm1 0%float || PrimFloat.eqb norm2 0%float then 0%float
      else PrimFloat.div dot_product (PrimFloat.mul norm1 norm2)
  | None => 0%float
  end.

(** [_cosine_similarity]: the same computation. *)
Definition cosine_similarity (vec1 vec2 : vec) : float :=
  match np_dot vec1 vec2 with
  | Some dot_product =>
      let norm1 := np_norm vec1 in
      let norm2 := np_norm vec2 in
      if PrimFloat.eqb norm1 0%float || PrimFloat.eqb norm2 0%float then 0%float
      else PrimFloat.div dot_product (PrimFloat.mul norm1 norm2)
  | None => 0%float
  end.

(** The list [similarities] of [search_similar] after the sort. *)
Definition ranked (self : SimpleVectorStore) (query_vector : vec)
  : list (float * nat) :=
  sort_reverse
    (imap (fun i doc_embedding => (cosine_similarity query_vector doc_embedding, i))
          (embeddings self)).

(** One iteration of the loop that builds [results]. *)
Definition result_at (self : SimpleVectorStore) (si : float * nat)
  : option SearchResult :=
  let '(similarity, idx) := si in
  c ← documents self !! idx;
  m ← metadata self !! idx;
  Some {| sr_content := c; sr_metadata := m; similarity_score := similarity |}.

(** [search_similar]; any exception gives the empty list. *)
Definition search_similar (self : SimpleVectorStore) (query_embedding : vec)
    (top_k : Z) : list SearchResult :=
  match embeddings self with
  | [] => []
  | _ =>
      match mapM (result_at self) (slice_to top_k (ranked self query_embedding)) with
      | Some results => results
      | None => []
      end
  end.

(** [LLMManager.generate_response(question, context, language)] *)
Variable generate_response : pystr -> pystr -> pystr -> outcome pystr.

(** The body of the [try] block of [ask_question]. *)
Definition ask_question_body (self : RAGEngine) (question language : pystr)
  : outcome QueryResult :=
  let question_embedding :=
    get_single_embedding (embedding_manager self) question in
  if (length question_embedding =? 0)%nat then
    Raises (str_of_string "Failed to generate question embedding")
  else
    let search_results :=
      search_similar (vector_store self) question_embedding
                     search_similar_default_top_k in
    match search_results with
    | [] =>
        Returns {| success := true; error := None;
                   answer := insufficient_information;
                   sources := []; confidence := 0%float;
                   context_length := None; sources_count := None |}
    | _ =>
        let context_parts := map sr_content search_results in
        let sources := map source_of search_results in
        let context := join paragraph_break context_parts in
        match generate_response question context language with
        | Raises msg => Raises msg
        | Returns answer =>
            Returns {| success := true; error := None;
                       answer := answer;
                       sources := sources;
                       confidence := avg_confidence search_results;
                       context_length := Some (length context);
                       sources_count := Some (length sources) |}
        end
    end.

(** [ask_question(question, language)] *)
Definition ask_question (self : RAGEngine) (question language : pystr)
  : QueryResult :=
  match ask_question_body self question language with
  | Returns result => result
  | Raises msg =>
      {| success := false; error := Some msg;
         answer := error_answer;
         sources := []; confidence := 0%float;
         context_length := None; sources_count := None |}
  end.

End Similarity.

(** A dot product that adds the products in the order of the indices:
    one of the orders that a BLAS library may take, and the only one
    there is for arrays of one component. *)
Definition dot_in_order (v1 v2 : vec) : float :=
  fold_left PrimFloat.add (zip_with PrimFloat.mul v1 v2) 0%float.

(** The sign bit is clear, or the number is NaN: first on the
    specification of a float, then on the float. *)
Definition sf_sign_clear (x : SpecFloat.spec_float) : Prop :=
  match x with
  | SpecFloat.S754_zero s | SpecFloat.S754_infinity s
  | SpecFloat.S754_finite s _ _ => s = false
  | SpecFloat.S754_nan => True
  end.

Definition sign_clear (x : float) : Prop := sf_sign_clear (FloatOps.Prim2SF x).

(** [x < 0] is false. *)
Definition not_below_zero (x : float) : Prop := PrimFloat.ltb x 0%float = false.

(** What is assumed of [np.dot] where a statement needs it: on arrays
    without a set sign bit the result has none, and the product of the
    zero vector with itself is 0.0. *)
Definition keeps_sign_clear (dot : vec -> vec -> float) : Prop :=
  forall v1 v2, Forall sign_clear v1 -> Forall sign_clear v2 -> sign_clear (dot v1 v2).

Definition zero_on_zeros (dot : vec -> vec -> float) : Prop :=
  forall n, dot (zeros n) (zeros n) = 0%float.

(** An embedding that the embedder produced for some text. *)
Definition hash_derived (e : vec) : Prop :=
  exists (m : SimpleEmbeddingManager) (t : pystr), e = get_single_embedding m t.

(** An engine as [RAGEngine()] builds it, on a store that holds the one
    document [text] with the embedding that ingestion gives it. *)
Definition engine_with (text : pystr) : RAGEngine :=
  {| embedding_manager := EmbeddingManager;
     vector_store :=
       {| documents := [text];
          embeddings := [get_single_embedding EmbeddingManager text];
          metadata := [∅] |} |}.

End F64.

(** * Properties *)

(** ** The hash and the embedder *)

Module MD5Facts.
Import MD5.

Lemma length_le_bytes n x : length (le_bytes n x) = n.
Proof. revert x; induction n as [|n IH]; intros x; simpl; [done | by rewrite IH]. Qed.

Lemma le_bytes_range n x : Forall (fun b => 0 <= b < 256)%Z (le_bytes n x).
Proof.
  revert x; induction n as [|n IH]; intros x; simpl; constructor; [|apply IH].
  apply Z.mod_pos_bound; lia.
Qed.

Lemma digest_length msg : length (digest msg) = 16%nat.
Proof.
  unfold digest.
  destruct (fold_left block _ init) as [[[a b] c] d].
  rewrite !length_app, !length_le_bytes; done.
Qed.

Lemma digest_range msg : Forall (fun b => 0 <= b < 256)%Z (digest msg).
Proof.
  unfold digest.
  destruct (fold_left block _ init) as [[[a b] c] d].
  rewrite !Forall_app; repeat split; apply le_bytes_range.
Qed.

Lemma hex_digit_char n : (0 <= n < 16)%Z -> is_hex_char (hex_digit n).
Proof.
  intros Hn; unfold is_hex_char, hex_digit.
  destruct (n <? 10)%Z eqn:E; [apply Z.ltb_lt in E | apply Z.ltb_ge in E]; lia.
Qed.

Lemma concat_hex_length bs : length (concat (map hex_byte bs)) = (2 * length bs)%nat.
Proof. induction bs as [|b bs IH]; simpl; [done | rewrite IH; lia]. Qed.

Lemma concat_hex_chars bs :
  Forall (fun b => 0 <= b < 256)%Z bs -> Forall is_hex_char (concat (map hex_byte bs)).
Proof.
  induction 1 as [|b bs Hb _ IH]; simpl; [constructor|].
  constructor; [|constructor; [|exact IH]]; apply hex_digit_char.
  - split; [apply Z.div_pos; lia | apply Z.div_lt_upper_bound; lia].
  - apply Z.mod_pos_bound; lia.
Qed.

(** The hexadecimal digest has 32 characters. *)
Lemma hexdigest_length msg : length (hexdigest msg) = 32%nat.
Proof. unfold hexdigest; rewrite concat_hex_length, digest_length; done. Qed.

(** They are lower-case hexadecimal digits. *)
Lemma hexdigest_chars msg : Forall is_hex_char (hexdigest msg).
Proof. apply concat_hex_chars, digest_range. Qed.

Example md5_empty :
  hexdigest [] = str_of_string "d41d8cd98f00b204e9800998ecf8427e".
Proof. vm_compute; reflexivity. Qed.

Example md5_abc :
  hexdigest [97; 98; 99]%Z = str_of_string "900150983cd24fb0d6963f7d28e17f72".
Proof. vm_compute; reflexivity. Qed.

(** 56 bytes: the padding spills into a second block. *)
Example md5_two_blocks :
  hexdigest (repeat 97%Z 56) = str_of_string "3b0c8ac703f828b04c6c197006d17218".
Proof. vm_compute; reflexivity. Qed.

End MD5Facts.

Example utf8_multibyte :
  utf8_encode [233; 8364; 128512]%Z
  = Some [195; 169; 226; 130; 172; 240; 159; 152; 128]%Z.
Proof. reflexivity. Qed.

Example utf8_lone_surrogate : utf8_encode [0xD800]%Z = None.
Proof. reflexivity. Qed.

Section Embedder.

Variable self : SimpleEmbeddingManager.

Lemma length_zeros n : length (zeros n) = n.
Proof. apply repeat_length. Qed.

Lemma hash_prefix_length l v :
  length (fold_left (hash_prefix_step (embedding_dim self)) l v) = length v.
Proof.
  revert v; induction l as [|[i c] l IH]; intros v; simpl; [done|].
  rewrite IH. destruct (i <? embedding_dim self)%nat; [apply length_insert | done].
Qed.

Lemma hash_fill_length h l v :
  length (fold_left (hash_fill_step h) l v) = length v.
Proof.
  revert v; induction l as [|i l IH]; intros v; simpl; [done|].
  rewrite IH. apply length_insert.
Qed.

Lemma text_to_hash_vector_length text v :
  text_to_hash_vector self text = Some v -> length v = embedding_dim self.
Proof.
  unfold text_to_hash_vector. destruct (utf8_encode text) as [bs|]; simpl; [|done].
  intros [= <-]. by rewrite hash_fill_length, hash_prefix_length, length_zeros.
Qed.

Lemma get_single_embedding_length text :
  length (get_single_embedding self text) = embedding_dim self.
Proof.
  unfold get_single_embedding.
  destruct (text_to_hash_vector self text) as [v|] eqn:E.
  - by apply text_to_hash_vector_length in E.
  - apply length_zeros.
Qed.

(** The hash vector fails exactly when the text cannot be encoded. *)
Lemma text_to_hash_vector_None text :
  text_to_hash_vector self text = None <-> utf8_encode text = None.
Proof.
  unfold text_to_hash_vector. destruct (utf8_encode text); simpl; split; done.
Qed.

Lemma get_single_embedding_failure text :
  utf8_encode text = None ->
  get_single_embedding self text = zeros (embedding_dim self).
Proof.
  intros H. apply text_to_hash_vector_None in H.
  unfold get_single_embedding. by rewrite H.
Qed.

End Embedder.

(** The two loops of [_text_to_hash_vector], component by component. *)

Lemma enumerate_snoc {A} (l : list A) x :
  enumerate (l ++ [x]) = enumerate l ++ [(length l, x)].
Proof.
  unfold enumerate. rewrite imap_app. simpl. by rewrite Nat.add_0_r.
Qed.

Lemma hash_prefix_lookup dim h v j :
  length v = dim -> (j < dim)%nat ->
  fold_left (hash_prefix_step dim) (enumerate h) v !! j
  = match h !! j with
    | Some c => Some (IZR (ord c) / 255)
    | None => v !! j
    end.
Proof.
  intros Hv Hj. induction h as [|c h IH] using rev_ind; [done|].
  rewrite enumerate_snoc, fold_left_app. simpl.
  destruct (decide (j = length h)) as [->|Hne].
  - rewrite lookup_app_r, Nat.sub_diag by lia. simpl.
    destruct (length h <? dim)%nat eqn:E; [|apply Nat.ltb_ge in E; lia].
    apply list_lookup_insert_eq.
    rewrite (hash_prefix_length {| embedding_dim := dim; model_name := "" |}). lia.
  - assert (fold_left (hash_prefix_step dim) (enumerate h) v !! j
            = (if (length h <? dim)%nat
               then <[length h := IZR (ord c) / 255]>
                      (fold_left (hash_prefix_step dim) (enumerate h) v)
               else fold_left (hash_prefix_step dim) (enumerate h) v) !! j) as <-.
    { destruct (length h <? dim)%nat; [|done].
      by rewrite list_lookup_insert_ne. }
    rewrite IH.
    destruct (decide (j < length h)%nat) as [Hlt|Hge].
    + by rewrite lookup_app_l.
    + rewrite (lookup_ge_None_2 h) by lia.
      by rewrite (lookup_ge_None_2 (h ++ [c])) by (rewrite length_app; simpl; lia).
Qed.

Lemma hash_fill_lookup h a n v j :
  (j < length v)%nat ->
  fold_left (hash_fill_step h) (seq a n) v !! j
  = if decide (a <= j < a + n)%nat
    then Some (IZR ((ord (nth (j mod length h) h 0%Z) + Z.of_nat j) mod 255) / 255)
    else v !! j.
Proof.
  intros Hj. induction n as [|n IH].
  - simpl. destruct (decide _); [lia | done].
  - rewrite seq_S, fold_left_app. simpl. unfold hash_fill_step at 1.
    destruct (decide (j = a + n)%nat) as [->|Hne].
    + clear IH. rewrite list_lookup_insert_eq by (by rewrite hash_fill_length).
      destruct (decide _); [done | lia].
    + rewrite list_lookup_insert_ne by done. rewrite IH.
      destruct (decide (a <= j < a + n)%nat), (decide (a <= j < a + S n)%nat);
        done || lia.
Qed.

(** Every component of the hash vector, in closed form. *)
Lemma text_to_hash_vector_lookup self text bs v j :
  utf8_encode text = Some bs ->
  text_to_hash_vector self text = Some v ->
  (j < embedding_dim self)%nat ->
  v !! j = Some (hash_component (MD5.hexdigest bs) j).
Proof.
  intros Henc Hv Hj. unfold text_to_hash_vector in Hv. rewrite Henc in Hv.
  simpl in Hv. injection Hv as <-.
  rewrite hash_fill_lookup
    by (by rewrite (hash_prefix_length self), length_zeros).
  unfold hash_component. rewrite MD5Facts.hexdigest_length.
  destruct (decide _) as [[Hlo Hhi]|Hout].
  - destruct (j <? 32)%nat eqn:E; [apply Nat.ltb_lt in E; lia | done].
  - assert (j < 32)%nat as Hlt by lia.
    rewrite (proj2 (Nat.ltb_lt j 32) Hlt).
    rewrite hash_prefix_lookup by (done || apply length_zeros).
    destruct (lookup_lt_is_Some_2 (MD5.hexdigest bs) j) as [c Hc];
      [by rewrite MD5Facts.hexdigest_length|].
    rewrite Hc. f_equal. f_equal. f_equal. f_equal.
    rewrite nth_lookup, Hc. done.
Qed.

Example hash_vector_abc :
  get_single_embedding (SimpleEmbeddingManager_init 34) (str_of_string "abc") !! 0%nat
  = Some (57 / 255)
  /\ get_single_embedding (SimpleEmbeddingManager_init 34) (str_of_string "abc") !! 1%nat
     = Some (48 / 255)
  /\ get_single_embedding (SimpleEmbeddingManager_init 34) (str_of_string "abc") !! 33%nat
     = Some (81 / 255).
Proof.
  assert (utf8_encode (str_of_string "abc") = Some [97; 98; 99]%Z) as Henc
    by reflexivity.
  destruct (text_to_hash_vector (SimpleEmbeddingManager_init 34) (str_of_string "abc"))
    as [v|] eqn:Hv;
    [|by apply text_to_hash_vector_None in Hv].
  unfold get_single_embedding. rewrite Hv.
  rewrite !(text_to_hash_vector_lookup _ _ _ _ _ Henc Hv) by (simpl; lia).
  rewrite MD5Facts.md5_abc. repeat split; reflexivity.
Qed.

(** ** Sums, dot products and norms *)

Lemma fold_left_Rplus l a : fold_left Rplus l a = a + fold_right Rplus 0 l.
Proof.
  revert a; induction l as [|x l IH]; intros a; simpl; [lra|].
  rewrite IH; lra.
Qed.

Lemma py_sum_spec l : py_sum l = fold_right Rplus 0 l.
Proof. unfold py_sum; rewrite fold_left_Rplus; lra. Qed.

Lemma zip_with_self_squares (v : vec) :
  zip_with Rmult v v = map (fun x => x * x) v.
Proof. induction v as [|x v IH]; simpl; [done | by rewrite IH]. Qed.



Lemma np_norm_spec v : np_norm v = euclidean_norm v.
Proof.
  unfold np_norm, euclidean_norm, dot_product.
  by rewrite py_sum_spec, zip_with_self_squares.
Qed.

Lemma dot_self_nonneg v : 0 <= dot_product v v.
Proof.
  unfold dot_product; induction v as [|x v IH]; simpl; [lra|].
  pose proof (Rle_0_sqr x) as Hx; unfold Rsqr in Hx; lra.
Qed.

Lemma dot_self_zero v : dot_product v v = 0 <-> Forall (fun x => x = 0) v.
Proof.
  induction v as [|x v IH]; [split; [constructor | done]|].
  change (dot_product (x :: v) (x :: v)) with (x * x + dot_product v v).
  pose proof (dot_self_nonneg v) as Hv.
  pose proof (Rle_0_sqr x) as Hx; unfold Rsqr in Hx.
  split.
  - intros H. assert (x * x = 0) as Hxx by lra.
    constructor; [by apply Rmult_integral in Hxx as [|] | apply IH; lra].
  - intros H; apply Forall_cons in H as [-> H]. apply IH in H. lra.
Qed.


Lemma euclidean_norm_zero v : euclidean_norm v = 0 <-> Forall (fun x => x = 0) v.
Proof.
  unfold euclidean_norm; rewrite <- dot_self_zero. split.
  - intros H. apply sqrt_eq_0; [apply dot_self_nonneg | done].
  - intros ->. apply sqrt_0.
Qed.


Lemma nonzero_norm v : nonzero v <-> euclidean_norm v <> 0.
Proof.
  rewrite euclidean_norm_zero. unfold nonzero. split.
  - intros Hex Hall. apply Exists_exists in Hex as (x & Hin & Hx).
    rewrite Forall_forall in Hall. by apply Hx, Hall.
  - intros H. apply not_Forall_Exists in H; [done|].
    intros x; apply _.
Qed.

Lemma zeros_all_zero n : Forall (fun x => x = 0) (zeros n).
Proof. unfold zeros; induction n; simpl; constructor; done. Qed.

Lemma euclidean_norm_zeros n : euclidean_norm (zeros n) = 0.
Proof. apply euclidean_norm_zero, zeros_all_zero. Qed.

(** ** The cosine similarity *)



Lemma cosine_zero_norm v1 v2 :
  euclidean_norm v1 = 0 \/ euclidean_norm v2 = 0 -> cosine_similarity v1 v2 = 0.
Proof.
  intros H; unfold cosine_similarity.
  destruct (np_dot v1 v2); [|done].
  rewrite !np_norm_spec. destruct (decide _); [done | tauto].
Qed.




Lemma cosine_zeros_l v n : cosine_similarity (zeros n) v = 0.
Proof. apply cosine_zero_norm; left; apply euclidean_norm_zeros. Qed.

(** ** Bounds on the similarity *)







(** ** The descending sort of [(similarity, index)] pairs *)

Lemma tuple_ltb_true a b : tuple_ltb a b = true <-> ranks_before b a.
Proof.
  unfold tuple_ltb, ranks_before. destruct (decide (a.1 = b.1)) as [E|E].
  - rewrite bool_decide_eq_true. split; [intros H; right; done|].
    intros [H|[_ H]]; [lra | done].
  - rewrite bool_decide_eq_true. split; [intros H; left; done|].
    intros [H|[H _]]; done.
Qed.

Lemma tuple_ltb_false a b : tuple_ltb a b = false <-> ranks_before_eq a b.
Proof.
  rewrite <- not_true_iff_false, tuple_ltb_true.
  unfold ranks_before_eq, ranks_before. destruct a as [s i], b as [t j]; simpl.
  split.
  - intros H. destruct (Rtotal_order s t) as [Hlt|[->|Hgt]].
    + exfalso; apply H; by left.
    + destruct (lt_eq_lt_dec i j) as [[Hij| ->]|Hij].
      * exfalso; apply H; by right.
      * by left.
      * right; right; done.
    + right; left; done.
  - intros [[= -> ->]|[Hlt|[-> Hlt]]] [Hlt'|[Heq Hlt']]; try lra; lia.
Qed.

#[global] Instance ranks_before_eq_refl : Reflexive ranks_before_eq.
Proof. intros a; by left. Qed.

#[global] Instance ranks_before_trans : Transitive ranks_before.
Proof.
  intros [s i] [t j] [u k]; unfold ranks_before; simpl.
  intros [H1|[H1 H1']] [H2|[H2 H2']]; try (left; lra).
  right; split; [lra | lia].
Qed.

#[global] Instance ranks_before_eq_trans : Transitive ranks_before_eq.
Proof.
  intros a b c [->|H1] [->|H2]; [by left | by right | by right |].
  right; by etrans.
Qed.

Lemma ranks_before_irrefl a : ~ ranks_before a a.
Proof. intros [H|[_ H]]; [lra | lia]. Qed.

#[global] Instance ranks_before_eq_antisymm : AntiSymm (=) ranks_before_eq.
Proof.
  intros a b [->|H1] [E|H2]; try done.
  exfalso; apply (ranks_before_irrefl a); by etrans.
Qed.

Lemma insert_desc_perm x l : Permutation (insert_desc x l) (x :: l).
Proof.
  induction l as [|y l IH]; simpl; [done|].
  destruct (tuple_ltb x y); [|done].
  rewrite IH. apply perm_swap.
Qed.

Lemma sort_reverse_perm l : Permutation (sort_reverse l) l.
Proof.
  induction l as [|x l IH]; simpl; [done|].
  by rewrite insert_desc_perm, IH.
Qed.

Lemma insert_desc_sorted x l :
  StronglySorted ranks_before_eq l -> StronglySorted ranks_before_eq (insert_desc x l).
Proof.
  induction 1 as [|y l Hl IH Hy]; simpl; [repeat constructor|].
  destruct (tuple_ltb x y) eqn:E.
  - apply tuple_ltb_true in E. constructor; [done|].
    rewrite insert_desc_perm. constructor; [by right | done].
  - apply tuple_ltb_false in E. constructor; [by constructor|].
    constructor; [done|]. eapply Forall_impl; [exact Hy|].
    intros z Hz; by etrans.
Qed.

Lemma sort_reverse_sorted l : StronglySorted ranks_before_eq (sort_reverse l).
Proof.
  induction l as [|x l IH]; simpl; [constructor | by apply insert_desc_sorted].
Qed.

(** The result does not depend on the sorting algorithm: a descending
    arrangement of the same pairs is the one computed here. *)
Lemma sort_reverse_unique l l' :
  Permutation l' l -> StronglySorted ranks_before_eq l' -> l' = sort_reverse l.
Proof.
  intros Hp Hs. apply (StronglySorted_unique ranks_before_eq); [done | |].
  - apply sort_reverse_sorted.
  - by rewrite sort_reverse_perm.
Qed.


(** ** The search *)

Section Search.

Variable self : SimpleVectorStore.
Variable query : vec.

Lemma ranked_scored : ranked self query = sort_reverse (scored self query).
Proof. reflexivity. Qed.

Lemma scored_indices : (scored self query).*2 = seq 0 (length (embeddings self)).
Proof.
  unfold scored. rewrite fmap_imap.
  rewrite <- (list_fmap_id (seq 0 _)). by rewrite <- imap_seq_0.
Qed.


Lemma ranked_perm : Permutation (ranked self query) (scored self query).
Proof. apply sort_reverse_perm. Qed.

Lemma ranked_length : length (ranked self query) = length (embeddings self).
Proof.
  rewrite (Permutation_length ranked_perm). unfold scored. apply length_imap.
Qed.


Lemma ranked_in_range si :
  si ∈ ranked self query -> (si.2 < length (embeddings self))%nat.
Proof.
  rewrite ranked_perm. intros H.
  assert (si.2 ∈ (scored self query).*2) as Hin by (by apply list_elem_of_fmap_2).
  rewrite scored_indices in Hin. apply elem_of_seq in Hin. lia.
Qed.

Lemma result_at_entry si r : result_at self si = Some r -> is_entry self si r.
Proof.
  destruct si as [s i]; unfold result_at, is_entry; simpl.
  destruct (documents self !! i) as [c|]; simpl; [|done].
  destruct (metadata self !! i) as [m|]; simpl; [|done].
  by intros [= <-].
Qed.

Lemma result_at_in_range si :
  parallel self -> (si.2 < length (embeddings self))%nat ->
  is_Some (result_at self si).
Proof.
  intros [Hd Hm] Hlt. destruct si as [s i]; unfold result_at; simpl in *.
  destruct (lookup_lt_is_Some_2 (documents self) i) as [c ->]; [lia|].
  destruct (lookup_lt_is_Some_2 (metadata self) i) as [m ->]; [lia|].
  simpl; eauto.
Qed.

Lemma slice_to_sublist {A} k (l : list A) : forall x, x ∈ slice_to k l -> x ∈ l.
Proof.
  intros x; unfold slice_to. destruct (0 <=? k)%Z; apply subseteq_take.
Qed.

Lemma slice_to_all {A} k (l : list A) :
  (Z.of_nat (length l) <= k)%Z -> slice_to k l = l.
Proof.
  intros H; unfold slice_to.
  destruct (0 <=? k)%Z eqn:E; [|apply Z.leb_gt in E; lia].
  apply take_ge; lia.
Qed.


(** On a store with parallel lists no list access of the search
    fails, and the results are the entries of the first [top_k]
    ranked pairs, in that order. *)
Lemma search_similar_entries top_k :
  parallel self ->
  Forall2 (is_entry self)
          (slice_to top_k (ranked self query)) (search_similar self query top_k).
Proof.
  intros Hpar. unfold search_similar.
  destruct (embeddings self) as [|e es] eqn:Hemb.
  { assert (ranked self query = []) as ->.
    { apply nil_length_inv. by rewrite ranked_length, Hemb. }
    unfold slice_to; destruct (0 <=? top_k)%Z; rewrite take_nil; constructor. }
  destruct (mapM (result_at self) (slice_to top_k (ranked self query)))
    as [results|] eqn:E.
  - apply mapM_Some in E. eapply Forall2_impl; [exact E|].
    intros si r; apply result_at_entry.
  - exfalso. apply mapM_None in E. apply Exists_exists in E as (si & Hin & Hnone).
    apply slice_to_sublist, ranked_in_range in Hin.
    destruct (result_at_in_range si Hpar Hin) as [r Hr]. congruence.
Qed.


Lemma StronglySorted_take {A} (R : relation A) n l :
  StronglySorted R l -> StronglySorted R (take n l).
Proof.
  intros H; revert n; induction H as [|x l Hl IH Hx]; intros [|n]; simpl;
    try constructor; [apply IH|].
  rewrite Forall_forall in Hx |- *. intros y Hy. apply Hx.
  by apply (subseteq_take n l).
Qed.




End Search.

(** ** Adding to the store *)

Lemma extend_nil s : extend s [] = s.
Proof. destruct s; unfold extend; simpl; by rewrite !app_nil_r. Qed.

Lemma extend_cons s c batch :
  complete c -> extend s (c :: batch) = extend (extend s [c]) batch.
Proof.
  intros ([d Hd] & [e He] & [m Hm]). unfold extend; simpl.
  rewrite Hd, He, Hm; simpl. by rewrite <- !app_assoc.
Qed.

Lemma add_one_complete chunk w :
  complete chunk ->
  add_one chunk w = (Some tt, {| store := extend (store w) [chunk]; disk := disk w |}).
Proof.
  intros ([d Hd] & [e He] & [m Hm]).
  unfold add_one, extend; simpl; rewrite Hd, He, Hm; reflexivity.
Qed.

Lemma add_one_incomplete chunk w :
  ~ complete chunk ->
  add_one chunk w
  = (None, {| store := partial_append chunk (store w); disk := disk w |}).
Proof.
  intros Hinc. unfold add_one, partial_append, complete in *.
  destruct w as [s dk].
  destruct (ec_content chunk) as [d|]; [|by destruct s].
  destruct (ec_embedding chunk) as [e|]; [|reflexivity].
  destruct (ec_metadata chunk) as [m|]; [|reflexivity].
  exfalso; apply Hinc; eauto.
Qed.

Lemma for_each_cons {A} (x : A) l body w :
  for_each (x :: l) body w
  = match body x w with
    | (Some _, w') => for_each l body w'
    | (None, w') => (None, w')
    end.
Proof. reflexivity. Qed.

Lemma for_each_complete batch w :
  Forall complete batch ->
  for_each batch add_one w
  = (Some tt, {| store := extend (store w) batch; disk := disk w |}).
Proof.
  intros H; revert w; induction H as [|c batch Hc _ IH]; intros w.
  - rewrite extend_nil. by destruct w.
  - rewrite for_each_cons, add_one_complete by done. rewrite IH; simpl.
    by rewrite <- extend_cons.
Qed.

Lemma for_each_incomplete pre c rest w :
  Forall complete pre -> ~ complete c ->
  for_each (pre ++ c :: rest) add_one w
  = (None, {| store := partial_append c (extend (store w) pre); disk := disk w |}).
Proof.
  intros H Hc; revert w; induction H as [|c' pre Hc' _ IH]; intros w.
  - rewrite extend_nil, app_nil_l, for_each_cons. by rewrite add_one_incomplete.
  - rewrite <- app_comm_cons, for_each_cons, add_one_complete by done.
    rewrite IH; simpl. by rewrite <- extend_cons.
Qed.

(** A batch is complete, or has a first incomplete chunk. *)
Lemma first_incomplete batch :
  Forall complete batch
  \/ exists pre c rest, batch = pre ++ c :: rest /\ Forall complete pre /\ ~ complete c.
Proof.
  induction batch as [|c batch IH]; [left; constructor|].
  destruct (decide (complete c)) as [Hc|Hc].
  - destruct IH as [IH|(pre & c' & rest & -> & Hpre & Hc')].
    + left; by constructor.
    + right; exists (c :: pre), c', rest. repeat split; [by constructor | done].
  - right; exists [], c, batch. repeat split; [constructor | done].
Qed.

Lemma add_documents_unfold wr batch w :
  add_documents wr batch w
  = match for_each batch add_one w with
    | (Some _, w') =>
        (Some true, {| store := store w'; disk := disk_after wr (store w') |})
    | (None, w') => (Some false, w')
    end.
Proof.
  unfold add_documents, try_except.
  unfold mbind at 1, M_bind at 1.
  destruct (for_each batch add_one w) as [[[]|] w']; [|reflexivity].
  unfold mbind, M_bind, save_data, try_except, pickle_dump, mret, M_ret.
  destruct wr; reflexivity.
Qed.

Lemma add_documents_complete wr batch w :
  Forall complete batch ->
  add_documents wr batch w
  = (Some true,
     {| store := extend (store w) batch;
        disk := disk_after wr (extend (store w) batch) |}).
Proof.
  intros H. by rewrite add_documents_unfold, for_each_complete.
Qed.

Lemma add_documents_incomplete wr pre c rest w :
  Forall complete pre -> ~ complete c ->
  add_documents wr (pre ++ c :: rest) w
  = (Some false,
     {| store := partial_append c (extend (store w) pre); disk := disk w |}).
Proof.
  intros H Hc. by rewrite add_documents_unfold, for_each_incomplete.
Qed.

(** Every chunk of a complete batch has each of the three keys. *)
Ltac complete_has_key H :=
  eapply Forall_impl; [exact H|]; intros ? (? & ? & ?); done.

Lemma omap_lookup_total {A B} (f : A -> option B) (l : list A) j :
  Forall (fun x => is_Some (f x)) l -> omap f l !! j = l !! j ≫= f.
Proof.
  intros H; revert j; induction H as [|x l [y Hy] _ IH]; intros j; [done|].
  simpl. rewrite Hy. destruct j as [|j]; simpl; [done | apply IH].
Qed.

Lemma omap_length_total {A B} (f : A -> option B) (l : list A) :
  Forall (fun x => is_Some (f x)) l -> length (omap f l) = length l.
Proof.
  induction 1 as [|x l [y Hy] _ IH]; [done|].
  simpl. rewrite Hy; simpl. f_equal. exact IH.
Qed.

Lemma extend_parallel s batch :
  parallel s -> Forall complete batch -> parallel (extend s batch).
Proof.
  intros [Hd Hm] Hc. unfold parallel, extend; simpl. rewrite !length_app.
  rewrite !omap_length_total; [lia|..];
    complete_has_key Hc.
Qed.

(** An entry of a complete batch is found by every later search that
    asks for at least as many results as there are entries. *)
Lemma found_after_extend s batch query top_k c :
  parallel s -> Forall complete batch -> c ∈ batch ->
  (Z.of_nat (length (embeddings (extend s batch))) <= top_k)%Z ->
  found_by (search_similar (extend s batch) query top_k) query c.
Proof.
  intros Hpar Hc Hin Hk.
  pose proof (extend_parallel s batch Hpar Hc) as Hpar'.
  apply list_elem_of_lookup in Hin as [j Hj].
  assert (complete c) as ([d Hd] & [e He] & [m Hm]).
  { rewrite Forall_forall in Hc. apply Hc. by apply list_elem_of_lookup_2 in Hj. }
  destruct Hpar as [Hld Hlm].
  set (i := (length (embeddings s) + j)%nat).
  assert (embeddings (extend s batch) !! i = Some e) as Hei.
  { unfold extend, i; simpl. rewrite lookup_app_r by lia.
    replace (length (embeddings s) + j - length (embeddings s))%nat with j by lia.
    rewrite omap_lookup_total, Hj; [done|].
    complete_has_key Hc. }
  assert (documents (extend s batch) !! i = Some d) as Hdi.
  { unfold extend, i; simpl. rewrite lookup_app_r by lia.
    replace (length (embeddings s) + j - length (documents s))%nat with j by lia.
    rewrite omap_lookup_total, Hj; [done|].
    complete_has_key Hc. }
  assert (metadata (extend s batch) !! i = Some m) as Hmi.
  { unfold extend, i; simpl. rewrite lookup_app_r by lia.
    replace (length (embeddings s) + j - length (metadata s))%nat with j by lia.
    rewrite omap_lookup_total, Hj; [done|].
    complete_has_key Hc. }
  assert ((cosine_similarity query e, i) ∈ ranked (extend s batch) query) as Hrk.
  { rewrite ranked_perm. apply list_elem_of_lookup. exists i.
    unfold scored. by rewrite list_lookup_imap, Hei. }
  pose proof (search_similar_entries (extend s batch) query top_k Hpar') as Hent.
  rewrite slice_to_all in Hent by (by rewrite ranked_length).
  apply list_elem_of_lookup in Hrk as [p Hp].
  destruct (Forall2_lookup_l _ _ _ _ _ Hent Hp) as (r & Hr & Hd' & Hm' & Hs).
  simpl in *. exists r. split; [by apply list_elem_of_lookup_2 in Hr|].
  repeat split; [congruence | congruence | eauto].
Qed.

(** The lists of the store stay parallel under a successful
    [add_documents] and under [delete_collection]. *)

Lemma empty_store_parallel : parallel empty_store.
Proof. split; reflexivity. Qed.

Lemma add_documents_parallel wr batch w :
  parallel (store w) ->
  (add_documents wr batch w).1 = Some true ->
  parallel (store (add_documents wr batch w).2).
Proof.
  intros Hpar.
  destruct (first_incomplete batch) as [Hc|(pre & c & rest & -> & Hpre & Hc)].
  - rewrite add_documents_complete by done. simpl. intros _.
    by apply extend_parallel.
  - by rewrite add_documents_incomplete.
Qed.

Lemma delete_collection_spec wr w :
  delete_collection wr w
  = (Some true, {| store := empty_store; disk := disk_after wr empty_store |}).
Proof. unfold delete_collection; destruct wr; reflexivity. Qed.

Lemma reset_then_stats wr w :
  total_documents (get_collection_stats (store (reset_collection wr w).2)) = 0%nat.
Proof. unfold reset_collection. by rewrite delete_collection_spec. Qed.

(** ** The chunker *)

Lemma lstrip_nil_blank s : lstrip s = [] <-> blank s.
Proof.
  unfold blank; induction s as [|c s IH]; simpl; [split; [constructor | done]|].
  destruct (py_isspace c) eqn:E.
  - rewrite IH. split; [by constructor | by intros [_ ?]%Forall_cons].
  - split; [done | intros [? _]%Forall_cons; congruence].
Qed.

Lemma lstrip_head s c s' : lstrip s = c :: s' -> py_isspace c = false.
Proof.
  induction s as [|d s IH]; simpl; [done|].
  destruct (py_isspace d) eqn:E; [done | by intros [= <- _]].
Qed.

Lemma blank_rev s : blank (rev s) <-> blank s.
Proof.
  unfold blank. split; intros H; [|by apply List.Forall_rev].
  rewrite <- (rev_involutive s). by apply List.Forall_rev.
Qed.

Lemma lstrip_not_blank s : ~ blank s -> ~ blank (lstrip s).
Proof.
  intros H Hb. apply lstrip_nil_blank in Hb.
  destruct (lstrip s) as [|c s'] eqn:E; [by apply H, lstrip_nil_blank|].
  pose proof (lstrip_head _ _ _ E) as Hc. simpl in Hb. by rewrite Hc in Hb.
Qed.

Lemma py_strip_blank s : blank s -> py_strip s = [].
Proof.
  intros H. unfold py_strip. apply lstrip_nil_blank in H. by rewrite H.
Qed.

Lemma py_strip_not_blank s : ~ blank s -> ~ blank (py_strip s).
Proof.
  intros H. unfold py_strip. rewrite blank_rev.
  apply lstrip_not_blank. rewrite blank_rev. by apply lstrip_not_blank.
Qed.

Lemma truthy_strip s : truthy (py_strip s) = true <-> ~ blank s.
Proof.
  split.
  - intros H Hb. by rewrite py_strip_blank in H.
  - intros H. apply py_strip_not_blank in H.
    destruct (py_strip s); [exfalso; apply H; constructor | done].
Qed.

Lemma filter_all {A} (P : A -> Prop) `{!forall x, Decision (P x)} (l : list A) :
  Forall P l -> filter P l = l.
Proof.
  induction 1 as [|x l Hx _ IH]; [done|].
  rewrite filter_cons_True by done. by rewrite IH.
Qed.

Section ChunkerFacts.

Variable tiktoken_len : pystr -> option nat.
Variable splitter :
  Z -> Z -> (pystr -> nat) -> list pystr -> pystr -> option (list pystr).

Lemma make_chunk_kept page page_chunks i t :
  ~ blank t ->
  exists c, make_chunk tiktoken_len page page_chunks i t = Some c
            /\ numbered (i, t) i (length page_chunks) c.
Proof.
  intros H. unfold make_chunk.
  rewrite (proj2 (truthy_strip t) H). eexists; split; [done|].
  unfold numbered; simpl. repeat split; [by apply py_strip_not_blank|..];
    by simplify_map_eq.
Qed.

Lemma make_chunk_dropped page page_chunks i t :
  blank t -> make_chunk tiktoken_len page page_chunks i t = None.
Proof.
  intros H. unfold make_chunk. by rewrite py_strip_blank.
Qed.

(** The chunks of a page are the non-blank segments, in order, each
    numbered with its position in the whole splitter output. *)
Lemma omap_make_chunk page page_chunks (l : list (nat * pystr)) :
  Forall2 (fun it c => numbered it it.1 (length page_chunks) c)
          (filter (fun it => ~ blank it.2) l)
          (omap (fun ic => make_chunk tiktoken_len page page_chunks ic.1 ic.2) l).
Proof.
  induction l as [|[i t] l IH]; [constructor|].
  destruct (decide (blank t)) as [Hb|Hb].
  - rewrite filter_cons_False by (simpl; tauto).
    simpl. rewrite make_chunk_dropped by done. exact IH.
  - rewrite filter_cons_True by done.
    destruct (make_chunk_kept page page_chunks i t Hb) as (c & Hc & Hn).
    simpl. rewrite Hc. by constructor.
Qed.

Lemma chunk_document_pages_app self pages acc :
  fold_left
    (fun chunks page =>
       match split_text tiktoken_len splitter self (pg_text page) with
       | Some page_chunks =>
           chunks ++ page_chunk_objects tiktoken_len page page_chunks
       | None => chunks
       end)
    pages acc
  = acc ++ concat (map (page_output tiktoken_len splitter self) pages).
Proof.
  revert acc; induction pages as [|page pages IH]; intros acc; simpl.
  - by rewrite app_nil_r.
  - rewrite IH. unfold page_output at 2.
    destruct (split_text _ _ self (pg_text page)); [by rewrite app_assoc | done].
Qed.

Lemma chunk_document_pages_concat self pages :
  chunk_document_pages tiktoken_len splitter self pages
  = concat (map (page_output tiktoken_len splitter self) pages).
Proof. unfold chunk_document_pages. by rewrite chunk_document_pages_app. Qed.

Lemma kept_all page_chunks :
  Forall (fun t => ~ blank t) page_chunks ->
  kept_segments page_chunks = enumerate page_chunks.
Proof.
  intros H. unfold kept_segments, enumerate.
  apply filter_all, Forall_forall. intros [i t] Hin; simpl.
  apply list_elem_of_lookup in Hin as [j Hj].
  rewrite list_lookup_imap in Hj.
  destruct (page_chunks !! j) as [t'|] eqn:E; simpl in Hj; [|done].
  injection Hj as <- <-. rewrite Forall_forall in H.
  apply H. by apply list_elem_of_lookup_2 in E.
Qed.

End ChunkerFacts.

(** ** Ingestion keeps the stored embeddings hash-derived *)

Lemma batch_encode_complete self chunks :
  Forall complete (batch_encode_with_metadata self chunks).
Proof.
  unfold batch_encode_with_metadata. apply Forall_forall. intros c Hc.
  apply list_elem_of_In, in_map_iff in Hc as (chunk & <- & _).
  unfold complete; simpl; eauto.
Qed.

Lemma batch_encode_hash_derived self chunks :
  Forall hash_derived (omap ec_embedding (batch_encode_with_metadata self chunks)).
Proof.
  unfold batch_encode_with_metadata.
  induction chunks as [|c chunks IH]; simpl; [constructor|].
  constructor; [by exists self, (content c) | exact IH].
Qed.

Lemma process_documents_hash_derived
    (tiktoken_len : pystr -> option nat)
    (splitter : Z -> Z -> (pystr -> nat) -> list pystr -> pystr -> option (list pystr))
    wr extracted file_paths self on_disk :
  Forall hash_derived (embeddings (vector_store self)) ->
  Forall hash_derived
    (embeddings (vector_store
       (process_documents tiktoken_len splitter wr extracted file_paths
          self on_disk).1.2)).
Proof.
  intros H. unfold process_documents.
  destruct extracted as [pages|msg]; [|done].
  rewrite add_documents_complete by apply batch_encode_complete.
  destruct (get_chunk_statistics _); simpl;
    (apply Forall_app; split; [done | apply batch_encode_hash_derived]).
Qed.

Lemma RAGEngine_init_hash_derived cfg :
  Forall hash_derived (embeddings (vector_store (RAGEngine_init cfg None))).
Proof. constructor. Qed.

(** * The claims *)

(** ** Embedder *)

(** C6: for every text the embedder returns a vector whose length is the
    dimension reported by [get_embedding_dimension]; that dimension is
    the one given to the constructor and is 384 by default; two calls on
    the same text return the same vector. *)
Theorem embed_dimension_deterministic (D : nat) (text1 text2 : pystr) :
  get_embedding_dimension (SimpleEmbeddingManager_init D) = D
  /\ get_embedding_dimension EmbeddingManager = 384%nat
  /\ length (get_single_embedding (SimpleEmbeddingManager_init D) text1)
     = get_embedding_dimension (SimpleEmbeddingManager_init D)
  /\ (text1 = text2 ->
      get_single_embedding (SimpleEmbeddingManager_init D) text1
      = get_single_embedding (SimpleEmbeddingManager_init D) text2).
Proof.
  repeat split.
  - apply get_single_embedding_length.
  - by intros ->.
Qed.

Lemma embed_dimension_deterministic_witness :
  length (get_single_embedding (SimpleEmbeddingManager_init 40)
                               (str_of_string "What is GIKI?")) = 40%nat
  /\ get_single_embedding (SimpleEmbeddingManager_init 40) (str_of_string "GIKI")
     = get_single_embedding (SimpleEmbeddingManager_init 40) (str_of_string "GIKI").
Proof.
  destruct (embed_dimension_deterministic 40 (str_of_string "What is GIKI?")
              (str_of_string "What is GIKI?")) as (_ & _ & Hlen & _).
  destruct (embed_dimension_deterministic 40 (str_of_string "GIKI")
              (str_of_string "GIKI")) as (_ & _ & _ & Hdet).
  split; [exact Hlen | apply Hdet; reflexivity].
Defined.

(** C8: the batch operation returns one vector per input text, in input
    order, and a text whose hash vector cannot be computed gets the zero
    vector while the other texts keep theirs. *)
Theorem get_embeddings_total (self : SimpleEmbeddingManager) (texts : list pystr) :
  length (get_embeddings self texts) = length texts
  /\ (forall i t, texts !! i = Some t ->
        get_embeddings self texts !! i = Some (get_single_embedding self t))
  /\ (forall i t, texts !! i = Some t -> text_to_hash_vector self t = None ->
        get_embeddings self texts !! i = Some (zeros (embedding_dim self))).
Proof.
  unfold get_embeddings. repeat split.
  - apply length_map.
  - intros i t Hi. change (map ?f ?l) with (f <$> l).
    by rewrite list_lookup_fmap, Hi.
  - intros i t Hi Hfail. change (map ?f ?l) with (f <$> l).
    rewrite list_lookup_fmap, Hi; simpl.
    unfold get_single_embedding. by rewrite Hfail.
Qed.

Lemma get_embeddings_total_witness :
  get_embeddings EmbeddingManager
    [str_of_string "a"; [0xD800%Z]; str_of_string "b"] !! 1%nat
  = Some (zeros 384).
Proof.
  apply (proj2 (proj2 (get_embeddings_total EmbeddingManager
           [str_of_string "a"; [0xD800%Z]; str_of_string "b"])) 1%nat [0xD800%Z]);
    reflexivity.
Defined.



(** ** Similarity index: search *)


(** On a store whose lists are not parallel a list access of the search
    raises and the search returns nothing, whatever [top_k] is. *)
Example search_ragged_store :
  embeddings ragged_store = [[1]] /\ metadata ragged_store = []
  /\ search_similar ragged_store [1] 3 = [].
Proof. repeat split; reflexivity. Qed.



(** ** Similarity index: add *)

(** C2, as stated, fails on both sides.  A batch whose second chunk
    lacks its embedding makes [add_documents] return [False] after the
    first chunk and the content of the second have been appended; and
    when the file cannot be written it returns [True] with nothing on
    disk. *)
Lemma add_documents_not_atomic :
  (let '(r, w') :=
     add_documents Written [chunk_of doc_a [1]; chunk_without_embedding] empty_world in
   r = Some false
   /\ documents (store w') = [doc_a; doc_b]
   /\ embeddings (store w') = [[1]]
   /\ store w' <> store empty_world)
  /\ (let '(r, w') := add_documents (WriteFails None) [chunk_of doc_a [1]] empty_world in
      r = Some true /\ disk w' = None /\ documents (store w') = [doc_a]).
Proof.
  split; simpl; repeat split; done.
Qed.

(** C2, amended: [add_documents] always returns a boolean.  It returns
    [True] exactly when every chunk of the batch has its three keys;
    then the whole batch has been appended to the store in memory, the
    file holds the store if the write went through (a failed write is
    logged only; the file then holds what the failed write left), and,
    if the lists of the store were parallel before the call, every
    entry of the batch is found by a later search that asks for at
    least as many results as there are entries.  It returns [False]
    when some chunk lacks a key; then the chunks before the first such
    chunk remain appended in memory, together with the keys of that
    chunk that precede the missing one, and nothing has been written to
    disk. *)
Theorem add_documents_outcome (wr : write_outcome) (batch : list EncodedChunk)
    (w : World) :
  let r := (add_documents wr batch w).1 in
  let w' := (add_documents wr batch w).2 in
  (r = Some true \/ r = Some false)
  /\ (r = Some true ->
        Forall complete batch
        /\ store w' = extend (store w) batch
        /\ disk w' = disk_after wr (store w')
        /\ (parallel (store w) ->
            forall query top_k c,
              c ∈ batch ->
              (Z.of_nat (length (embeddings (store w'))) <= top_k)%Z ->
              found_by (search_similar (store w') query top_k) query c))
  /\ (r = Some false ->
        disk w' = disk w
        /\ exists pre c rest,
             batch = pre ++ c :: rest /\ Forall complete pre /\ ~ complete c
             /\ store w' = partial_append c (extend (store w) pre)).
Proof.
  destruct (first_incomplete batch) as [Hc|(pre & c & rest & -> & Hpre & Hc)]; simpl.
  - rewrite add_documents_complete by done; simpl.
    split; [by left|]. split; [|done]. intros _.
    split; [done|]. split; [done|]. split; [done|].
    intros Hpar query top_k c Hin Hk. by apply found_after_extend.
  - rewrite add_documents_incomplete by done; simpl.
    split; [by right|]. split; [done|]. intros _.
    split; [done|]. by exists pre, c, rest.
Qed.

Lemma add_documents_outcome_witness :
  store (add_documents Written [chunk_of doc_a [1]; chunk_of doc_b [1]] empty_world).2
  = extend empty_store [chunk_of doc_a [1]; chunk_of doc_b [1]]
  /\ found_by (search_similar tie_store [1] 2) [1] (chunk_of doc_b [1])
  /\ disk (add_documents Written [chunk_of doc_a [1]; chunk_without_embedding]
             empty_world).2 = None.
Proof.
  destruct (add_documents_outcome Written [chunk_of doc_a [1]; chunk_of doc_b [1]]
              empty_world) as (_ & Hok & _).
  destruct (add_documents_outcome Written [chunk_of doc_a [1]; chunk_without_embedding]
              empty_world) as (_ & _ & Hfail).
  destruct (Hok eq_refl) as (_ & Hst & _ & Hfound).
  destruct (Hfail eq_refl) as (Hdisk & _).
  split; [exact Hst|]. split; [|exact Hdisk].
  apply Hfound.
  - split; reflexivity.
  - apply list_elem_of_In. right; left; reflexivity.
  - simpl. lia.
Defined.

(** ** Chunker *)

(** C4, as stated, fails: when the splitter returns the segments
    ["a"], [" "], ["b"], the white-space segment is dropped and two
    chunks are emitted, but the second one is numbered 2 of 3, not 1
    of 2. *)
Lemma chunk_numbering_counts_dropped :
  let chunks :=
    chunk_document_pages no_tiktoken three_segments
      (TextChunker_init default_config None None) [page_one] in
  map content chunks = [str_of_string "a"; str_of_string "b"]
  /\ map (fun c => chunk_metadata c !! "chunk_index"%string) chunks
     = [Some (PInt 0); Some (PInt 2)]
  /\ map (fun c => chunk_metadata c !! "total_chunks"%string) chunks
     = [Some (PInt 3); Some (PInt 3)].
Proof. vm_compute. repeat split; reflexivity. Qed.

(** C4, amended: the output is the concatenation of the outputs of the
    pages; for a page that the splitter splits, the emitted chunks are
    the segments that are not blank, in order, each with its stripped
    (and not blank) text; [chunk_index] is the position of the segment
    in the whole output of the splitter and [total_chunks] the length of
    that output, dropped segments included.  Both agree with a numbering
    over the emitted chunks when the splitter returns no blank segment. *)
Theorem chunk_numbering
    (tiktoken_len : pystr -> option nat)
    (splitter : Z -> Z -> (pystr -> nat) -> list pystr -> pystr -> option (list pystr))
    (self : TextChunker) (pages : list PageRecord) :
  chunk_document_pages tiktoken_len splitter self pages
  = concat (map (page_output tiktoken_len splitter self) pages)
  /\ forall page page_chunks,
       split_text tiktoken_len splitter self (pg_text page) = Some page_chunks ->
       Forall2 (fun it c => numbered it it.1 (length page_chunks) c)
               (kept_segments page_chunks)
               (page_output tiktoken_len splitter self page)
       /\ (Forall (fun t => ~ blank t) page_chunks ->
           kept_segments page_chunks = enumerate page_chunks
           /\ length (page_output tiktoken_len splitter self page)
              = length page_chunks).
Proof.
  split; [apply chunk_document_pages_concat|].
  intros page page_chunks Hsplit.
  assert (Forall2 (fun it c => numbered it it.1 (length page_chunks) c)
            (kept_segments page_chunks)
            (page_output tiktoken_len splitter self page)) as H.
  { unfold page_output; rewrite Hsplit. apply omap_make_chunk. }
  split; [exact H|]. intros Hnb.
  pose proof (kept_all page_chunks Hnb) as Hk. split; [exact Hk|].
  apply Forall2_length in H. rewrite <- H, Hk. apply length_imap.
Qed.

Lemma chunk_numbering_witness :
  Forall2 (fun it c => numbered it it.1 3 c)
    (kept_segments [str_of_string "a"; str_of_string " "; str_of_string "b"])
    (page_output no_tiktoken three_segments
       (TextChunker_init default_config None None) page_one)
  /\ length (page_output no_tiktoken two_segments
               (TextChunker_init default_config None None) page_one) = 2%nat.
Proof.
  destruct (chunk_numbering no_tiktoken three_segments
              (TextChunker_init default_config None None) [page_one]) as [_ H3].
  destruct (chunk_numbering no_tiktoken two_segments
              (TextChunker_init default_config None None) [page_one]) as [_ H2].
  split.
  - apply (H3 page_one [str_of_string "a"; str_of_string " "; str_of_string "b"]).
    reflexivity.
  - apply (H2 page_one [str_of_string "Alpha beta. "; str_of_string "Gamma delta."]);
      [reflexivity|].
    repeat constructor; intros Hb; apply Forall_cons in Hb as [Hb _]; discriminate Hb.
Defined.

(** ** Scores of the search results and of hash vectors *)





Lemma enumerate_snd {A} (P : A -> Prop) (l : list A) :
  Forall P l -> Forall (fun ic : nat * A => P ic.2) (enumerate l).
Proof.
  rewrite !Forall_lookup. intros H i [j x] Hi. unfold enumerate in Hi.
  rewrite list_lookup_imap in Hi.
  destruct (l !! i) as [y|] eqn:E; simpl in Hi; [|done].
  injection Hi as <- <-. by eapply H.
Qed.




(** ** Retrieval orchestrator: query *)

Section Query.

Variable generate_response : pystr -> pystr -> pystr -> outcome pystr.

(** With a positive embedding dimension the check on the length of the
    question embedding never raises, and [ask_question] is decided by
    the search and the generator alone. *)
Lemma ask_question_unfold self question language :
  embedding_dim (embedding_manager self) <> 0%nat ->
  ask_question generate_response self question language
  = let search_results :=
      search_similar (vector_store self)
        (get_single_embedding (embedding_manager self) question) 3 in
    match search_results with
    | [] => insufficient_result
    | _ =>
        match generate_response question
                (join paragraph_break (map sr_content search_results)) language with
        | Returns answer =>
            {| success := true; error := None; answer := answer;
               sources := map source_of search_results;
               confidence :=
                 py_sum (map similarity_score search_results)
                 / INR (length search_results);
               context_length :=
                 Some (length (join paragraph_break (map sr_content search_results)));
               sources_count := Some (length (map source_of search_results)) |}
        | Raises msg =>
            {| success := false; error := Some msg; answer := error_answer;
               sources := []; confidence := 0;
               context_length := None; sources_count := None |}
        end
    end.
Proof.
  intros Hdim. unfold ask_question, ask_question_body.
  rewrite get_single_embedding_length.
  destruct (decide _) as [E|_]; [done|].
  unfold search_similar_default_top_k.
  destruct (search_similar _ _ 3) as [|r rs]; [done|].
  by destruct (generate_response _ _ _).
Qed.


End Query.

(** C5: on an index without entries the engine built by [RAGEngine()]
    answers every question with the success outcome that carries the
    fixed insufficient-information answer, no sources and confidence 0. *)
Theorem ask_empty_index
    (generate_response : pystr -> pystr -> pystr -> outcome pystr)
    (self : RAGEngine) (question language : pystr) :
  embedding_manager self = EmbeddingManager ->
  embeddings (vector_store self) = [] ->
  ask_question generate_response self question language = insufficient_result
  /\ success insufficient_result = true
  /\ answer insufficient_result = insufficient_information
  /\ sources insufficient_result = []
  /\ confidence insufficient_result = 0.
Proof.
  intros Hm Hemp. split; [|done].
  rewrite ask_question_unfold by (by rewrite Hm).
  unfold search_similar. by rewrite Hemp.
Qed.

Lemma ask_empty_index_witness :
  ask_question echo_generator (RAGEngine_init default_config None)
    (str_of_string "What is GIKI?") (str_of_string "en")
  = insufficient_result.
Proof.
  apply (ask_empty_index echo_generator (RAGEngine_init default_config None));
    reflexivity.
Defined.

(** C3 (the code departs from the claim): when the question cannot be
    embedded, the engine built by [RAGEngine()] gets the zero vector of
    length 384 for it, the check [len(question_embedding) == 0] does not
    fire, the index is searched with the zero vector and, whenever the
    generator answers, the outcome is a success whose sources are the
    results of that search. *)
Theorem zero_vector_question_is_searched
    (generate_response : pystr -> pystr -> pystr -> outcome pystr)
    (cfg : Config) (on_disk : option SimpleVectorStore)
    (question language : pystr) :
  utf8_encode question = None ->
  (forall context, exists a, generate_response question context language = Returns a) ->
  let self := RAGEngine_init cfg on_disk in
  get_single_embedding (embedding_manager self) question = zeros 384
  /\ success (ask_question generate_response self question language) = true
  /\ sources (ask_question generate_response self question language)
     = map source_of (search_similar (vector_store self) (zeros 384) 3).
Proof.
  intros Henc Hgen self.
  assert (get_single_embedding (embedding_manager self) question = zeros 384) as Hz.
  { by apply get_single_embedding_failure. }
  split; [exact Hz|].
  rewrite ask_question_unfold by done. rewrite Hz. simpl.
  destruct (search_similar _ _ 3) as [|r rs]; [done|].
  destruct (Hgen (join paragraph_break (map sr_content (r :: rs)))) as [a ->].
  done.
Qed.

Lemma zero_vector_question_is_searched_witness :
  success (ask_question echo_generator
             (RAGEngine_init default_config (Some one_entry_store))
             lone_surrogate (str_of_string "en")) = true
  /\ map src_similarity_score
       (sources (ask_question echo_generator
                   (RAGEngine_init default_config (Some one_entry_store))
                   lone_surrogate (str_of_string "en"))) = [0].
Proof.
  destruct (zero_vector_question_is_searched echo_generator default_config
              (Some one_entry_store) lone_surrogate (str_of_string "en"))
    as (_ & Hs & Hsrc).
  - reflexivity.
  - intros context. by exists context.
  - split; [exact Hs|]. rewrite Hsrc.
    unfold search_similar, ranked; simpl. by rewrite cosine_zeros_l.
Defined.




(** * Further properties of the code *)

(** ** The hash embedding *)

Lemma hash_prefix_unit dim l v :
  Forall (fun ic : nat * Z => (0 <= ic.2 < 255)%Z) l ->
  Forall (fun x => 0 <= x < 1) v ->
  Forall (fun x => 0 <= x < 1) (fold_left (hash_prefix_step dim) l v).
Proof.
  intros Hl; revert v; induction Hl as [|[i c] l Hc _ IH]; intros v Hv; simpl; [done|].
  apply IH. destruct (i <? dim)%nat; [|done].
  apply Forall_insert; [done|]. unfold ord; simpl in Hc.
  destruct Hc as [Hlo Hhi]. apply IZR_le in Hlo. apply IZR_lt in Hhi. lra.
Qed.

Lemma hash_fill_unit h l v :
  Forall (fun x => 0 <= x < 1) v ->
  Forall (fun x => 0 <= x < 1) (fold_left (hash_fill_step h) l v).
Proof.
  revert v; induction l as [|i l IH]; intros v Hv; simpl; [done|].
  apply IH. apply Forall_insert; [done|].
  match goal with |- 0 <= IZR ?z / 255 < 1 =>
    assert (0 <= z < 255)%Z as [Hlo Hhi] by (apply Z.mod_pos_bound; lia) end.
  apply IZR_le in Hlo. apply IZR_lt in Hhi. lra.
Qed.

Lemma hash_component_first h j :
  length h = 32%nat -> Forall is_hex_char h -> (j < 32)%nat ->
  48 / 255 <= hash_component h j <= 102 / 255.
Proof.
  intros Hlen Hhex Hj. unfold hash_component. rewrite Hlen.
  rewrite (proj2 (Nat.ltb_lt j 32) Hj).
  destruct (lookup_lt_is_Some_2 h j) as [c Hc]; [lia|].
  rewrite nth_lookup, Hc. simpl. unfold ord.
  rewrite Forall_lookup in Hhex. specialize (Hhex _ _ Hc).
  assert (48 <= c <= 102)%Z as [Hlo Hhi] by (unfold is_hex_char in Hhex; lia).
  apply IZR_le in Hlo. apply IZR_le in Hhi. lra.
Qed.

Lemma get_single_embedding_lookup self text bs j :
  utf8_encode text = Some bs ->
  (j < embedding_dim self)%nat ->
  get_single_embedding self text !! j = Some (hash_component (MD5.hexdigest bs) j).
Proof.
  intros Henc Hj.
  destruct (text_to_hash_vector self text) as [v|] eqn:Hv;
    [|apply text_to_hash_vector_None in Hv; congruence].
  unfold get_single_embedding. rewrite Hv.
  by eapply text_to_hash_vector_lookup.
Qed.

(** An encodable text never hashes to the zero vector. *)
Lemma get_single_embedding_nonzero self text bs :
  utf8_encode text = Some bs -> (0 < embedding_dim self)%nat ->
  nonzero (get_single_embedding self text).
Proof.
  intros Henc Hdim.
  pose proof (get_single_embedding_lookup self text bs 0 Henc Hdim) as Hl.
  pose proof (hash_component_first (MD5.hexdigest bs) 0
                (MD5Facts.hexdigest_length bs) (MD5Facts.hexdigest_chars bs)
                ltac:(lia)) as Hr.
  apply Exists_exists. exists (hash_component (MD5.hexdigest bs) 0).
  split; [by apply list_elem_of_lookup_2 in Hl | lra].
Qed.

(** X1: when the text can be encoded, component [j] of its embedding is
    [ord(h[j]) / 255] for [j < 32] and [(ord(h[j % 32]) + j) % 255 / 255]
    from 32 on, where [h] is the hexadecimal MD5 digest of the UTF-8
    bytes of the text. *)
Theorem hash_vector_closed_form (self : SimpleEmbeddingManager) (text : pystr)
    (bs : pybytes) (j : nat) :
  utf8_encode text = Some bs ->
  (j < embedding_dim self)%nat ->
  get_single_embedding self text !! j = Some (hash_component (MD5.hexdigest bs) j)
  /\ hash_component (MD5.hexdigest bs) j
     = if (j <? 32)%nat
       then IZR (nth j (MD5.hexdigest bs) 0%Z) / 255
       else IZR ((nth (j mod 32) (MD5.hexdigest bs) 0%Z + Z.of_nat j) mod 255) / 255.
Proof.
  intros Henc Hj. split; [by apply get_single_embedding_lookup|].
  unfold hash_component, ord. by rewrite MD5Facts.hexdigest_length.
Qed.

Lemma hash_vector_closed_form_witness :
  get_single_embedding (SimpleEmbeddingManager_init 40) (str_of_string "abc") !! 35%nat
  = Some (hash_component (MD5.hexdigest [97; 98; 99]%Z) 35).
Proof.
  apply (hash_vector_closed_form (SimpleEmbeddingManager_init 40)
           (str_of_string "abc") [97; 98; 99]%Z 35); [reflexivity | simpl; lia].
Defined.

(** X2: every component of an embedding lies in [0, 1), whatever the
    text and the dimension; the components taken directly from the
    digest (the first 32 of an encodable text) lie between 48/255 and
    102/255, the codes of ['0'] and ['f']. *)
Theorem embedding_components_range (self : SimpleEmbeddingManager) (text : pystr) :
  Forall (fun x => 0 <= x < 1) (get_single_embedding self text)
  /\ (forall bs j x,
        utf8_encode text = Some bs -> (j < 32)%nat ->
        get_single_embedding self text !! j = Some x ->
        48 / 255 <= x <= 102 / 255).
Proof.
  split.
  - unfold get_single_embedding, text_to_hash_vector.
    assert (Forall (fun x => 0 <= x < 1) (zeros (embedding_dim self))) as Hz.
    { eapply Forall_impl; [apply zeros_all_zero|]. intros x ->; lra. }
    destruct (utf8_encode text) as [bs|]; simpl; [|done].
    apply hash_fill_unit, hash_prefix_unit; [|done].
    apply (enumerate_snd (fun c => (0 <= c < 255)%Z)).
    eapply Forall_impl; [apply MD5Facts.hexdigest_chars|].
    unfold is_hex_char; intros c Hc; lia.
  - intros bs j x Henc Hj Hx.
    assert (j < embedding_dim self)%nat as Hdim.
    { apply lookup_lt_Some in Hx. by rewrite get_single_embedding_length in Hx. }
    rewrite (get_single_embedding_lookup self text bs j Henc Hdim) in Hx.
    injection Hx as <-.
    apply hash_component_first;
      [apply MD5Facts.hexdigest_length | apply MD5Facts.hexdigest_chars | done].
Qed.

Lemma embedding_components_range_witness : 48 / 255 <= 57 / 255 <= 102 / 255.
Proof.
  apply (proj2 (embedding_components_range (SimpleEmbeddingManager_init 34)
                  (str_of_string "abc"))
           [97; 98; 99]%Z 0%nat (57 / 255));
    [reflexivity | lia | apply hash_vector_abc].
Defined.

(** X3: with a positive dimension the embedding is the zero vector
    exactly when the text cannot be encoded, so the zero vector is an
    unambiguous mark of failure: no encodable text hashes to it. *)
Theorem zero_embedding_iff_failure (self : SimpleEmbeddingManager) (text : pystr) :
  (0 < embedding_dim self)%nat ->
  get_single_embedding self text = zeros (embedding_dim self)
  <-> utf8_encode text = None.
Proof.
  intros Hdim. split; [|apply get_single_embedding_failure].
  intros Hz. destruct (utf8_encode text) as [bs|] eqn:Henc; [exfalso | done].
  pose proof (get_single_embedding_nonzero self text bs Henc Hdim) as Hnz.
  rewrite Hz in Hnz. apply nonzero_norm in Hnz. apply Hnz, euclidean_norm_zeros.
Qed.

Lemma zero_embedding_iff_failure_witness :
  get_single_embedding EmbeddingManager lone_surrogate = zeros 384
  /\ get_single_embedding EmbeddingManager (str_of_string "abc") <> zeros 384.
Proof.
  pose proof (zero_embedding_iff_failure EmbeddingManager lone_surrogate) as H1.
  pose proof (zero_embedding_iff_failure EmbeddingManager (str_of_string "abc")) as H2.
  assert (0 < embedding_dim EmbeddingManager)%nat as Hdim
    by (unfold EmbeddingManager, default_embedding_dim; simpl; lia).
  split.
  - apply H1; [exact Hdim | reflexivity].
  - intros Hz. apply H2 in Hz; [discriminate Hz | exact Hdim].
Defined.

(** ** The similarity *)









(** ** The search, as a function of [top_k] *)

Lemma mapM_take {A B} (f : A -> option B) n l k :
  mapM f l = Some k -> mapM f (take n l) = Some (take n k).
Proof. rewrite !mapM_Some. apply Forall2_take. Qed.

(** On a store with parallel lists every search is a slice of one list:
    the results of all ranked pairs. *)
Lemma search_similar_slice self query :
  parallel self ->
  exists all,
    mapM (result_at self) (ranked self query) = Some all
    /\ length all = length (embeddings self)
    /\ forall top_k, search_similar self query top_k = slice_to top_k all.
Proof.
  intros Hpar.
  destruct (mapM (result_at self) (ranked self query)) as [all|] eqn:E.
  2:{ exfalso. apply mapM_None in E. apply Exists_exists in E as (si & Hin & Hnone).
      apply ranked_in_range in Hin.
      destruct (result_at_in_range self si Hpar Hin) as [r Hr]. congruence. }
  exists all. split; [done|].
  assert (length all = length (embeddings self)) as Hlen.
  { apply length_mapM in E. by rewrite <- E, ranked_length. }
  split; [done|]. intros top_k. unfold search_similar.
  destruct (embeddings self) as [|e es] eqn:Hemb.
  { simpl in Hlen. apply nil_length_inv in Hlen as ->.
    unfold slice_to; destruct (0 <=? top_k)%Z; by rewrite take_nil. }
  assert (length (ranked self query) = length all) as Hrl
    by (by rewrite ranked_length, Hemb, Hlen).
  unfold slice_to. rewrite Hrl.
  destruct (0 <=? top_k)%Z; by rewrite (mapM_take _ _ _ _ E).
Qed.

(** X6: on a store with parallel lists of N entries a search returns
    [min top_k N] results for a [top_k] that is not negative; a
    negative [top_k] is not rejected: it returns all results but the
    last [-top_k] (none when N <= -top_k). *)
Theorem search_result_count (self : SimpleVectorStore) (query : vec) (top_k : Z) :
  parallel self ->
  length (search_similar self query top_k)
  = if (0 <=? top_k)%Z
    then Nat.min (Z.to_nat top_k) (length (embeddings self))
    else (length (embeddings self) - Z.to_nat (- top_k))%nat.
Proof.
  intros Hpar.
  destruct (search_similar_slice self query Hpar) as (all & _ & Hlen & Hs).
  rewrite Hs. unfold slice_to. destruct (0 <=? top_k)%Z; rewrite length_take; lia.
Qed.

Lemma search_result_count_witness :
  length (search_similar tie_store [1] 1) = 1%nat
  /\ length (search_similar tie_store [1] 0) = 0%nat
  /\ length (search_similar tie_store [1] (-1)) = 1%nat
  /\ length (search_similar tie_store [1] 7) = 2%nat.
Proof.
  assert (parallel tie_store) as Hpar by (split; reflexivity).
  split; [|split; [|split]].
  - apply (search_result_count tie_store [1] 1 Hpar).
  - apply (search_result_count tie_store [1] 0 Hpar).
  - apply (search_result_count tie_store [1] (-1) Hpar).
  - apply (search_result_count tie_store [1] 7 Hpar).
Defined.

(** X7: on a store with parallel lists, the results for a smaller
    [top_k] are the first results for a larger one: raising [top_k]
    only appends results and never reorders the earlier ones. *)
Theorem search_prefix (self : SimpleVectorStore) (query : vec) (k1 k2 : Z) :
  parallel self -> (0 <= k1 <= k2)%Z ->
  search_similar self query k1
  = take (Z.to_nat k1) (search_similar self query k2).
Proof.
  intros Hpar [H1 H2].
  destruct (search_similar_slice self query Hpar) as (all & _ & _ & Hs).
  rewrite !Hs. unfold slice_to.
  destruct (0 <=? k1)%Z eqn:E1; [|apply Z.leb_gt in E1; lia].
  destruct (0 <=? k2)%Z eqn:E2; [|apply Z.leb_gt in E2; lia].
  rewrite take_take. f_equal. lia.
Qed.

Lemma search_prefix_witness :
  search_similar tie_store [1] 1 = take 1 (search_similar tie_store [1] 3).
Proof.
  apply (search_prefix tie_store [1] 1 3); [split; reflexivity | lia].
Defined.




(** ** Persistence and reset of the store *)

Lemma add_documents_true wr batch w :
  (add_documents wr batch w).1 = Some true ->
  Forall complete batch
  /\ add_documents wr batch w
     = (Some true,
        {| store := extend (store w) batch;
           disk := disk_after wr (extend (store w) batch) |}).
Proof.
  destruct (first_incomplete batch) as [Hc|(pre & c & rest & -> & Hpre & Hc)].
  - intros _. split; [done | by apply add_documents_complete].
  - by rewrite add_documents_incomplete.
Qed.

(** X9: after an [add_documents] that returned [True] and whose write
    went through, a store object created from the file holds exactly the
    three lists of the store in memory; the same holds after a second
    such call. *)
Theorem persist_roundtrip (batch1 batch2 : list EncodedChunk) (w : World) :
  let w1 := (add_documents Written batch1 w).2 in
  let w2 := (add_documents Written batch2 w1).2 in
  (add_documents Written batch1 w).1 = Some true ->
  SimpleVectorStore_init (disk w1) = store w1
  /\ ((add_documents Written batch2 w1).1 = Some true ->
      SimpleVectorStore_init (disk w2) = store w2
      /\ store w2 = extend (extend (store w) batch1) batch2).
Proof.
  simpl. intros H1. apply add_documents_true in H1 as [_ E1]. rewrite E1. simpl.
  split; [done|]. intros H2. apply add_documents_true in H2 as [_ E2].
  rewrite E2. simpl. done.
Qed.

Lemma persist_roundtrip_witness :
  SimpleVectorStore_init
    (disk (add_documents Written [chunk_of doc_a [1]; chunk_of doc_b [1]] empty_world).2)
  = tie_store.
Proof.
  destruct (persist_roundtrip [chunk_of doc_a [1]; chunk_of doc_b [1]] [] empty_world
              eq_refl) as [H _].
  exact H.
Defined.

(** X10: [delete_collection] (and [reset_collection]) always returns
    [True] and empties the store in memory, whether or not the file
    could be rewritten.  If the write went through, a store created from
    the file is empty; if it failed and left the old file, a store
    created from the file holds the old entries again. *)
Theorem reset_reports_success (wr : write_outcome) (w : World) :
  let w' := (reset_collection wr w).2 in
  (reset_collection wr w).1 = Some true
  /\ store w' = empty_store
  /\ (wr = Written -> SimpleVectorStore_init (disk w') = empty_store)
  /\ (forall old, wr = WriteFails (Some old) ->
                  SimpleVectorStore_init (disk w') = old).
Proof.
  simpl. unfold reset_collection. rewrite delete_collection_spec. simpl.
  repeat split; [by intros -> | by intros old ->].
Qed.

Lemma reset_reports_success_witness :
  SimpleVectorStore_init
    (disk (reset_collection (WriteFails (Some tie_store))
             {| store := tie_store; disk := Some tie_store |}).2)
  = tie_store
  /\ SimpleVectorStore_init
       (disk (reset_collection Written
                {| store := tie_store; disk := Some tie_store |}).2)
     = empty_store.
Proof.
  destruct (reset_reports_success (WriteFails (Some tie_store))
              {| store := tie_store; disk := Some tie_store |}) as (_ & _ & _ & Hf).
  destruct (reset_reports_success Written
              {| store := tie_store; disk := Some tie_store |}) as (_ & _ & Hw & _).
  split; [by apply Hf | by apply Hw].
Defined.

(** ** Encoding and adding *)

Lemma omap_map_total {A B C} (f : A -> B) (g : B -> option C) (h : A -> C) l :
  (forall a, g (f a) = Some (h a)) -> omap g (map f l) = map h l.
Proof.
  intros Hgf. induction l as [|a l IH]; [done|].
  simpl. rewrite Hgf. simpl. f_equal. exact IH.
Qed.

Lemma extend_batch_encode self chunks s :
  extend s (batch_encode_with_metadata self chunks)
  = {| documents := documents s ++ map content chunks;
       embeddings :=
         embeddings s ++ map (fun c => get_single_embedding self (content c)) chunks;
       metadata := metadata s ++ map chunk_metadata chunks |}.
Proof.
  unfold extend, batch_encode_with_metadata.
  f_equal; f_equal; by apply omap_map_total.
Qed.

(** X11: what [batch_encode_with_metadata] returns is always accepted
    by [add_documents]: the call returns [True], appends to the three
    lists, in order, the contents, the embeddings of the contents and
    the metadata of the chunks, and keeps parallel lists parallel. *)
Theorem encode_then_add (self : SimpleEmbeddingManager) (chunks : list Chunk)
    (wr : write_outcome) (w : World) :
  let r := add_documents wr (batch_encode_with_metadata self chunks) w in
  r.1 = Some true
  /\ documents (store r.2) = documents (store w) ++ map content chunks
  /\ embeddings (store r.2)
     = embeddings (store w)
       ++ map (fun c => get_single_embedding self (content c)) chunks
  /\ metadata (store r.2) = metadata (store w) ++ map chunk_metadata chunks
  /\ (parallel (store w) -> parallel (store r.2)).
Proof.
  simpl. rewrite add_documents_complete by apply batch_encode_complete. simpl.
  rewrite extend_batch_encode. simpl. split; [done|].
  unfold batch_encode_with_metadata.
  do 3 (split; [f_equal; by apply omap_map_total|]).
  intros [Hd Hm]. split; simpl; rewrite !length_app, !length_map; lia.
Qed.

Lemma encode_then_add_witness :
  parallel
    (store (add_documents Written
              (batch_encode_with_metadata EmbeddingManager
                 [{| content := doc_a; chunk_metadata := ∅ |}])
              empty_world).2).
Proof.
  apply (encode_then_add EmbeddingManager
           [{| content := doc_a; chunk_metadata := ∅ |}] Written empty_world).
  apply empty_store_parallel.
Defined.

(** ** Lengths of the lists of the store, and the statistics *)

Lemma partial_append_staggered c s :
  ~ complete c -> staggered s -> staggered (partial_append c s).
Proof.
  intros Hc [Hm He]. unfold partial_append, staggered, complete in *.
  destruct (ec_content c) as [d|]; [|done].
  destruct (ec_embedding c) as [e|]; simpl; rewrite ?length_app; simpl; lia.
Qed.

Lemma extend_staggered s batch :
  Forall complete batch -> staggered s -> staggered (extend s batch).
Proof.
  intros Hc [Hm He]. unfold staggered, extend; simpl. rewrite !length_app.
  rewrite !omap_length_total; [lia|..]; complete_has_key Hc.
Qed.

Lemma remove_dups_length_le {A} `{EqDecision A} (l : list A) :
  (length (remove_dups l) <= length l)%nat.
Proof.
  induction l as [|x l IH]; simpl; [lia|].
  destruct (decide_rel elem_of x l); simpl; lia.
Qed.

Lemma remove_dups_app_length {A} `{EqDecision A} (l k : list A) :
  (length (remove_dups l) <= length (remove_dups (l ++ k))
   <= length (remove_dups l) + length k)%nat.
Proof.
  split.
  - apply submseteq_length, NoDup_submseteq; [apply NoDup_remove_dups|].
    intros x. rewrite !elem_of_remove_dups, elem_of_app. tauto.
  - induction l as [|x l IH]; simpl; [apply remove_dups_length_le|].
    destruct (decide_rel elem_of x (l ++ k)) as [Hin|Hin];
      destruct (decide_rel elem_of x l) as [Hl|Hl]; simpl; try lia.
    exfalso. apply Hin, elem_of_app. by left.
Qed.

(** X12: every [add_documents], whatever it returns, and every reset
    keep the lists of the store ordered by length,
    [len(metadata) <= len(embeddings) <= len(documents)]; on such a
    store the statistics never report more files than documents. *)
Theorem store_lengths_ordered (wr : write_outcome) (batch : list EncodedChunk)
    (w : World) :
  staggered (store w) ->
  staggered (store (add_documents wr batch w).2)
  /\ staggered (store (reset_collection wr w).2)
  /\ (unique_files (get_collection_stats (store w))
      <= total_documents (get_collection_stats (store w)))%nat.
Proof.
  intros Hst. split; [|split].
  - destruct (first_incomplete batch) as [Hc|(pre & c & rest & -> & Hpre & Hc)].
    + rewrite add_documents_complete by done. simpl. by apply extend_staggered.
    + rewrite add_documents_incomplete by done. simpl.
      by apply partial_append_staggered, extend_staggered.
  - unfold reset_collection. rewrite delete_collection_spec. simpl.
    split; simpl; lia.
  - destruct Hst as [Hm He]. unfold get_collection_stats; simpl.
    etrans; [apply remove_dups_length_le|]. rewrite length_map. lia.
Qed.

Lemma store_lengths_ordered_witness :
  staggered
    (store (add_documents Written [chunk_of doc_a [1]; chunk_without_embedding]
              empty_world).2).
Proof.
  apply (store_lengths_ordered Written [chunk_of doc_a [1]; chunk_without_embedding]
           empty_world).
  split; simpl; lia.
Defined.

(** X13: after an [add_documents] that returned [True],
    [total_documents] has grown by the size of the batch, and
    [unique_files] has not decreased and has grown by at most the size
    of the batch. *)
Theorem stats_after_add (wr : write_outcome) (batch : list EncodedChunk) (w : World) :
  (add_documents wr batch w).1 = Some true ->
  let before := get_collection_stats (store w) in
  let after := get_collection_stats (store (add_documents wr batch w).2) in
  total_documents after = (total_documents before + length batch)%nat
  /\ (unique_files before <= unique_files after
      <= unique_files before + length batch)%nat.
Proof.
  intros H. apply add_documents_true in H as [Hc E]. rewrite E. simpl.
  unfold get_collection_stats, extend; simpl.
  rewrite length_app, map_app.
  rewrite !omap_length_total by complete_has_key Hc. split; [done|].
  pose proof (remove_dups_app_length
                (map (fun meta => dict_get meta "file_name"
                                    (PStr (str_of_string "Unknown"))) (metadata (store w)))
                (map (fun meta => dict_get meta "file_name"
                                    (PStr (str_of_string "Unknown")))
                     (omap ec_metadata batch))) as Hb.
  rewrite length_map, omap_length_total in Hb by complete_has_key Hc. exact Hb.
Qed.

Lemma stats_after_add_witness :
  total_documents
    (get_collection_stats
       (store (add_documents Written [chunk_of doc_a [1]; chunk_of doc_b [1]]
                 empty_world).2)) = 2%nat.
Proof.
  apply (stats_after_add Written [chunk_of doc_a [1]; chunk_of doc_b [1]] empty_world).
  reflexivity.
Defined.

(** ** The chunker: sizes, statistics and filtering *)

Lemma truthy_length s : truthy (py_strip s) = true -> (1 <= length s)%nat.
Proof.
  intros H. destruct s; [discriminate H | simpl; lia].
Qed.

Section ChunkSizes.

Variable tiktoken_len : pystr -> option nat.
Variable splitter :
  Z -> Z -> (pystr -> nat) -> list pystr -> pystr -> option (list pystr).

Lemma make_chunk_sized page page_chunks i t c :
  make_chunk tiktoken_len page page_chunks i t = Some c -> sized c.
Proof.
  unfold make_chunk. destruct (truthy (py_strip t)) eqn:E; [|done].
  intros [= <-]. apply truthy_length in E.
  exists (Z.of_nat (length t)), (Z.of_nat (count_tokens tiktoken_len t)).
  split; [reflexivity|]. split; [reflexivity|]. lia.
Qed.

Lemma make_chunk_with_sized metadata chunks i t c :
  make_chunk_with tiktoken_len metadata chunks i t = Some c -> sized c.
Proof.
  unfold make_chunk_with. destruct (truthy (py_strip t)) eqn:E; [|done].
  intros [= <-]. apply truthy_length in E.
  exists (Z.of_nat (length t)), (Z.of_nat (count_tokens tiktoken_len t)). simpl.
  split; [by rewrite lookup_insert_ne, lookup_insert_eq|].
  split; [by rewrite lookup_insert_eq|]. lia.
Qed.

Lemma omap_Forall {A B} (f : A -> option B) (P : B -> Prop) (l : list A) :
  (forall a b, f a = Some b -> P b) -> Forall P (omap f l).
Proof.
  intros H. induction l as [|a l IH]; simpl; [constructor|].
  destruct (f a) as [b|] eqn:E; [constructor; eauto | done].
Qed.

Lemma page_output_sized self page :
  Forall sized (page_output tiktoken_len splitter self page).
Proof.
  unfold page_output. destruct (split_text _ _ _ _) as [pcs|]; [|constructor].
  apply omap_Forall. intros [i t] c. apply make_chunk_sized.
Qed.

Lemma chunk_document_pages_sized self pages :
  Forall sized (chunk_document_pages tiktoken_len splitter self pages).
Proof.
  rewrite chunk_document_pages_concat.
  induction pages as [|page pages IH]; simpl; [constructor|].
  apply Forall_app. split; [apply page_output_sized | exact IH].
Qed.

End ChunkSizes.

Lemma sized_size_of c : sized c ->
  chunk_metadata c !! "chunk_size"%string = Some (PInt (size_of c))
  /\ (1 <= size_of c)%Z.
Proof.
  intros (n & t & Hn & _ & Hle & _). unfold size_of. by rewrite Hn.
Qed.

Lemma sum_items_sized chunks acc :
  Forall sized chunks ->
  exists total,
    sum_items "token_count" chunks acc = Returns total /\ (acc <= total)%Z.
Proof.
  intros H; revert acc; induction H as [|c chunks Hc _ IH]; intros acc.
  - exists acc. split; [done | lia].
  - destruct Hc as (n & t & _ & Ht & _ & Hpos).
    destruct (IH (acc + t)%Z) as (total & Hs & Hle).
    exists total. split; [|lia].
    simpl. unfold metadata_item. rewrite Ht. exact Hs.
Qed.

Lemma list_items_sized chunks :
  Forall sized chunks ->
  list_items "chunk_size" chunks = Returns (map (fun c => PInt (size_of c)) chunks).
Proof.
  induction 1 as [|c chunks Hc _ IH]; [done|].
  apply sized_size_of in Hc as [Hn _].
  simpl. unfold metadata_item. rewrite Hn. simpl. by rewrite IH.
Qed.

Lemma as_ints_PInt {A} (f : A -> Z) (l : list A) :
  as_ints (map (fun a => PInt (f a)) l) = Returns (map f l).
Proof.
  induction l as [|a l IH]; [done|]. simpl. by rewrite IH.
Qed.

Lemma fold_left_min_bounds l a :
  (fold_left Z.min l a <= a)%Z
  /\ Forall (fun x => fold_left Z.min l a <= x)%Z l.
Proof.
  revert a; induction l as [|x l IH]; intros a; simpl; [split; [lia | constructor]|].
  destruct (IH (Z.min a x)) as [Hle Hall]. split; [lia|].
  constructor; [lia | exact Hall].
Qed.

Lemma fold_left_max_bounds l a :
  (a <= fold_left Z.max l a)%Z
  /\ Forall (fun x => x <= fold_left Z.max l a)%Z l.
Proof.
  revert a; induction l as [|x l IH]; intros a; simpl; [split; [lia | constructor]|].
  destruct (IH (Z.max a x)) as [Hle Hall]. split; [lia|].
  constructor; [lia | exact Hall].
Qed.

Lemma fold_left_min_lower l a m :
  (m <= a)%Z -> Forall (fun x => m <= x)%Z l -> (m <= fold_left Z.min l a)%Z.
Proof.
  intros Ha H; revert a Ha; induction H as [|x l Hx _ IH]; intros a Ha; simpl; [done|].
  apply IH. lia.
Qed.

Lemma list_min_bounds l :
  Forall (fun x => list_min l <= x)%Z l.
Proof.
  destruct l as [|x l]; [constructor|]. simpl.
  destruct (fold_left_min_bounds l x) as [Hle Hall]. by constructor.
Qed.

Lemma list_max_bounds l :
  Forall (fun x => x <= list_max l)%Z l.
Proof.
  destruct l as [|x l]; [constructor|]. simpl.
  destruct (fold_left_max_bounds l x) as [Hle Hall]. by constructor.
Qed.

Lemma sum_Z_acc l a : fold_left Z.add l a = (a + fold_left Z.add l 0)%Z.
Proof.
  revert a; induction l as [|x l IH]; intros a; simpl; [lia|].
  rewrite (IH (a + x)%Z), (IH (0 + x)%Z). lia.
Qed.

Lemma sum_Z_bounds l lo hi :
  Forall (fun x => lo <= x <= hi)%Z l ->
  (lo * Z.of_nat (length l) <= sum_Z l <= hi * Z.of_nat (length l))%Z.
Proof.
  unfold sum_Z. induction 1 as [|x l Hx _ IH]; [simpl; lia|].
  cbn [fold_left]. rewrite sum_Z_acc.
  change (length (x :: l)) with (S (length l)). lia.
Qed.

(** The mean of a non-empty list of integers lies between its minimum
    and its maximum. *)
Lemma mean_between l :
  l <> [] ->
  IZR (list_min l) <= IZR (sum_Z l) / INR (length l) <= IZR (list_max l).
Proof.
  intros Hne.
  assert (Forall (fun x => list_min l <= x <= list_max l)%Z l) as Hb.
  { pose proof (list_min_bounds l) as Hmin. pose proof (list_max_bounds l) as Hmax.
    rewrite Forall_forall in Hmin, Hmax. apply Forall_forall. intros x Hx.
    split; [by apply Hmin | by apply Hmax]. }
  apply sum_Z_bounds in Hb as [Hlo Hhi].
  assert (0 < INR (length l)) as Hpos.
  { apply lt_0_INR. destruct l; [done | simpl; lia]. }
  rewrite INR_IZR_INZ in *.
  apply IZR_le in Hlo, Hhi. rewrite mult_IZR in Hlo, Hhi.
  split.
  - apply (Rmult_le_reg_r (IZR (Z.of_nat (length l)))); [done|].
    unfold Rdiv. rewrite Rmult_assoc, Rinv_l by lra. lra.
  - apply (Rmult_le_reg_r (IZR (Z.of_nat (length l)))); [done|].
    unfold Rdiv. rewrite Rmult_assoc, Rinv_l by lra. lra.
Qed.

Lemma get_chunk_statistics_sized chunks :
  Forall sized chunks ->
  exists st,
    get_chunk_statistics chunks = Returns st
    /\ cs_total_chunks st = length chunks
    /\ (0 <= cs_total_tokens st)%Z
    /\ (chunks <> [] ->
        (1 <= cs_min_chunk_size st)%Z
        /\ IZR (cs_min_chunk_size st) <= cs_avg_chunk_size st
           <= IZR (cs_max_chunk_size st)).
Proof.
  intros Hs. destruct chunks as [|c0 rest] eqn:Hchunks.
  { eexists. split; [reflexivity|]. simpl. split; [done|]. split; [lia|]. done. }
  rewrite <- Hchunks in *.
  destruct (sum_items_sized chunks 0 Hs) as (total & Hsum & Htot).
  exists {| cs_total_chunks := length chunks;
            cs_total_tokens := total;
            cs_avg_chunk_size :=
              IZR (sum_Z (map size_of chunks))
              / INR (length (map (fun c => PInt (size_of c)) chunks));
            cs_min_chunk_size := list_min (map size_of chunks);
            cs_max_chunk_size := list_max (map size_of chunks) |}.
  split.
  - unfold get_chunk_statistics. rewrite Hchunks at 1. rewrite Hsum. simpl.
    rewrite list_items_sized by done. simpl. by rewrite as_ints_PInt.
  - simpl. split; [done|]. split; [done|]. intros _. split.
    + assert (map size_of chunks <> []) as Hne by (by rewrite Hchunks).
      destruct (map size_of chunks) as [|x l] eqn:E; [done|]. simpl.
      assert (Forall (fun n => 1 <= n)%Z (x :: l)) as Hall.
      { rewrite <- E. change (map size_of chunks) with (size_of <$> chunks).
        apply Forall_fmap. eapply Forall_impl; [exact Hs|].
        intros c Hc. by apply sized_size_of in Hc as [_ ?]. }
      apply Forall_cons in Hall as [Hx Hl]. by apply fold_left_min_lower.
    + rewrite !length_map. rewrite <- (length_map size_of chunks).
      apply mean_between. by rewrite Hchunks.
Qed.

(** X16: on the chunks that [chunk_document_pages] returns,
    [get_chunk_statistics] never raises: [total_chunks] is their number,
    [total_tokens] is not negative and, unless there is no chunk, the
    smallest size is at least 1 and the average size lies between the
    smallest and the largest. *)
Theorem chunk_statistics_of_chunker_output
    (tiktoken_len : pystr -> option nat)
    (splitter : Z -> Z -> (pystr -> nat) -> list pystr -> pystr -> option (list pystr))
    (self : TextChunker) (pages : list PageRecord) :
  let chunks := chunk_document_pages tiktoken_len splitter self pages in
  exists st,
    get_chunk_statistics chunks = Returns st
    /\ cs_total_chunks st = length chunks
    /\ (0 <= cs_total_tokens st)%Z
    /\ (chunks <> [] ->
        (1 <= cs_min_chunk_size st)%Z
        /\ IZR (cs_min_chunk_size st) <= cs_avg_chunk_size st
           <= IZR (cs_max_chunk_size st)).
Proof. apply get_chunk_statistics_sized, chunk_document_pages_sized. Qed.

Lemma filter_sized_cons c rest mn mx :
  sized c ->
  filter_chunks_by_size (c :: rest) mn mx
  = if decide (size_within mn mx c)
    then filtered ← filter_chunks_by_size rest mn mx; Returns (c :: filtered)
    else filter_chunks_by_size rest mn mx.
Proof.
  intros Hc. apply sized_size_of in Hc as [Hn _].
  cbn [filter_chunks_by_size]. unfold metadata_item. rewrite Hn.
  cbn [mbind outcome_bind int_lt].
  unfold size_within.
  destruct (size_of c <? mn)%Z eqn:E1;
    [apply Z.ltb_lt in E1 | apply Z.ltb_ge in E1].
  { destruct (decide _) as [[H _]|_]; [lia | done]. }
  destruct mx as [m|]; cbn [exceeds].
  - destruct (m =? 0)%Z eqn:E0; [apply Z.eqb_eq in E0 | apply Z.eqb_neq in E0].
    + cbn [mbind outcome_bind]. destruct (decide _) as [_|H]; [done|].
      exfalso; apply H; split; [done | by left].
    + cbn [int_gt mbind outcome_bind].
      destruct (m <? size_of c)%Z eqn:E2;
        [apply Z.ltb_lt in E2 | apply Z.ltb_ge in E2].
      * destruct (decide _) as [[_ [H|H]]|_]; [lia | lia | done].
      * destruct (decide _) as [_|H]; [done|].
        exfalso; apply H; split; [done | by right].
  - cbn [mbind outcome_bind]. destruct (decide _) as [_|H]; [done|].
    exfalso; apply H; split; done.
Qed.

Lemma filter_chunks_sized chunks mn mx :
  Forall sized chunks ->
  filter_chunks_by_size chunks mn mx = Returns (filter (size_within mn mx) chunks).
Proof.
  induction 1 as [|c rest Hc _ IH]; [done|].
  rewrite filter_sized_cons by done. rewrite IH.
  destruct (decide (size_within mn mx c)) as [H|H].
  - by rewrite filter_cons_True.
  - by rewrite filter_cons_False.
Qed.

(** X17: on chunks that record an integer size (those of the chunker),
    [filter_chunks_by_size] never raises and returns, in their order,
    exactly the chunks whose size is at least [min_size] and at most
    [max_size]; a [max_size] of 0 is no bound at all, like [None];
    filtering the result again changes nothing.  A chunk without the
    key ['chunk_size'] makes the whole call raise, with no partial
    result. *)
Theorem filter_chunks_by_size_spec (chunks : list Chunk) (min_size : Z)
    (max_size : option Z) :
  (Forall sized chunks ->
     filter_chunks_by_size chunks min_size max_size
     = Returns (filter (size_within min_size max_size) chunks)
     /\ filter_chunks_by_size (filter (size_within min_size max_size) chunks)
          min_size max_size
        = Returns (filter (size_within min_size max_size) chunks))
  /\ filter_chunks_by_size chunks min_size (Some 0%Z)
     = filter_chunks_by_size chunks min_size None
  /\ (forall pre c rest,
        chunks = pre ++ c :: rest -> Forall sized pre ->
        chunk_metadata c !! "chunk_size"%string = None ->
        filter_chunks_by_size chunks min_size max_size
        = Raises (key_error "chunk_size")).
Proof.
  split; [|split].
  - intros Hs. split; [by apply filter_chunks_sized|].
    assert (Forall sized (filter (size_within min_size max_size) chunks)) as Hf.
    { apply Forall_forall. intros c Hc. apply list_elem_of_filter in Hc as [_ Hc].
      rewrite Forall_forall in Hs. by apply Hs. }
    rewrite (filter_chunks_sized _ _ _ Hf).
    f_equal. apply filter_all. apply Forall_forall. intros c Hc.
    by apply list_elem_of_filter in Hc as [? _].
  - induction chunks as [|c rest IH]; [done|].
    cbn [filter_chunks_by_size]. rewrite IH.
    destruct (metadata_item c "chunk_size") as [v|msg]; [|done].
    cbn [mbind outcome_bind]. by destruct (int_lt v min_size) as [[|]|msg].
  - intros pre c rest -> Hpre Hmiss.
    induction Hpre as [|c' pre Hc' _ IH].
    + cbn [app filter_chunks_by_size]. unfold metadata_item. by rewrite Hmiss.
    + rewrite <- app_comm_cons, filter_sized_cons by done. rewrite IH.
      by destruct (decide _).
Qed.

Lemma filter_chunks_by_size_spec_witness :
  filter_chunks_by_size
    (chunk_document_pages no_tiktoken two_segments
       (TextChunker_init default_config None None) [page_one])
    filter_default_min_size (Some 0%Z)
  = Returns
      (filter (size_within filter_default_min_size (Some 0%Z))
         (chunk_document_pages no_tiktoken two_segments
            (TextChunker_init default_config None None) [page_one])).
Proof.
  destruct (filter_chunks_by_size_spec
              (chunk_document_pages no_tiktoken two_segments
                 (TextChunker_init default_config None None) [page_one])
              filter_default_min_size (Some 0%Z)) as [H _].
  destruct (H (chunk_document_pages_sized _ _ _ _)) as [H1 _]. exact H1.
Defined.

(** ** The chunker: the two entry points *)

Section ChunkTextFacts.

Variable tiktoken_len : pystr -> option nat.
Variable splitter :
  Z -> Z -> (pystr -> nat) -> list pystr -> pystr -> option (list pystr).

Lemma make_chunk_with_other metadata chunks i t c k :
  make_chunk_with tiktoken_len metadata chunks i t = Some c ->
  k <> "chunk_index"%string -> k <> "total_chunks"%string ->
  k <> "chunk_size"%string -> k <> "token_count"%string ->
  chunk_metadata c !! k = metadata !! k.
Proof.
  unfold make_chunk_with. destruct (truthy (py_strip t)); [|done].
  intros [= <-] H1 H2 H3 H4. simpl. by rewrite !lookup_insert_ne.
Qed.

Lemma make_chunk_with_index metadata chunks i t c :
  make_chunk_with tiktoken_len metadata chunks i t = Some c ->
  chunk_metadata c !! "chunk_index"%string = Some (PInt (Z.of_nat i))
  /\ chunk_metadata c !! "total_chunks"%string
     = Some (PInt (Z.of_nat (length chunks))).
Proof.
  unfold make_chunk_with. destruct (truthy (py_strip t)); [|done].
  intros [= <-]. simpl. split.
  - rewrite !lookup_insert_ne by done. by rewrite lookup_insert_eq.
  - rewrite !lookup_insert_ne by done. by rewrite lookup_insert_eq.
Qed.

(** X18: [chunk_text_with_metadata] on the text of a page, with the file
    name and page number as metadata, returns the chunks that
    [chunk_document_pages] returns for that page; when the splitter
    raises, the first raises too while the second returns no chunk.  In
    general its chunks keep every key of the given metadata except
    ['chunk_index'], ['total_chunks'], ['chunk_size'] and
    ['token_count'], which are replaced. *)
Theorem chunk_text_with_metadata_agrees (self : TextChunker) (page : PageRecord) :
  (forall page_chunks,
     split_text tiktoken_len splitter self (pg_text page) = Some page_chunks ->
     chunk_text_with_metadata tiktoken_len splitter self (pg_text page)
       (page_metadata page)
     = Some (chunk_document_pages tiktoken_len splitter self [page]))
  /\ (split_text tiktoken_len splitter self (pg_text page) = None ->
      chunk_text_with_metadata tiktoken_len splitter self (pg_text page)
        (page_metadata page) = None
      /\ chunk_document_pages tiktoken_len splitter self [page] = [])
  /\ (forall text metadata chunks c,
        chunk_text_with_metadata tiktoken_len splitter self text metadata
        = Some chunks ->
        c ∈ chunks ->
        (exists i total,
           chunk_metadata c !! "chunk_index"%string = Some (PInt i)
           /\ chunk_metadata c !! "total_chunks"%string = Some (PInt total))
        /\ forall k,
             k <> "chunk_index"%string -> k <> "total_chunks"%string ->
             k <> "chunk_size"%string -> k <> "token_count"%string ->
             chunk_metadata c !! k = metadata !! k).
Proof.
  split; [|split].
  - intros pcs Hs. unfold chunk_text_with_metadata, chunk_document_pages.
    simpl. rewrite Hs. simpl. reflexivity.
  - intros Hs. unfold chunk_text_with_metadata, chunk_document_pages.
    simpl. rewrite Hs. done.
  - intros text metadata chunks c Hch Hin.
    unfold chunk_text_with_metadata in Hch.
    destruct (split_text _ _ _ _) as [pcs|]; simpl in Hch; [|done].
    injection Hch as <-.
    apply list_elem_of_omap in Hin as ([i t] & _ & Hmk). simpl in Hmk. split.
    + destruct (make_chunk_with_index _ _ _ _ _ Hmk) as [Hi Ht]. eauto.
    + intros k H1 H2 H3 H4. by eapply make_chunk_with_other.
Qed.

End ChunkTextFacts.

Lemma chunk_text_with_metadata_agrees_witness :
  chunk_text_with_metadata no_tiktoken three_segments
    (TextChunker_init default_config None None) (pg_text page_one)
    (page_metadata page_one)
  = Some (chunk_document_pages no_tiktoken three_segments
            (TextChunker_init default_config None None) [page_one]).
Proof.
  destruct (chunk_text_with_metadata_agrees no_tiktoken three_segments
              (TextChunker_init default_config None None) page_one) as [H _].
  eapply H. reflexivity.
Defined.

(** ** The engine: ingestion *)

Section Ingestion.

Variable tiktoken_len : pystr -> option nat.
Variable splitter :
  Z -> Z -> (pystr -> nat) -> list pystr -> pystr -> option (list pystr).

Lemma process_documents_returns wr pages file_paths self on_disk :
  let chunks := chunk_document_pages tiktoken_len splitter (text_chunker self) pages in
  let encoded := batch_encode_with_metadata (embedding_manager self) chunks in
  exists stats,
    get_chunk_statistics chunks = Returns stats
    /\ process_documents tiktoken_len splitter wr (Returns pages) file_paths self on_disk
       = ({| ingest_success := true; ingest_error := None;
             files_processed := length file_paths;
             pages_extracted := length pages;
             chunks_created := length chunks;
             chunks_stored := length encoded;
             chunk_statistics := Some stats;
             vector_store_stats :=
               Some (get_collection_stats (extend (vector_store self) encoded)) |},
          with_store self (extend (vector_store self) encoded),
          disk_after wr (extend (vector_store self) encoded)).
Proof.
  simpl.
  destruct (get_chunk_statistics_sized
              (chunk_document_pages tiktoken_len splitter (text_chunker self) pages)
              (chunk_document_pages_sized _ _ _ _)) as (st & Hst & _).
  exists st. split; [done|]. unfold process_documents.
  rewrite add_documents_complete by apply batch_encode_complete.
  by rewrite Hst.
Qed.

(** X14: [process_documents] fails exactly when the extraction raises;
    then the counts are zero and neither the store nor the file has
    changed.  When the extraction returns, the outcome is a success even
    if the write to disk failed: every chunk created is stored
    ([chunks_stored = chunks_created]), the store has grown by that many
    entries, which are the contents of the chunks in order, and the
    reported store statistics are those of the store after the call. *)
Theorem process_documents_outcome (wr : write_outcome)
    (extracted : outcome (list PageRecord)) (file_paths : list pystr)
    (self : RAGEngine) (on_disk : option SimpleVectorStore) :
  let r := process_documents tiktoken_len splitter wr extracted file_paths self on_disk in
  match extracted with
  | Raises msg =>
      r = (ingest_failure msg, self, on_disk)
  | Returns pages =>
      let chunks :=
        chunk_document_pages tiktoken_len splitter (text_chunker self) pages in
      ingest_success r.1.1 = true
      /\ files_processed r.1.1 = length file_paths
      /\ pages_extracted r.1.1 = length pages
      /\ chunks_created r.1.1 = length chunks
      /\ chunks_stored r.1.1 = chunks_created r.1.1
      /\ documents (vector_store r.1.2)
         = documents (vector_store self) ++ map content chunks
      /\ vector_store_stats r.1.1
         = Some (get_collection_stats (vector_store r.1.2))
      /\ r.2 = disk_after wr (vector_store r.1.2)
  end.
Proof.
  destruct extracted as [pages|msg]; [|reflexivity].
  cbv zeta.
  destruct (process_documents_returns wr pages file_paths self on_disk)
    as (st & _ & ->).
  cbn [fst snd].
  do 4 (split; [done|]). split.
  - cbn [chunks_stored chunks_created]. unfold batch_encode_with_metadata.
    apply length_map.
  - split; [|done]. cbn [with_store vector_store].
    by rewrite extend_batch_encode.
Qed.

(** X15: ingestion does not deduplicate: processing the same pages a
    second time stores every chunk a second time. *)
Theorem process_documents_twice (wr1 wr2 : write_outcome) (pages : list PageRecord)
    (file_paths : list pystr) (self : RAGEngine) (on_disk : option SimpleVectorStore) :
  let r1 :=
    process_documents tiktoken_len splitter wr1 (Returns pages) file_paths self on_disk in
  let r2 :=
    process_documents tiktoken_len splitter wr2 (Returns pages) file_paths r1.1.2 r1.2 in
  let contents :=
    map content
        (chunk_document_pages tiktoken_len splitter (text_chunker self) pages) in
  chunks_stored r2.1.1 = chunks_stored r1.1.1
  /\ documents (vector_store r2.1.2)
     = documents (vector_store self) ++ contents ++ contents
  /\ total_documents (get_collection_stats (vector_store r2.1.2))
     = (total_documents (get_collection_stats (vector_store self))
        + 2 * chunks_stored r1.1.1)%nat.
Proof.
  cbv zeta.
  destruct (process_documents_returns wr1 pages file_paths self on_disk)
    as (st1 & _ & ->).
  cbn [fst snd].
  destruct (process_documents_returns wr2 pages file_paths
              (with_store self
                 (extend (vector_store self)
                    (batch_encode_with_metadata (embedding_manager self)
                       (chunk_document_pages tiktoken_len splitter
                          (text_chunker self) pages))))
              (disk_after wr1
                 (extend (vector_store self)
                    (batch_encode_with_metadata (embedding_manager self)
                       (chunk_document_pages tiktoken_len splitter
                          (text_chunker self) pages)))))
    as (st2 & _ & ->).
  cbn [fst snd].
  cbn [with_store text_chunker embedding_manager vector_store chunks_stored].
  rewrite !extend_batch_encode. cbn [documents get_collection_stats total_documents].
  split; [done|]. split; [by rewrite <- app_assoc|].
  unfold batch_encode_with_metadata. rewrite !length_app, !length_map. lia.
Qed.

End Ingestion.

(** ** The engine: asking after ingestion and after a reset *)

Section AskAfter.

Variable generate_response : pystr -> pystr -> pystr -> outcome pystr.
Variable tiktoken_len : pystr -> option nat.
Variable splitter :
  Z -> Z -> (pystr -> nat) -> list pystr -> pystr -> option (list pystr).



(** X20: after [reset_system], whatever became of the write to disk, the
    call has returned [True], the status reports an empty store without
    documents, and every question gets the fixed answer for an empty
    index, without a call of the generator. *)
Theorem ask_after_reset (wr : write_outcome) (self : RAGEngine)
    (on_disk : option SimpleVectorStore) (question language : pystr) :
  let r := reset_system wr self on_disk in
  embedding_dim (embedding_manager self) <> 0%nat ->
  r.1.1 = true
  /\ st_vector_store_status (get_system_status r.1.2) = "empty"%string
  /\ st_total_documents (get_system_status r.1.2) = 0%nat
  /\ ask_question generate_response r.1.2 question language = insufficient_result.
Proof.
  cbv zeta. intros Hdim. unfold reset_system, reset_collection.
  rewrite delete_collection_spec. cbn [fst snd store default].
  split; [done|]. split; [done|]. split; [done|].
  by rewrite ask_question_unfold by done.
Qed.

End AskAfter.


Lemma ask_after_reset_witness :
  ask_question echo_generator
    (reset_system (WriteFails None)
       (RAGEngine_init default_config (Some one_entry_store))
       (Some one_entry_store)).1.2
    doc_a (str_of_string "en")
  = insufficient_result.
Proof.
  apply (ask_after_reset echo_generator (WriteFails None)
           (RAGEngine_init default_config (Some one_entry_store))
           (Some one_entry_store) doc_a (str_of_string "en")).
  unfold RAGEngine_init, EmbeddingManager, default_embedding_dim; simpl; lia.
Defined.

(** ** The keyword search *)

Lemma relevance_bounds q d : 0 <= relevance q d <= 1.
Proof.
  unfold relevance.
  set (A := list_to_set (py_split q) : gset pystr).
  set (B := list_to_set (py_split d) : gset pystr).
  assert (size (A ∩ B) <= size A)%nat as Hle
    by apply subseteq_size, intersection_subseteq_l.
  assert (0 < INR (Nat.max (size A) 1)) as Hpos by (apply lt_0_INR; lia).
  split.
  - unfold Rdiv. apply Rmult_le_pos; [apply pos_INR|].
    left. by apply Rinv_0_lt_compat.
  - apply Rmult_le_reg_r with (INR (Nat.max (size A) 1)); [done|].
    unfold Rdiv. rewrite Rmult_assoc, Rinv_l, Rmult_1_r, Rmult_1_l by lra.
    apply le_INR. lia.
Qed.

Lemma py_in_empty d : py_in [] d = true.
Proof. by destruct d. Qed.

Lemma relevance_empty d : relevance [] d = 0.
Proof.
  unfold relevance. cbn [py_split split_from truthy list_to_set foldr].
  rewrite intersection_empty_l_L, size_empty. simpl. lra.
Qed.

Lemma insert_by_score_perm x l : Permutation (insert_by_score x l) (x :: l).
Proof.
  induction l as [|y l IH]; simpl; [done|].
  destruct (decide _); [|done]. rewrite IH. apply perm_swap.
Qed.

Lemma sort_by_score_perm l : Permutation (sort_by_score l) l.
Proof.
  induction l as [|x l IH]; simpl; [done|].
  by rewrite insert_by_score_perm, IH.
Qed.

Lemma insert_by_score_sorted x l :
  StronglySorted not_below l -> StronglySorted not_below (insert_by_score x l).
Proof.
  induction 1 as [|y l Hs IH Hall]; simpl; [repeat constructor|].
  destruct (decide _) as [Hlt|Hge].
  - constructor; [done|]. rewrite insert_by_score_perm.
    constructor; [unfold not_below; lra | done].
  - constructor; [by constructor|].
    assert (similarity_score y <= similarity_score x) as Hyx by lra.
    constructor; [done|].
    eapply Forall_impl; [exact Hall|]. unfold not_below. intros z Hz. lra.
Qed.

Lemma sort_by_score_sorted l : StronglySorted not_below (sort_by_score l).
Proof.
  induction l as [|x l IH]; simpl; [constructor | by apply insert_by_score_sorted].
Qed.

(** The sort is stable: the results of one score keep their order. *)
Lemma insert_by_score_stable v x l :
  filter (has_score v) (insert_by_score x l) = filter (has_score v) (x :: l).
Proof.
  induction l as [|y l IH]; simpl; [done|].
  destruct (decide (similarity_score x < similarity_score y)) as [Hlt|Hge]; [|done].
  rewrite filter_cons, IH, !filter_cons.
  destruct (decide (has_score v y)) as [Hy|Hy]; [|done].
  destruct (decide (has_score v x)) as [Hx|Hx]; [|done].
  unfold has_score in *. lra.
Qed.

Lemma sort_by_score_stable v l :
  filter (has_score v) (sort_by_score l) = filter (has_score v) l.
Proof.
  induction l as [|x l IH]; simpl; [done|].
  by rewrite insert_by_score_stable, !filter_cons, IH.
Qed.

Lemma sort_by_score_const v l :
  Forall (has_score v) l -> sort_by_score l = l.
Proof.
  induction 1 as [|x l Hx Hl IH]; simpl; [done|]. rewrite IH.
  destruct Hl as [|y l Hy Hl]; simpl; [done|].
  destruct (decide _) as [Hlt|_]; [|done]. unfold has_score in *. lra.
Qed.

Lemma filter_take_prefix {A} (P : A -> Prop) `{!forall x, Decision (P x)} n (l : list A) :
  filter P (take n l) `prefix_of` filter P l.
Proof.
  exists (filter P (drop n l)). by rewrite <- filter_app, take_drop.
Qed.

Lemma map_prefix {A B} (f : A -> B) (l1 l2 : list A) :
  l1 `prefix_of` l2 -> map f l1 `prefix_of` map f l2.
Proof. intros [k ->]. exists (map f k). apply map_app. Qed.

Lemma slice_to_take {A} k (l : list A) : exists n, slice_to k l = take n l.
Proof. unfold slice_to. destruct (0 <=? k)%Z; eauto. Qed.

Lemma imap_filter_snd {A} (P : A -> Prop) `{!forall x, Decision (P x)}
    (f : nat -> nat) (l : list A) :
  map snd (filter (fun id : nat * A => P id.2) (imap (fun i x => (f i, x)) l))
  = filter P l.
Proof.
  revert f. induction l as [|x l IH]; intros f; [done|].
  rewrite imap_cons, !filter_cons. simpl.
  specialize (IH (f ∘ S)). unfold compose in *.
  destruct (decide (P x)); simpl; by rewrite IH.
Qed.

Lemma enumerate_filter_snd {A} (P : A -> Prop) `{!forall x, Decision (P x)}
    (l : list A) :
  map snd (filter (fun id : nat * A => P id.2) (enumerate l)) = filter P l.
Proof. apply (imap_filter_snd P (fun i => i)). Qed.

Lemma enumerate_filter_filter_snd {A} (P Q : A -> Prop)
    `{!forall x, Decision (P x)} `{!forall x, Decision (Q x)} (l : list A) :
  map snd (filter (fun id : nat * A => Q id.2)
             (filter (fun id : nat * A => P id.2) (enumerate l)))
  = filter (fun d => P d /\ Q d) l.
Proof.
  rewrite <- (enumerate_filter_snd (fun d => P d /\ Q d)). f_equal.
  rewrite list_filter_filter. apply list_filter_iff. intros id; tauto.
Qed.

Section TextSearchFacts.

Variable lower : pystr -> pystr.

Lemma text_result_content self ql id r :
  text_result lower self ql id = Some r ->
  sr_content r = id.2
  /\ similarity_score r = relevance ql (lower id.2)
  /\ metadata self !! id.1 = Some (sr_metadata r).
Proof.
  unfold text_result. destruct (metadata self !! id.1) as [m|]; [|done].
  by intros [= <-].
Qed.

Lemma text_results_contents self ql v ids ms :
  mapM (text_result lower self ql) ids = Some ms ->
  map sr_content (filter (has_score v) ms)
  = map snd (filter (fun id : nat * pystr => relevance ql (lower id.2) = v) ids).
Proof.
  rewrite mapM_Some. induction 1 as [|id r ids ms Hr _ IH]; [done|].
  apply text_result_content in Hr as (Hc & Hs & _).
  rewrite !filter_cons.
  destruct (decide (has_score v r)) as [Hv|Hv];
    destruct (decide (relevance ql (lower id.2) = v)) as [Hv'|Hv'];
    unfold has_score in Hv; rewrite Hs in Hv; try done.
  simpl. by rewrite IH, Hc.
Qed.

Lemma text_results_total self ql (ids : list (nat * pystr)) :
  Forall (fun id => (id.1 < length (metadata self))%nat) ids ->
  mapM (text_result lower self ql) ids
  = Some (omap (text_result lower self ql) ids)
  /\ length (omap (text_result lower self ql) ids) = length ids.
Proof.
  induction 1 as [|id ids Hid _ [IH1 IH2]]; [done|].
  destruct (lookup_lt_is_Some_2 _ _ Hid) as [m Hm].
  assert (text_result lower self ql id
          = Some (result_of (relevance ql (lower id.2)) id.2 m)) as E
    by (unfold text_result; by rewrite Hm).
  cbn [mapM omap list_omap]. rewrite E, IH1. simpl. split; [done | by rewrite IH2].
Qed.

(** X21: the results of [search_by_text] are in descending order of
    their score; every result is a stored document, returned with its
    own metadata, whose lower-cased text contains the lower-cased
    query, and its score is the relevance of that document, a number
    between 0 and 1. *)
Theorem search_by_text_results (self : SimpleVectorStore) (query_text : pystr)
    (top_k : Z) :
  StronglySorted not_below (search_by_text lower self query_text top_k)
  /\ forall r, r ∈ search_by_text lower self query_text top_k ->
       0 <= similarity_score r <= 1
       /\ similarity_score r
          = relevance (lower query_text) (lower (sr_content r))
       /\ py_in (lower query_text) (lower (sr_content r)) = true
       /\ exists i, documents self !! i = Some (sr_content r)
                    /\ metadata self !! i = Some (sr_metadata r).
Proof.
  unfold search_by_text.
  destruct (documents self) as [|d0 ds] eqn:Hdocs.
  { split; [constructor | intros r Hr; by apply elem_of_nil in Hr]. }
  rewrite <- Hdocs.
  destruct (mapM _ _) as [ms|] eqn:E;
    [|split; [constructor | intros r Hr; by apply elem_of_nil in Hr]].
  destruct (slice_to_take top_k (sort_by_score ms)) as [n ->].
  split; [apply StronglySorted_take, sort_by_score_sorted|].
  intros r Hr. apply subseteq_take in Hr.
  rewrite sort_by_score_perm in Hr.
  apply mapM_Some in E.
  apply list_elem_of_lookup in Hr as [p Hp].
  destruct (Forall2_lookup_r _ _ _ _ _ E Hp) as (id & Hid & Hres).
  apply text_result_content in Hres as (Hc & Hs & Hm).
  apply list_elem_of_lookup_2, list_elem_of_filter in Hid as [Hmatch Hin].
  apply elem_of_lookup_imap in Hin as (i & d & -> & Hd). simpl in *.
  rewrite Hc. split; [rewrite Hs; apply relevance_bounds|].
  split; [done|]. split; [done|]. by exists i.
Qed.

(** X22: [search_by_text] keeps ties in the order of the store: the
    documents returned with a given score are the first matching
    documents of that relevance, in the order in which they were added
    ([search_similar] returns equal similarities in the opposite
    order). *)
Theorem search_by_text_ties (self : SimpleVectorStore) (query_text : pystr)
    (top_k : Z) (v : R) :
  map sr_content
      (filter (has_score v) (search_by_text lower self query_text top_k))
  `prefix_of`
  filter (fun d => text_match lower (lower query_text) d = true
                   /\ relevance (lower query_text) (lower d) = v)
         (documents self).
Proof.
  unfold search_by_text.
  destruct (documents self) as [|d0 ds] eqn:Hdocs; [apply prefix_nil|].
  rewrite <- Hdocs.
  destruct (mapM _ _) as [ms|] eqn:E; [|apply prefix_nil].
  destruct (slice_to_take top_k (sort_by_score ms)) as [n ->].
  etrans; [apply map_prefix, filter_take_prefix|].
  rewrite sort_by_score_stable, (text_results_contents _ _ _ _ _ E).
  pose proof (enumerate_filter_filter_snd
                (fun d => text_match lower (lower query_text) d = true)
                (fun d => relevance (lower query_text) (lower d) = v)
                (documents self)) as Hdocs'.
  cbv beta in Hdocs'. by rewrite Hdocs'.
Qed.

(** X23: an empty query matches every document, with relevance 0: on a
    store that has a metadata entry for every document the first
    [top_k] documents are returned, in the order of the store. *)
Theorem search_by_text_empty_query (self : SimpleVectorStore) (top_k : Z) :
  lower [] = [] ->
  (length (documents self) <= length (metadata self))%nat ->
  search_by_text lower self [] top_k
  = slice_to top_k (zip_with (result_of 0) (documents self) (metadata self)).
Proof.
  intros Hlow Hlen. unfold search_by_text. rewrite Hlow.
  destruct (documents self) as [|d0 ds] eqn:Hdocs.
  { simpl. unfold slice_to. destruct (0 <=? top_k)%Z; by rewrite take_nil. }
  rewrite <- Hdocs in *. clear Hdocs d0 ds.
  rewrite filter_all
    by (apply Forall_forall; intros id _; unfold text_match; apply py_in_empty).
  assert (mapM (text_result lower self []) (enumerate (documents self))
          = Some (zip_with (result_of 0) (documents self) (metadata self))) as ->.
  { apply mapM_Some. apply Forall2_same_length_lookup_2.
    - unfold enumerate. rewrite length_imap, length_zip_with. lia.
    - intros i id r Hid Hr. unfold enumerate in Hid.
      rewrite list_lookup_imap in Hid.
      destruct (documents self !! i) as [d|] eqn:Hd; [|done].
      injection Hid as <-.
      apply lookup_zip_with_Some in Hr as (d' & m & -> & Hd' & Hm).
      rewrite Hd in Hd'. injection Hd' as <-.
      unfold text_result. simpl. rewrite Hm. simpl.
      by rewrite relevance_empty. }
  rewrite (sort_by_score_const 0); [done|].
  apply Forall_forall. intros r Hr.
  apply list_elem_of_lookup in Hr as [i Hi].
  by apply lookup_zip_with_Some in Hi as (d & m & -> & _ & _).
Qed.

End TextSearchFacts.

Lemma search_by_text_results_witness :
  py_in (ascii_lower (str_of_string "a")) (ascii_lower doc_a) = true
  /\ exists i, documents tie_store !! i = Some doc_a.
Proof.
  destruct (search_by_text_results ascii_lower tie_store (str_of_string "a") 3)
    as [_ H].
  destruct (H (result_of (relevance (ascii_lower (str_of_string "a"))
                            (ascii_lower doc_a)) doc_a ∅))
    as (_ & _ & Hin & i & Hi & _).
  - left.
  - split; [exact Hin | by exists i].
Defined.

Lemma search_by_text_empty_query_witness :
  map sr_content (search_by_text ascii_lower tie_store [] 2) = [doc_a; doc_b].
Proof.
  rewrite (search_by_text_empty_query ascii_lower tie_store 2).
  - reflexivity.
  - reflexivity.
  - simpl. lia.
Defined.

(** ** The selection of the language model *)

Lemma provider_name_inj c1 c2 : provider_name c1 = provider_name c2 -> c1 = c2.
Proof. by destruct c1, c2. Qed.

Lemma LLMManager_init_parts cfg requested m :
  LLMManager_init cfg requested = Returns m ->
  provider m = requested
  /\ openai_llm m = {| llm_class := OpenAILLM; api_key := OPENAI_API_KEY cfg |}
  /\ anthropic_llm m
     = {| llm_class := AnthropicLLM; api_key := ANTHROPIC_API_KEY cfg |}
  /\ openrouter_llm m
     = {| llm_class := OpenRouterLLM; api_key := OPENROUTER_API_KEY cfg |}.
Proof.
  unfold LLMManager_init. cbv zeta.
  destruct (select_llm _ _ _ _) as [current|msg]; [|done].
  by intros [= <-].
Qed.

(** X24: [LLMManager(provider)] raises exactly when
    [Config.validate_config()] reports the missing keys.  Otherwise the
    selected model has a key; it is the requested one when that has a
    key, and else the first with a key in the order OpenRouter, OpenAI,
    Anthropic; the attribute [provider] keeps the requested name in
    both cases. *)
Theorem llm_manager_init_outcome (cfg : ApiKeys) (requested : pystr) :
  match LLMManager_init cfg requested with
  | Raises msg => validate_config cfg <> [] /\ msg = no_provider_message
  | Returns m =>
      validate_config cfg = []
      /\ is_available (current_llm m) = true
      /\ provider m = requested
      /\ api_key (current_llm m) = key_of cfg (llm_class (current_llm m))
      /\ (forall c, requested = provider_name c ->
                    key_truthy (key_of cfg c) = true ->
                    llm_class (current_llm m) = c)
      /\ ((forall c, requested = provider_name c ->
                     key_truthy (key_of cfg c) = false) ->
          Some (llm_class (current_llm m)) = first_available cfg)
  end.
Proof.
  unfold LLMManager_init, select_llm, validate_config, first_available, is_available.
  cbv zeta. cbn [api_key].
  destruct (key_truthy (OPENROUTER_API_KEY cfg)) eqn:Kr;
    destruct (key_truthy (OPENAI_API_KEY cfg)) eqn:Ko;
    destruct (key_truthy (ANTHROPIC_API_KEY cfg)) eqn:Ka;
    repeat case_bool_decide; subst;
    cbn [andb negb mbind outcome_bind mret outcome_ret current_llm provider
         llm_class api_key key_of];
    try done;
    (split; [done|]); (split; [done|]); (split; [done|]); (split; [done|]);
    (split;
     [ intros c Hc Hk;
       first [ by apply provider_name_inj in Hc
             | destruct c; cbn [key_of provider_name] in *; congruence ]
     | intros Hno;
       first [ done
             | pose proof (Hno OpenRouterLLM eq_refl); cbn [key_of] in *; congruence
             | pose proof (Hno OpenAILLM eq_refl); cbn [key_of] in *; congruence
             | pose proof (Hno AnthropicLLM eq_refl); cbn [key_of] in *; congruence ] ]).
Qed.

(** X25: on a manager built by [LLMManager(provider)],
    [switch_provider(name)] succeeds exactly for the names that
    [get_available_providers()] lists; then [provider] is [name] and
    names the class of the current model, which has a key.  Otherwise it
    raises the ValueError that carries the name. *)
Theorem switch_provider_outcome (cfg : ApiKeys) (requested name : pystr)
    (m : LLMManager) :
  LLMManager_init cfg requested = Returns m ->
  match switch_provider m name with
  | Returns m' =>
      name ∈ get_available_providers m
      /\ provider m' = name
      /\ provider_name (llm_class (current_llm m')) = name
      /\ is_available (current_llm m') = true
      /\ get_available_providers m' = get_available_providers m
  | Raises msg =>
      (name ∉ get_available_providers m)
      /\ msg = str_of_string "Provider " ++ name ++ str_of_string " not available"
  end.
Proof.
  intros Hinit. apply LLMManager_init_parts in Hinit as (_ & Ho & Ha & Hr).
  unfold switch_provider, get_available_providers.
  rewrite Ho, Ha, Hr. unfold is_available. cbn [api_key].
  destruct (key_truthy (OPENROUTER_API_KEY cfg)) eqn:Kr;
    destruct (key_truthy (OPENAI_API_KEY cfg)) eqn:Ko;
    destruct (key_truthy (ANTHROPIC_API_KEY cfg)) eqn:Ka;
    repeat case_bool_decide; subst;
    cbn [andb with_current current_llm provider llm_class api_key provider_name
         openai_llm anthropic_llm openrouter_llm app];
    rewrite ?Ho, ?Ha, ?Hr; cbn [api_key]; rewrite ?Kr, ?Ko, ?Ka;
    try done;
    (split; [|done]);
    first [ rewrite !elem_of_cons; auto; fail
          | apply not_elem_of_nil
          | rewrite !not_elem_of_cons; repeat split;
            first [ done | apply not_elem_of_nil
                  | intros E; cbv in E; discriminate E ] ].
Qed.

Lemma llm_manager_init_outcome_witness :
  exists m,
    LLMManager_init openai_only default_provider = Returns m
    /\ provider m = str_of_string "openrouter"
    /\ llm_class (current_llm m) = OpenAILLM.
Proof.
  pose proof (llm_manager_init_outcome openai_only default_provider) as H.
  destruct (LLMManager_init openai_only default_provider) as [m|msg] eqn:E.
  - destruct H as (_ & _ & Hp & _ & _ & Hfirst).
    exists m. split; [done|]. split; [exact Hp|].
    assert (Some (llm_class (current_llm m)) = first_available openai_only) as Hc.
    { apply Hfirst. intros c Hc. destruct c; [discriminate Hc.. | reflexivity]. }
    by injection Hc.
  - destruct H as [H _]. by contradict H.
Defined.

Lemma switch_provider_outcome_witness :
  exists m m',
    LLMManager_init openai_only default_provider = Returns m
    /\ switch_provider m (str_of_string "openai") = Returns m'
    /\ provider m' = str_of_string "openai".
Proof.
  destruct (LLMManager_init openai_only default_provider) as [m|msg] eqn:E;
    [|discriminate E].
  pose proof (switch_provider_outcome openai_only default_provider
                (str_of_string "openai") m E) as H.
  destruct (switch_provider m (str_of_string "openai")) as [m'|msg] eqn:E'.
  - exists m, m'. destruct H as (_ & Hp & _). by repeat split.
  - destruct H as [Hnot _]. contradict Hnot.
    injection E as <-. by left.
Defined.

(** ** The document processor *)

Lemma lstrip_suffix s : exists pre, s = pre ++ lstrip s.
Proof.
  induction s as [|c s [pre IH]]; [by exists []|]. simpl.
  destruct (py_isspace c); [|by exists []].
  exists (c :: pre). simpl. by rewrite <- IH.
Qed.

Lemma lstrip_Forall (P : Z -> Prop) s : Forall P s -> Forall P (lstrip s).
Proof.
  intros H. destruct (lstrip_suffix s) as [pre E]. rewrite E in H.
  by apply Forall_app in H as [_ H].
Qed.

Lemma py_strip_Forall (P : Z -> Prop) s : Forall P s -> Forall P (py_strip s).
Proof.
  intros H. unfold py_strip.
  by apply List.Forall_rev, lstrip_Forall, List.Forall_rev, lstrip_Forall.
Qed.

Lemma py_strip_last s c : last (py_strip s) = Some c -> py_isspace c = false.
Proof.
  unfold py_strip. destruct (lstrip (rev (lstrip s))) as [|d X] eqn:E; [done|].
  simpl. rewrite last_snoc. intros [= <-]. by eapply lstrip_head.
Qed.

Lemma py_strip_head s c : head (py_strip s) = Some c -> py_isspace c = false.
Proof.
  unfold py_strip. destruct (lstrip_suffix (rev (lstrip s))) as [pre E].
  apply (f_equal (@rev Z)) in E. rewrite rev_involutive, rev_app_distr in E.
  destruct (rev (lstrip (rev (lstrip s)))) as [|d X]; [done|].
  simpl. intros [= <-]. by eapply lstrip_head.
Qed.

Lemma collapse_from_spaces b s :
  Forall (fun c => py_isspace c = true -> c = 32%Z) (collapse_from b s).
Proof.
  revert b. induction s as [|c s IH]; intros b; simpl; [constructor|].
  destruct (py_isspace c) eqn:E.
  - destruct b; [apply IH | constructor; [done | apply IH]].
  - constructor; [congruence | apply IH].
Qed.

Lemma replace_char_absent a b s :
  Forall (fun c => c <> a) s -> replace_char a b s = s.
Proof.
  induction 1 as [|c s Hc _ IH]; [done|]. simpl.
  apply Z.eqb_neq in Hc. rewrite Hc. by f_equal.
Qed.

Section PdfFacts.

Variable basename : pystr -> pystr.
Variable pdf_page_texts : pystr -> outcome (list pystr).

Lemma pdf_page_Some file_path it page :
  pdf_page basename file_path it = Some page
  <-> ~ blank it.2
      /\ page = page_record basename file_path (Z.of_nat it.1 + 1) (py_strip it.2).
Proof.
  unfold pdf_page. destruct (truthy (py_strip it.2)) eqn:E.
  - apply truthy_strip in E. split; [by intros [= <-] | by intros [_ ->]].
  - split; [done|]. intros [Hb _]. apply truthy_strip in Hb. congruence.
Qed.

Lemma pdf_pages_from file_path (k : nat) (texts : list pystr) :
  let pages :=
    omap (pdf_page basename file_path) (imap (fun i x => ((k + i)%nat, x)) texts) in
  StronglySorted (fun p q => (page_number_of p < page_number_of q)%Z) pages
  /\ Forall (fun p => (Z.of_nat k + 1 <= page_number_of p)%Z) pages
  /\ length pages = length (filter (fun t => ~ blank t) texts).
Proof.
  cbv zeta.
  assert (forall n t, page_number_of (page_record basename file_path n t) = n)
    as Hn by done.
  revert k. induction texts as [|t texts IH]; intros k.
  { split; [constructor|]. split; [constructor | done]. }
  rewrite imap_cons.
  rewrite (imap_ext _ (fun i x => ((S k + i)%nat, x)))
    by (intros i x _; simpl; f_equal; lia).
  destruct (IH (S k)) as (Hs & Hge & Hlen).
  cbn [omap list_omap]. rewrite filter_cons.
  destruct (pdf_page basename file_path ((k + 0)%nat, t)) as [p|] eqn:E.
  - apply pdf_page_Some in E as [Hb ->]. simpl in Hb.
    rewrite decide_True by done.
    split; [|split].
    + constructor; [done|]. eapply Forall_impl; [exact Hge|].
      intros q Hq. cbv beta in Hq. rewrite Hn. cbn [fst]. lia.
    + constructor; [rewrite Hn; cbn [fst]; lia|].
      eapply Forall_impl; [exact Hge|]. intros q Hq. cbv beta in Hq. lia.
    + cbn [length]. by rewrite Hlen.
  - assert (blank t) as Hb.
    { destruct (decide (blank t)) as [|Hnb]; [done|].
      assert (is_Some (pdf_page basename file_path ((k + 0)%nat, t))) as [p Hp]
        by (eexists; by apply pdf_page_Some).
      congruence. }
    rewrite decide_False by tauto.
    split; [done|]. split; [|done].
    eapply Forall_impl; [exact Hge|]. intros q Hq. cbv beta in Hq. lia.
Qed.

(** X27: the pages that [extract_text_from_pdf] returns are the pages
    of the file whose text is not blank, each with its stripped text and
    numbered with its position in the file, counted from 1: a blank page
    is left out and the pages after it keep their numbers, which are
    strictly increasing. *)
Theorem pdf_page_numbers (file_path : pystr) (texts : list pystr) :
  pdf_page_texts file_path = Returns texts ->
  exists pages,
    extract_text_from_pdf basename pdf_page_texts file_path = Returns pages
    /\ (forall page,
          page ∈ pages
          <-> exists i t,
                texts !! i = Some t /\ ~ blank t
                /\ page = page_record basename file_path (Z.of_nat i + 1)
                            (py_strip t))
    /\ StronglySorted (fun p q => (page_number_of p < page_number_of q)%Z) pages
    /\ length pages = length (filter (fun t => ~ blank t) texts).
Proof.
  intros Htexts. unfold extract_text_from_pdf. rewrite Htexts.
  eexists. split; [reflexivity|].
  destruct (pdf_pages_from file_path 0 texts) as (Hs & _ & Hlen).
  split; [|by split].
  intros page. rewrite list_elem_of_omap. split.
  - intros (it & Hin & Hp).
    apply elem_of_lookup_imap in Hin as (i & t & -> & Ht).
    apply pdf_page_Some in Hp as [Hb ->]. by exists i, t.
  - intros (i & t & Ht & Hb & ->). exists (i, t). split.
    + by apply (elem_of_lookup_imap_2 (fun i x => (i, x))).
    + by apply pdf_page_Some.
Qed.

End PdfFacts.

Section DocumentFacts.

Variable lower : pystr -> pystr.
Variable path_suffix : pystr -> pystr.
Variable basename : pystr -> pystr.
Variable stat_size : pystr -> outcome Z.
Variable path_exists : pystr -> bool.
Variable allowed_joined : pystr.
Variable pdf_page_texts : pystr -> outcome (list pystr).
Variable docx_texts : pystr -> outcome (list pystr * list pystr).
Variable read_text : pystr -> outcome pystr.
Variable is_word : Z -> bool.


Lemma validate_file_true file_path message :
  (validate_file lower path_suffix stat_size path_exists allowed_joined) file_path = (true, message) ->
  message = str_of_string "File is valid"
  /\ lower (path_suffix file_path) ∈ ALLOWED_EXTENSIONS.
Proof.
  unfold validate_file. case_bool_decide as Hext; simpl; [|done].
  destruct (stat_size file_path) as [sz|e]; [|done].
  destruct (MAX_FILE_SIZE <? sz)%Z; [done|].
  destruct (path_exists file_path); simpl; [|done].
  by intros [= <-].
Qed.

(** X26: [process_document] returns pages only for a file that
    [validate_file] accepts and whose extension is [.pdf], [.docx] or
    [.txt].  A file with the extension [.doc] that exists and is not too
    large is accepted by [validate_file], and [process_document] raises
    "Unsupported file type: .doc" for it.  On a file system where a path
    whose size can be read exists, [validate_file] never answers "File
    does not exist": a missing file is reported as an error of the
    validation. *)
Theorem validation_and_dispatch (file_path : pystr) :
  (forall pages,
     (process_document lower path_suffix basename stat_size path_exists allowed_joined pdf_page_texts docx_texts read_text) file_path = Returns pages ->
     (validate_file lower path_suffix stat_size path_exists allowed_joined) file_path = (true, str_of_string "File is valid")
     /\ lower (path_suffix file_path)
        ∈ [str_of_string ".pdf"; str_of_string ".docx"; str_of_string ".txt"])
  /\ (forall st_size,
        lower (path_suffix file_path) = str_of_string ".doc" ->
        stat_size file_path = Returns st_size ->
        (st_size <= MAX_FILE_SIZE)%Z ->
        path_exists file_path = true ->
        (validate_file lower path_suffix stat_size path_exists allowed_joined) file_path = (true, str_of_string "File is valid")
        /\ (process_document lower path_suffix basename stat_size path_exists allowed_joined pdf_page_texts docx_texts read_text) file_path
           = Raises (str_of_string "Unsupported file type: .doc"))
  /\ ((forall st_size, stat_size file_path = Returns st_size ->
                       path_exists file_path = true) ->
      ((validate_file lower path_suffix stat_size path_exists allowed_joined) file_path).2 <> str_of_string "File does not exist").
Proof.
  split; [|split].
  - intros pages. unfold process_document.
    destruct ((validate_file lower path_suffix stat_size path_exists allowed_joined) file_path) as [[|] message] eqn:Hv; simpl; [|done].
    apply validate_file_true in Hv as [-> _]. intros H. split; [done|].
    repeat destruct (decide _) as [->|?] in H; [by left | by right; left
                                                | by right; right; left | done].
  - intros sz Hext Hst Hsz Hex.
    assert ((validate_file lower path_suffix stat_size path_exists allowed_joined) file_path = (true, str_of_string "File is valid")) as Hv.
    { unfold validate_file. rewrite Hext, Hst, Hex.
      rewrite bool_decide_eq_true_2 by (by do 3 right; left). simpl.
      by destruct (Z.ltb_spec MAX_FILE_SIZE sz); [lia|]. }
    split; [done|]. unfold process_document. rewrite Hv, Hext. simpl.
    by repeat (destruct (decide _) as [E|_]; [discriminate E|]).
  - intros Hfs. unfold validate_file. case_bool_decide as Hext; simpl; [|done].
    destruct (stat_size file_path) as [sz|e] eqn:Hst; [|done].
    destruct (MAX_FILE_SIZE <? sz)%Z; [done|].
    by rewrite (Hfs sz).
Qed.

(** X30: every page that [process_document] returns has a text that
    is not blank, the base name of the file as its file name and a page
    number of at least 1; a file that is not a PDF gives at most one
    page. *)
Theorem extracted_pages_nonblank (file_path : pystr) (pages : list PageRecord) :
  process_document lower path_suffix basename stat_size path_exists
    allowed_joined pdf_page_texts docx_texts read_text file_path
  = Returns pages ->
  Forall (fun page => ~ blank (pg_text page)
                      /\ pg_file_name page = PStr (basename file_path)
                      /\ (1 <= page_number_of page)%Z) pages
  /\ (lower (path_suffix file_path) <> str_of_string ".pdf" ->
      (length pages <= 1)%nat).
Proof.
  unfold process_document.
  destruct (validate_file _ _ _ _ _ file_path) as [[|] message]; simpl; [|done].
  destruct (decide (lower (path_suffix file_path) = str_of_string ".pdf")) as [Epdf|Epdf].
  { unfold extract_text_from_pdf.
    destruct (pdf_page_texts file_path) as [texts|e]; [|done].
    cbn [mbind outcome_bind]. intros [= <-]. split; [|done].
    apply Forall_forall. intros page Hin.
    apply list_elem_of_omap in Hin as (it & _ & Hp).
    apply pdf_page_Some in Hp as [Hb ->].
    split; [by apply py_strip_not_blank|]. split; [done|].
    unfold page_number_of, page_record. simpl. lia. }
  assert (forall text,
            ~ blank text ->
            Forall (fun page => ~ blank (pg_text page)
                                /\ pg_file_name page = PStr (basename file_path)
                                /\ (1 <= page_number_of page)%Z)
                   [page_record basename file_path 1 text]) as Hone.
  { intros text Hb. constructor; [|constructor].
    split; [done|]. split; [done|]. unfold page_number_of, page_record. simpl. lia. }
  destruct (decide (lower (path_suffix file_path) = str_of_string ".docx")) as [_|_].
  { unfold extract_text_from_docx.
    destruct (docx_texts file_path) as [content|e]; [|done].
    cbn [mbind outcome_bind].
    destruct (truthy (py_strip _)) eqn:E; intros [= <-].
    - split; [|simpl; lia]. by apply Hone, truthy_strip.
    - split; [constructor | simpl; lia]. }
  destruct (decide (lower (path_suffix file_path) = str_of_string ".txt")) as [_|_];
    [|done].
  unfold extract_text_from_txt.
  destruct (read_text file_path) as [text|e]; [|done].
  cbn [mbind outcome_bind].
  destruct (truthy (py_strip text)) eqn:E; intros [= <-].
  - split; [|simpl; lia]. by apply Hone, py_strip_not_blank, truthy_strip.
  - split; [constructor | simpl; lia].
Qed.

(** X28: the text that [clean_text] returns has no white space at its
    ends; each of its characters is kept by the character class, and
    each white-space character in it is a plain space (of which several
    may follow each other); the replacement of the line breaks changes
    nothing. *)
Theorem clean_text_shape (text : pystr) :
  let out := clean_text is_word text in
  Forall (fun c => kept_char is_word c = true
                   /\ (py_isspace c = true -> c = 32%Z)) out
  /\ (forall c, head out = Some c -> py_isspace c = false)
  /\ (forall c, last out = Some c -> py_isspace c = false)
  /\ out = py_strip (filter (fun c => kept_char is_word c = true)
                       (collapse_whitespace text)).
Proof.
  cbv zeta. unfold clean_text.
  set (kept := filter (fun c => kept_char is_word c = true)
                 (collapse_whitespace text)).
  assert (Forall (fun c => kept_char is_word c = true
                           /\ (py_isspace c = true -> c = 32%Z)) kept) as Hk.
  { apply Forall_forall. intros c Hc. apply list_elem_of_filter in Hc as [Hc Hin].
    split; [done|].
    pose proof (collapse_from_spaces false text) as Hsp.
    rewrite Forall_forall in Hsp. by apply Hsp. }
  assert (replace_char 13 32 (replace_char 10 32 kept) = kept) as ->.
  { rewrite (replace_char_absent 10); [apply replace_char_absent|];
      (eapply Forall_impl; [exact Hk|]); intros c [_ Hsp] ->;
      by specialize (Hsp eq_refl). }
  split; [by apply py_strip_Forall|].
  split; [apply py_strip_head|]. split; [apply py_strip_last | done].
Qed.

Lemma process_from_returns acc paths pagess :
  Forall2 (fun p pages => (process_document lower path_suffix basename stat_size path_exists allowed_joined pdf_page_texts docx_texts read_text) p = Returns pages) paths pagess ->
  (process_from lower path_suffix basename stat_size path_exists allowed_joined pdf_page_texts docx_texts read_text is_word) acc paths
  = Returns (acc ++ concat (map (map (clean_page is_word)) pagess)).
Proof.
  intros H. revert acc. induction H as [|p pages paths pagess Hp _ IH]; intros acc.
  - simpl. by rewrite app_nil_r.
  - cbn [process_from]. rewrite Hp. cbn [mbind outcome_bind].
    rewrite IH. simpl. by rewrite app_assoc.
Qed.

Lemma process_from_raises acc good bad rest msg :
  Forall (fun p => exists pages, (process_document lower path_suffix basename stat_size path_exists allowed_joined pdf_page_texts docx_texts read_text) p = Returns pages) good ->
  (process_document lower path_suffix basename stat_size path_exists allowed_joined pdf_page_texts docx_texts read_text) bad = Raises msg ->
  (process_from lower path_suffix basename stat_size path_exists allowed_joined pdf_page_texts docx_texts read_text is_word) acc (good ++ bad :: rest) = Raises msg.
Proof.
  intros Hgood Hbad. revert acc.
  induction Hgood as [|p good [pages Hp] _ IH]; intros acc.
  - cbn [app process_from]. by rewrite Hbad.
  - cbn [app process_from]. rewrite Hp. cbn [mbind outcome_bind]. apply IH.
Qed.

(** X29: [process_multiple_documents] returns the cleaned pages of all
    files, in the order of the files, when every file can be processed.
    When a file cannot be processed, the files before it having been
    processed, it raises the exception of that file; then
    [process_documents] of the engine reports a failure with that text
    and zero counts, and neither the store nor its file has changed:
    nothing of the other files is stored. *)
Theorem ingestion_all_or_nothing
    (tiktoken_len : pystr -> option nat)
    (splitter : Z -> Z -> (pystr -> nat) -> list pystr -> pystr -> option (list pystr))
    (wr : write_outcome) (self : RAGEngine) (on_disk : option SimpleVectorStore) :
  (forall paths pagess,
     Forall2 (fun p pages => (process_document lower path_suffix basename stat_size path_exists allowed_joined pdf_page_texts docx_texts read_text) p = Returns pages) paths pagess ->
     (process_multiple_documents lower path_suffix basename stat_size path_exists allowed_joined pdf_page_texts docx_texts read_text is_word) paths
     = Returns (concat (map (map (clean_page is_word)) pagess)))
  /\ (forall good bad rest msg,
        Forall (fun p => exists pages, (process_document lower path_suffix basename stat_size path_exists allowed_joined pdf_page_texts docx_texts read_text) p = Returns pages) good ->
        (process_document lower path_suffix basename stat_size path_exists allowed_joined pdf_page_texts docx_texts read_text) bad = Raises msg ->
        (process_multiple_documents lower path_suffix basename stat_size path_exists allowed_joined pdf_page_texts docx_texts read_text is_word) (good ++ bad :: rest) = Raises msg
        /\ process_documents tiktoken_len splitter wr
             ((process_multiple_documents lower path_suffix basename stat_size path_exists allowed_joined pdf_page_texts docx_texts read_text is_word) (good ++ bad :: rest)) (good ++ bad :: rest)
             self on_disk
           = (ingest_failure msg, self, on_disk)).
Proof.
  split.
  - intros paths pagess H. unfold process_multiple_documents.
    by rewrite (process_from_returns [] paths pagess H).
  - intros good bad rest msg Hgood Hbad.
    assert ((process_multiple_documents lower path_suffix basename stat_size path_exists allowed_joined pdf_page_texts docx_texts read_text is_word) (good ++ bad :: rest) = Raises msg) as E
      by (by apply process_from_raises).
    split; [done|]. by rewrite E.
Qed.

End DocumentFacts.

Lemma validation_and_dispatch_witness :
  validate_file ascii_lower suffix_doc one_file_stat one_file_exists
    (str_of_string ".pdf, .docx, .txt, .doc") notes_doc
  = (true, str_of_string "File is valid")
  /\ process_document ascii_lower suffix_doc (fun p => p) one_file_stat
       one_file_exists (str_of_string ".pdf, .docx, .txt, .doc")
       no_pdf no_docx no_text notes_doc
     = Raises (str_of_string "Unsupported file type: .doc").
Proof.
  destruct (validation_and_dispatch ascii_lower suffix_doc (fun p => p)
              one_file_stat one_file_exists
              (str_of_string ".pdf, .docx, .txt, .doc")
              no_pdf no_docx no_text notes_doc) as (_ & H & _).
  apply (H 10%Z); [reflexivity | reflexivity | unfold MAX_FILE_SIZE; lia | reflexivity].
Defined.

Lemma pdf_page_numbers_witness :
  exists pages,
    extract_text_from_pdf (fun p => p) three_pages notes_doc = Returns pages
    /\ length pages = 2%nat.
Proof.
  destruct (pdf_page_numbers (fun p => p) three_pages notes_doc
              [str_of_string "one"; str_of_string "  "; str_of_string " three "]
              eq_refl) as (pages & E & _ & _ & Hlen).
  exists pages. split; [exact E|]. rewrite Hlen. reflexivity.
Defined.

(** The output of [clean_text] can hold two spaces in a row, and
    cleaning it again changes it. *)
Example clean_text_double_space :
  clean_text ascii_word (str_of_string "a @ b") = str_of_string "a  b"
  /\ clean_text ascii_word (str_of_string "a  b") = str_of_string "a b".
Proof. split; reflexivity. Qed.

Lemma ingestion_all_or_nothing_witness :
  process_documents no_tiktoken two_segments Written
    (process_multiple_documents ascii_lower suffix_doc (fun p => p)
       one_file_stat one_file_exists (str_of_string ".pdf, .docx, .txt, .doc")
       no_pdf no_docx no_text ascii_word [notes_doc; str_of_string "b.txt"])
    [notes_doc; str_of_string "b.txt"]
    (RAGEngine_init default_config None) None
  = (ingest_failure (str_of_string "Unsupported file type: .doc"),
     RAGEngine_init default_config None, None).
Proof.
  destruct (ingestion_all_or_nothing ascii_lower suffix_doc (fun p => p)
              one_file_stat one_file_exists
              (str_of_string ".pdf, .docx, .txt, .doc")
              no_pdf no_docx no_text ascii_word no_tiktoken two_segments Written
              (RAGEngine_init default_config None) None) as [_ H].
  destruct (H [] notes_doc [str_of_string "b.txt"]
              (str_of_string "Unsupported file type: .doc")) as [_ E].
  - constructor.
  - reflexivity.
  - exact E.
Defined.

Lemma extracted_pages_nonblank_witness :
  Forall (fun page => ~ blank (pg_text page)
                      /\ pg_file_name page = PStr notes_doc
                      /\ (1 <= page_number_of page)%Z)
    [page_record (fun p => p) notes_doc 1 (str_of_string "one");
     page_record (fun p => p) notes_doc 3 (str_of_string "three")].
Proof.
  apply (extracted_pages_nonblank ascii_lower (fun _ => str_of_string ".PDF")
           (fun p => p) (fun _ => Returns 10%Z) (fun _ => true) []
           three_pages no_docx no_text notes_doc).
  reflexivity.
Defined.

(** Cleaning comes after the test for blank pages: a page can reach the
    chunker with an empty text. *)
Example clean_page_empty :
  pg_text (clean_page ascii_word (page_record (fun p => p) notes_doc 1 [64%Z])) = [].
Proof. reflexivity. Qed.
